(** * EMT5: a verification model of the MetaTrader 5 convenience layer

    The Python package wraps the functions of the [MetaTrader5] module in a
    handful of classes: a connection manager, info queries, an order
    executor, a calculator, a fluent order-request builder and a manager of
    several named clients.  This development embeds those classes as
    executable Rocq definitions and proves the properties the
    specification states about them.

    Conventions of the embedding.
    - Python values that flow through dictionaries are a small dynamic
      type [value]; a [dict] with string keys is a [gmap string value];
      a named tuple is the list of its fields, in declaration order.
    - A Python [float] is modelled by the rational number it denotes
      ([Qc]); every arithmetic operation is taken exact.
    - Every method is a computation in a state-and-exception monad.  The
      state holds the object the method mutates, the external world (the
      terminal, behind the [MetaTrader5] functions) and a chronological
      trace of the calls made to the outside and of the log records.
    - A call that leaves the package (the [MetaTrader5] module,
      [subprocess.Popen]) may return or raise; [time.sleep] and the logger
      only leave a mark in the trace. *)

From Stdlib Require Import ZArith QArith Qcanon Qround String Ascii List Lia.
From stdpp Require Import base gmap strings list numbers.

Open Scope Z_scope.
Open Scope string_scope.
Open Scope list_scope.

(** ** Python values *)

#[warnings="-register-all"]
Inductive value :=
| VNone
| VBool (b : bool)
| VInt (z : Z)
| VFloat (q : Qc)
| VStr (s : string)
| VDatetime (seconds : Qc)                 (* an aware UTC datetime *)
| VRecord (fields : list (string * value)) (* a named tuple *)
| VDict (d : gmap string value).

Abbreviation dict := (gmap string value).
Abbreviation record := (list (string * value)).

(** [bool(v)]: the truth value Python gives to [v]. *)
Definition truthy (v : value) : bool :=
  match v with
  | VNone => false
  | VBool b => b
  | VInt z => negb (z =? 0)%Z
  | VFloat q => negb (bool_decide (q = 0%Qc))
  | VStr s => negb (bool_decide (s = ""))
  | VDatetime _ => true
  | VRecord fs => negb (bool_decide (fs = []))
  | VDict d => negb (bool_decide (d = ∅))
  end.

(** The number a value stands for in arithmetic; [bool] is a subtype of
    [int] in Python. *)
Definition as_number (v : value) : option Qc :=
  match v with
  | VBool b => Some (Q2Qc (inject_Z (Z.b2z b)))
  | VInt z => Some (Q2Qc (inject_Z z))
  | VFloat q => Some q
  | _ => None
  end.

Definition QcZ (z : Z) : Qc := Q2Qc (inject_Z z).

(** The exceptions that can be in flight.  [Foreign] stands for any
    exception (a subclass of [Exception]) raised by code outside the
    package; the messages of the package's own exceptions are left out,
    their error code is kept. *)
Inductive exn :=
| ValueError
| TypeError
| AttributeError
| MT5ConnectionError (error_code : option Z)
| MT5OrderError (error_code : option Z)
| MT5ValidationError
| Foreign (msg : string).

Inductive outcome (A : Type) :=
| Ret (a : A)
| Raise (e : exn).
Arguments Ret {A} a.
Arguments Raise {A} e.

(** [v > n] for an integer literal [n]: numbers compare, anything else is a
    [TypeError]. *)
Definition py_gt (v : value) (n : Z) : outcome bool :=
  match as_number v with
  | Some q => Ret (bool_decide (QcZ n < q)%Qc)
  | None => Raise TypeError
  end.

(** [obj._asdict()]. *)
Definition _asdict (fields : record) : dict := list_to_map fields.

(** [getattr(obj, name)] on a named tuple. *)
Definition getattr (fields : record) (name : string) : outcome value :=
  match _asdict fields !! name with
  | Some v => Ret v
  | None => Raise AttributeError
  end.

(** ** The state-and-exception monad *)

Definition M (S A : Type) : Type := S -> outcome A * S.

Definition ret {S A} (a : A) : M S A := fun s => (Ret a, s).
Definition raise {S A} (e : exn) : M S A := fun s => (Raise e, s).
Definition bind {S A B} (m : M S A) (k : A -> M S B) : M S B :=
  fun s => match m s with
           | (Ret a, s') => k a s'
           | (Raise e, s') => (Raise e, s')
           end.
(** [try: m  except Exception as e: h e] *)
Definition try_except {S A} (m : M S A) (h : exn -> M S A) : M S A :=
  fun s => match m s with
           | (Ret a, s') => (Ret a, s')
           | (Raise e, s') => h e s'
           end.
Definition get {S} : M S S := fun s => (Ret s, s).
Definition modify {S} (f : S -> S) : M S unit := fun s => (Ret tt, f s).
Definition lift_outcome {S A} (o : outcome A) : M S A := fun s => (o, s).

Declare Scope py_scope.
Delimit Scope py_scope with py.
Notation "x <- m ;; k" := (bind m (fun x => k))
  (at level 100, m at next level, k at level 200, right associativity) : py_scope.
Notation "m ;;; k" := (bind m (fun _ => k))
  (at level 100, k at level 200, right associativity) : py_scope.
Open Scope py_scope.

(** ** core/converters.py *)

Module Converters.

(** [to_dict(obj)].  A named tuple gives the dict of its fields, a dict is
    returned as it is; [dict(obj)] succeeds on the empty string (an empty
    iterable) and fails with [TypeError] or [ValueError], hence [None], on
    the other values. *)
Definition to_dict (obj : value) : value :=
  match obj with
  | VNone => VNone
  | VRecord fs => VDict (_asdict fs)
  | VDict d => VDict d
  | VStr s => if bool_decide (s = "") then VDict ∅ else VNone
  | _ => VNone
  end.

(** [field.endswith('_msc')] *)
Definition endswith (s suffix : string) : bool :=
  let n := String.length s in
  let k := String.length suffix in
  (k <=? n)%nat && bool_decide (substring (n - k) k s = suffix).

(** [datetime.fromtimestamp(timestamp, tz=timezone.utc)] after the
    millisecond adjustment of the loop body. *)
Definition stamp (field : string) (q : Qc) : value :=
  if endswith field "_msc" || bool_decide (QcZ 10000000000 < q)%Qc
  then VDatetime (q / QcZ 1000)%Qc
  else VDatetime q.

(** One round of the [for field in time_fields] loop, on the dict being
    mutated. *)
Definition add_datetime_field (suffix field : string) : M dict unit :=
  data <- get ;;
  match data !! field with
  | None => ret tt                                   (* field not in data *)
  | Some v =>
      if truthy v then
        positive <- lift_outcome (py_gt v 0) ;;
        if (positive : bool) then
          match as_number v with
          | Some q => modify (insert (field +:+ suffix) (stamp field q))
          | None => raise TypeError
          end
        else ret tt
      else ret tt
  end.

Fixpoint add_datetime_loop (suffix : string) (time_fields : list string)
  : M dict unit :=
  match time_fields with
  | [] => ret tt
  | field :: rest =>
      add_datetime_field suffix field ;;; add_datetime_loop suffix rest
  end.

(** [add_datetime_fields(data, time_fields, suffix)].  The dict is updated
    in place and the same dict is returned, so the result pairs what the
    call returns (or raises) with the dict as the call leaves it. *)
Definition add_datetime_fields (data : option dict) (time_fields : list string)
    (suffix : string) : outcome (option dict) * option dict :=
  match data with
  | None => (Ret None, None)
  | Some d =>
      match add_datetime_loop suffix time_fields d with
      | (Ret _, d') => (Ret (Some d'), Some d')
      | (Raise e, d') => (Raise e, Some d')
      end
  end.

(** The test the record converters below write for a time field,
    [if field in d and d[field] > 0], and the companion it adds;
    [msc] tells whether the value is divided by 1000.0 first.  Unlike
    [add_datetime_fields], the value is compared without being tested for
    truth, and a large value is not taken for milliseconds. *)
Definition stamp_positive (msc : bool) (field : string) : M dict unit :=
  data <- get ;;
  match data !! field with
  | None => ret tt
  | Some v =>
      positive <- lift_outcome (py_gt v 0) ;;
      if (positive : bool) then
        match as_number v with
        | Some q =>
            modify (insert (field +:+ "_dt")
                      (VDatetime (if msc then q / QcZ 1000 else q)%Qc))
        | None => raise TypeError
        end
      else ret tt
  end.

Fixpoint stamp_each (time_fields : list (bool * string)) : M dict unit :=
  match time_fields with
  | [] => ret tt
  | (msc, field) :: rest => stamp_positive msc field ;;; stamp_each rest
  end.

(** The body of the [for] loops: [d = x._asdict()], the time fields, and
    [result.append(d)]; the first exception ends the conversion. *)
Fixpoint convert_each (time_fields : list (bool * string)) (l : list record)
  : outcome (list dict) :=
  match l with
  | [] => Ret []
  | r :: rest =>
      match stamp_each time_fields (_asdict r) with
      | (Ret _, d) =>
          match convert_each time_fields rest with
          | Ret ds => Ret (d :: ds)
          | Raise e => Raise e
          end
      | (Raise e, _) => Raise e
      end
  end.

Definition position_time_fields : list (bool * string) :=
  [(false, "time"); (false, "time_update")].


Definition convert_positions_to_dict (positions : option (list record))
  : outcome (list dict) :=
  match positions with
  | None => Ret []
  | Some l => convert_each position_time_fields l
  end.


End Converters.

(** ** The outside of the package *)

Inductive level := DEBUG | INFO | WARNING | ERROR.

(** A call that leaves the package: a function of the [MetaTrader5] module
    with its arguments, or the launch of a process. *)
Inductive call :=
| c_initialize (path : option string) (kwargs : list (string * value))
| c_last_error
| c_shutdown
| c_terminal_info
| c_version
| c_login (kwargs : list (string * value))
| c_account_info
| c_symbol_info (symbol : string)
| c_symbol_info_tick (symbol : string)
| c_order_send (request : dict)
| c_order_check (request : dict)
| c_order_calc_margin (order_type : Z) (symbol : string) (volume price : Qc)
| c_order_calc_profit (order_type : Z) (symbol : string)
    (volume price_open price_close : Qc)
| c_Popen (path : string).          (* subprocess.Popen([path], shell=False) *)

(** The trace records every call with what it returned or raised. *)
Inductive event :=
| e_call (c : call) (reply : outcome value)
| e_sleep (seconds : Qc)            (* time.sleep(seconds) *)
| e_log (lv : level)                (* logger.<level>(...) *)
| e_acquire                         (* entering  with self._lock: *)
| e_release.                        (* leaving it, by any way *)

(** The events of the lock. *)
Definition is_lock (e : event) : bool :=
  match e with
  | e_acquire | e_release => true
  | _ => false
  end.

(** What the wrappers read of a tick and of a symbol description. *)
Record tick := { ask : Qc; bid : Qc }.
Record symbol_info := {
  filling_mode : Z;
  volume_min : Qc;
  volume_max : Qc;
  volume_step : Qc
}.

(** The Python value a typed reply stands for. *)
Class Reply (A : Type) := to_value : A -> value.
#[export] Instance reply_bool : Reply bool := VBool.
#[export] Instance reply_unit : Reply unit := fun _ => VNone.
#[export] Instance reply_value : Reply value := fun v => v.
#[export] Instance reply_Qc : Reply Qc := VFloat.
#[export] Instance reply_record : Reply record := VRecord.
#[export] Instance reply_error : Reply (Z * string) :=
  fun e => VRecord [("0", VInt (fst e)); ("1", VStr (snd e))].
#[export] Instance reply_tick : Reply tick :=
  fun t => VRecord [("ask", VFloat (ask t)); ("bid", VFloat (bid t))].
#[export] Instance reply_symbol_info : Reply symbol_info :=
  fun i => VRecord [("filling_mode", VInt (filling_mode i));
                    ("volume_min", VFloat (volume_min i));
                    ("volume_max", VFloat (volume_max i));
                    ("volume_step", VFloat (volume_step i))].
#[export] Instance reply_option {A} `{Reply A} : Reply (option A) :=
  fun o => match o with Some a => to_value a | None => VNone end.

Definition reply_of {A} `{Reply A} (r : outcome A) : outcome value :=
  match r with Ret a => Ret (to_value a) | Raise e => Raise e end.

(** The terminal and the operating system, as a deterministic machine over
    a state [W]: each function consumes the state and gives back what the
    Python call returns, or the exception it raises, and the next state. *)
Class Terminal (W : Type) := {
  t_initialize : option string -> list (string * value) -> W -> outcome bool * W;
  t_last_error : W -> outcome (Z * string) * W;
  t_shutdown : W -> outcome unit * W;
  t_terminal_info : W -> outcome (option record) * W;
  t_version : W -> outcome value * W;
  t_login : list (string * value) -> W -> outcome bool * W;
  t_account_info : W -> outcome (option record) * W;
  t_symbol_info : string -> W -> outcome (option symbol_info) * W;
  t_symbol_info_tick : string -> W -> outcome (option tick) * W;
  t_order_send : dict -> W -> outcome (option record) * W;
  t_order_check : dict -> W -> outcome (option record) * W;
  t_order_calc_margin :
    Z -> string -> Qc -> Qc -> W -> outcome (option Qc) * W;
  t_order_calc_profit :
    Z -> string -> Qc -> Qc -> Qc -> W -> outcome (option Qc) * W;
  t_Popen : string -> W -> outcome unit * W
}.

(** The constants of the [MetaTrader5] module the package uses, with the
    values that module publishes ([TRADE_RETCODE_DONE] is also quoted in the
    docstring of [MT5Executor.send]). *)
Module mt5c.
Definition TRADE_ACTION_DEAL : Z := 1.
Definition TRADE_ACTION_PENDING : Z := 5.
Definition ORDER_TYPE_BUY : Z := 0.
Definition ORDER_TYPE_SELL : Z := 1.
Definition ORDER_TYPE_BUY_LIMIT : Z := 2.
Definition ORDER_TYPE_SELL_LIMIT : Z := 3.
Definition ORDER_TYPE_BUY_STOP : Z := 4.
Definition ORDER_TYPE_SELL_STOP : Z := 5.
Definition ORDER_TIME_GTC : Z := 0.
Definition ORDER_FILLING_FOK : Z := 0.
Definition ORDER_FILLING_IOC : Z := 1.
Definition ORDER_FILLING_RETURN : Z := 2.
Definition TRADE_RETCODE_DONE : Z := 10009.
Definition TRADE_ACTION_SLTP : Z := 6.
Definition TRADE_ACTION_REMOVE : Z := 8.
Definition POSITION_TYPE_BUY : Z := 0.
End mt5c.

(** The state a method runs in: the object it works on, the world, and the
    trace so far (oldest event first). *)
Record st (W O : Type) := St {
  obj : O;
  world : W;
  trace : list event
}.
Arguments St {W O} obj world trace.
Arguments obj {W O} s.
Arguments world {W O} s.
Arguments trace {W O} s.

Section Effects.
Context {W : Type} `{Terminal W} {O : Type}.

Definition emit (e : event) : M (st W O) unit :=
  modify (fun s => St (obj s) (world s) (trace s ++ [e])%list).

(** Run one function of the outside on the world and record the call and
    its reply. *)
Definition outside {A} `{Reply A} (c : call) (f : W -> outcome A * W)
  : M (st W O) A :=
  fun s => let (r, w') := f (world s) in
           (r, St (obj s) w' (trace s ++ [e_call c (reply_of r)])%list).

Definition log (lv : level) : M (st W O) unit := emit (e_log lv).
Definition sleep (seconds : Qc) : M (st W O) unit := emit (e_sleep seconds).

Definition this : M (st W O) O := fun s => (Ret (obj s), s).
Definition set_this (f : O -> O) : M (st W O) unit :=
  modify (fun s => St (f (obj s)) (world s) (trace s)).

Definition mt5_initialize path kwargs :=
  outside (c_initialize path kwargs) (t_initialize path kwargs).
Definition mt5_last_error := outside c_last_error t_last_error.
Definition mt5_shutdown := outside c_shutdown t_shutdown.
Definition mt5_terminal_info := outside c_terminal_info t_terminal_info.
Definition mt5_version := outside c_version t_version.
Definition mt5_login kwargs := outside (c_login kwargs) (t_login kwargs).
Definition mt5_symbol_info symbol :=
  outside (c_symbol_info symbol) (t_symbol_info symbol).
Definition mt5_symbol_info_tick symbol :=
  outside (c_symbol_info_tick symbol) (t_symbol_info_tick symbol).
Definition mt5_order_send request :=
  outside (c_order_send request) (t_order_send request).
Definition mt5_order_check request :=
  outside (c_order_check request) (t_order_check request).
Definition mt5_order_calc_margin ty symbol volume price :=
  outside (c_order_calc_margin ty symbol volume price)
          (t_order_calc_margin ty symbol volume price).
Definition mt5_order_calc_profit ty symbol volume price_open price_close :=
  outside (c_order_calc_profit ty symbol volume price_open price_close)
          (t_order_calc_profit ty symbol volume price_open price_close).
Definition subprocess_Popen path := outside (c_Popen path) (t_Popen path).

End Effects.

(** A further function of the terminal, [mt5.positions_get(ticket=...)]:
    what the wrappers read of an open position, and the query itself.  The
    query runs on the world like every call; it is not among the calls the
    trace records. *)
Record open_position := {
  pos_symbol : string;
  pos_volume : Qc;
  pos_type : Z;
  pos_sl : Qc;
  pos_tp : Qc
}.

Class Portfolio (W : Type) :=
  t_positions_get : Z -> W -> outcome (option (list open_position)) * W.

Definition mt5_positions_get {W O} `{Portfolio W} (ticket : Z)
  : M (st W O) (option (list open_position)) :=
  fun s => let (r, w') := t_positions_get ticket (world s) in
           (r, St (obj s) w' (trace s)).

(** Run a method of another object in the same world and trace, and hand
    back what it returned or raised together with that object. *)
Definition on_object {W O O' A} (o' : O') (m : M (st W O') A)
  : M (st W O) (outcome A * O') :=
  fun s => let (r, s') := m (St o' (world s) (trace s)) in
           (Ret (r, obj s'), St (obj s) (world s') (trace s')).

(** Run a method on a part of the object, an attribute that holds another
    object, and keep what the method did to it. *)
Definition zoom {W O O' A} (part : O -> O') (put : O' -> O -> O)
    (m : M (st W O') A) : M (st W O) A :=
  fun s => let (r, s') := m (St (part (obj s)) (world s) (trace s)) in
           (r, St (put (obj s') (obj s)) (world s') (trace s')).

(** ** core/connection.py *)

Module Connection.

(** The attributes [__init__] gives an [MT5Connection]. *)
Record connection := {
  connected : bool;
  login : option Z;
  server : option string
}.

Definition __init__ : connection :=
  {| connected := false; login := None; server := None |}.

(** The local variable [last_error] of [initialize]: the tuple of
    [mt5.last_error()] or the text of an exception. *)
Inductive last_error_var :=
| le_tuple (error : Z * string)
| le_str (text : string).

(** How one round of the [for] loop ends. *)
Inductive flow :=
| Return (b : bool)
| Continue (last_error : option last_error_var).

(** [str(e)]; the package's own messages are not modelled. *)
Definition str (e : exn) : string :=
  match e with Foreign msg => msg | _ => "" end.

Definition opt_kwarg (name : string) (v : option string) : list (string * value) :=
  match v with Some s => [(name, VStr s)] | None => [] end.

(** The positional and keyword arguments [initialize] passes to
    [mt5.initialize]: none, the path alone, or the login with the timeout,
    the portable flag and the password and server that were given, after
    the path when there is one. *)
Definition initialize_arguments (path : option string) (login : option Z)
    (password server : option string) (timeout : Z) (portable : bool)
  : option string * list (string * value) :=
  match login with
  | None =>
      match path with
      | None => (None, [])
      | Some p => (Some p, [])
      end
  | Some l =>
      (path,
       ([("login", VInt l); ("timeout", VInt timeout);
         ("portable", VBool portable)]
        ++ opt_kwarg "password" password ++ opt_kwarg "server" server)%list)
  end.

Section Methods.
Context {W : Type} `{Terminal W}.
Local Abbreviation C := (M (st W connection)).

Definition set_connected (b : bool) : C unit :=
  set_this (fun c => {| connected := b; login := login c; server := server c |}).
Definition set_login_server (l : option Z) (sv : option string) : C unit :=
  set_this (fun c => {| connected := connected c; login := l; server := sv |}).

(** The call of [mt5.initialize] the arguments select. *)
Definition call_initialize (path : option string) (login : option Z)
    (password server : option string) (timeout : Z) (portable : bool) : C bool :=
  let args := initialize_arguments path login password server timeout portable in
  mt5_initialize (fst args) (snd args).

(** [if attempt < retry - 1: time.sleep(retry_delay)] *)
Definition sleep_if_more (attempt retry : Z) (retry_delay : Qc) : C unit :=
  if (attempt <? retry - 1)%Z then sleep retry_delay else ret tt.

(** The part of a round that tries to start the terminal; [true] stands for
    the [continue] that follows a launch. *)
Definition launch_terminal (path : option string) (attempt : Z) (result : bool)
  : C bool :=
  if negb result then
    error <- mt5_last_error ;;
    match path with
    | Some p =>
        if (fst error =? -10001)%Z && negb (bool_decide (p = ""))
           && (attempt =? 0)%Z
        then
          log INFO ;;;
          try_except
            (subprocess_Popen p ;;; log INFO ;;; sleep (QcZ 5) ;;; ret true)
            (fun start_error => log WARNING ;;; ret false)
        else ret false
    | None => ret false
    end
  else ret false.

(** One round of the loop of [initialize]. *)
Definition attempt_body (path : option string) (login : option Z)
    (password server : option string) (timeout : Z) (portable : bool)
    (retry : Z) (retry_delay : Qc)
    (attempt : Z) (last_error : option last_error_var) : C flow :=
  try_except
    (result <- call_initialize path login password server timeout portable ;;
     launched <- launch_terminal path attempt result ;;
     if (launched : bool) then ret (Continue last_error)
     else if (result : bool) then
       set_connected true ;;;
       set_login_server login server ;;;
       log INFO ;;;
       ret (Return true)
     else
       error <- mt5_last_error ;;
       log WARNING ;;;
       set_connected false ;;;
       sleep_if_more attempt retry retry_delay ;;;
       ret (Continue (Some (le_tuple error))))
    (fun e =>
       log WARNING ;;;
       set_connected false ;;;
       sleep_if_more attempt retry retry_delay ;;;
       ret (Continue (Some (le_str (str e))))).

(** [last_error if isinstance(last_error, int) else None]: neither a tuple
    nor a string is an [int]. *)
Definition code_if_int (e : last_error_var) : option Z := None.

Definition truthy_last_error (e : option last_error_var) : bool :=
  match e with
  | None => false
  | Some (le_tuple _) => true
  | Some (le_str s) => negb (bool_decide (s = ""))
  end.

(** The statements after the loop. *)
Definition after_loop (last_error : option last_error_var) : C bool :=
  match last_error with
  | Some e => if truthy_last_error last_error
              then raise (MT5ConnectionError (code_if_int e))
              else raise (MT5ConnectionError None)
  | None => raise (MT5ConnectionError None)
  end.

(** [for attempt in range(retry)], from round [attempt] on, with [rounds]
    rounds left. *)
Fixpoint attempts (path : option string) (login : option Z)
    (password server : option string) (timeout : Z) (portable : bool)
    (retry : Z) (retry_delay : Qc)
    (rounds : nat) (attempt : Z) (last_error : option last_error_var) : C bool :=
  match rounds with
  | O => after_loop last_error
  | S rounds' =>
      f <- attempt_body path login password server timeout portable
             retry retry_delay attempt last_error ;;
      match f with
      | Return b => ret b
      | Continue last_error' =>
          attempts path login password server timeout portable
            retry retry_delay rounds' (attempt + 1) last_error'
      end
  end.

Definition initialize (path : option string) (login : option Z)
    (password server : option string) (timeout : Z) (portable : bool)
    (retry : Z) (retry_delay : Qc) : C bool :=
  attempts path login password server timeout portable retry retry_delay
    (Z.to_nat retry) 0 None.

Definition shutdown : C unit :=
  c <- this ;;
  if connected c then
    mt5_shutdown ;;; set_connected false ;;; log INFO
  else ret tt.

Definition is_connected : C bool :=
  c <- this ;; ret (connected c).

Definition get_terminal_info : C value :=
  c <- this ;;
  if negb (connected c) then raise (MT5ConnectionError None)
  else
    info <- mt5_terminal_info ;;
    match info with
    | Some r => ret (VDict (_asdict r))
    | None => ret VNone
    end.

Definition get_version : C value :=
  c <- this ;;
  if negb (connected c) then raise (MT5ConnectionError None)
  else mt5_version.

(** The function [login] of the class body. *)
Definition login_method (login : Z) (password server : option string)
    (timeout : Z) : C bool :=
  c <- this ;;
  if negb (connected c) then raise (MT5ConnectionError None)
  else
    try_except
      (let kwargs := ([("login", VInt login); ("timeout", VInt timeout)]
                      ++ opt_kwarg "password" password
                      ++ opt_kwarg "server" server)%list in
       result <- mt5_login kwargs ;;
       if (result : bool) then
         set_login_server (Some login) server ;;;
         log INFO ;;;
         ret true
       else
         error <- mt5_last_error ;;
         log ERROR ;;;
         ret false)
      (fun e => log ERROR ;;; ret false).

(** Attribute lookup on an instance.  [__init__] stores [connected],
    [login] and [server] in the instance; a name found there is what
    [conn.<name>] evaluates to, and only the other names reach the
    functions of the class. *)
Inductive attribute :=
| instance_value (v : value)
| class_function (name : string).

Definition class_functions : list string :=
  ["initialize"; "shutdown"; "is_connected"; "get_terminal_info";
   "get_version"; "login"].

Definition instance_dict (c : connection) : list (string * value) :=
  [("connected", VBool (connected c));
   ("login", match login c with Some l => VInt l | None => VNone end);
   ("server", match server c with Some s => VStr s | None => VNone end)].

Definition lookup_attribute (c : connection) (name : string)
  : outcome attribute :=
  match list_to_map (M := gmap string value) (instance_dict c) !! name with
  | Some v => Ret (instance_value v)
  | None => if bool_decide (name ∈ class_functions)
            then Ret (class_function name)
            else Raise AttributeError
  end.

(** [conn.login(login, password, server, timeout)], as [EMT5.login] writes
    it: the attribute is looked up on the instance and the result is
    called; [None] and an [int] are not callable. *)
Definition call_login (login : Z) (password server : option string)
    (timeout : Z) : C bool :=
  c <- this ;;
  a <- lift_outcome (lookup_attribute c "login") ;;
  match a with
  | instance_value _ => raise TypeError
  | class_function _ => login_method login password server timeout
  end.

End Methods.
End Connection.

(** ** Arithmetic on floats, taken exact *)

Definition Qc_abs (q : Qc) : Qc :=
  if bool_decide (q < 0)%Qc then (- q)%Qc else q.

Definition Qc_floor (q : Qc) : Z := Qfloor q.

(** [round(q)]: to the nearest integer, ties to the even one. *)
Definition round_half_even (q : Qc) : Z :=
  let f := Qc_floor q in
  let r := (q - QcZ f)%Qc in
  if bool_decide (r < Q2Qc (1 # 2))%Qc then f
  else if bool_decide (Q2Qc (1 # 2) < r)%Qc then (f + 1)%Z
  else if Z.even f then f else (f + 1)%Z.

(** [round(q, 2)] *)
Definition round2 (q : Qc) : Qc :=
  (QcZ (round_half_even (q * QcZ 100)) / QcZ 100)%Qc.

(** [a // b] on floats *)
Definition Qc_floordiv (a b : Qc) : Qc := QcZ (Qc_floor (a / b)).

Definition Qc_max (a b : Qc) : Qc := if bool_decide (a < b)%Qc then b else a.
Definition Qc_min (a b : Qc) : Qc := if bool_decide (b < a)%Qc then b else a.

(** [v == n] and [v != n] for an integer [n]. *)
Definition py_eq_int (v : value) (n : Z) : bool :=
  match as_number v with
  | Some q => bool_decide (q = QcZ n)
  | None => false
  end.

(** [str.lower()], on the letters A to Z. *)
Definition lower_ascii (a : ascii) : ascii :=
  let n := nat_of_ascii a in
  if (65 <=? n)%nat && (n <=? 90)%nat then ascii_of_nat (n + 32) else a.
Fixpoint lower (s : string) : string :=
  match s with
  | EmptyString => EmptyString
  | String a rest => String (lower_ascii a) (lower rest)
  end.

(** [conn.is_connected()] from a method of an object that holds [conn]. *)
Definition conn_is_connected {W O} `{Terminal W} (c : Connection.connection)
  : M (st W O) bool :=
  r <- on_object c Connection.is_connected ;; lift_outcome (fst r).

(** ** core/decorators.py *)

Module Decorators.
Section Decorators.
Context {W : Type} `{Terminal W} {O : Type}.

(** [@require_connection]: [connection] and [_connection] are what
    [getattr(self, ..., None)] finds for the two names. *)
Definition require_connection
    (connection _connection : O -> option Connection.connection)
    (func : M (st W O) value) : M (st W O) value :=
  o <- this ;;
  let conn := match connection o with
              | Some c => Some c
              | None => _connection o
              end in
  match conn with
  | None => log ERROR ;;; ret VNone
  | Some c =>
      up <- conn_is_connected c ;;
      if negb up then log ERROR ;;; ret VNone
      else func
  end.

(** [try: return func(...)  except exceptions as e: ...]: what the call
    returned, or the exception the clause caught; [caught] tells whether an
    exception is an instance of [exceptions]. *)
Definition guarded {A} (caught : exn -> bool) (func : M (st W O) A)
  : M (st W O) (A + exn) :=
  fun s => match func s with
           | (Ret a, s') => (Ret (inl a), s')
           | (Raise e, s') => if caught e then (Ret (inr e), s')
                              else (Raise e, s')
           end.

(** [for attempt in range(1, max_attempts + 1)], from round [attempt] on,
    with [rounds] rounds left; [raise last_exception] raises [TypeError]
    when no exception was stored. *)
Fixpoint retry_loop {A} (max_attempts : Z) (delay : Qc) (caught : exn -> bool)
    (log_attempts : bool) (func : M (st W O) A)
    (rounds : nat) (attempt : Z) (last_exception : option exn)
  : M (st W O) A :=
  match rounds with
  | 0%nat => match last_exception with
             | Some e => raise e
             | None => raise TypeError
             end
  | S rounds' =>
      r <- guarded caught func ;;
      match r with
      | inl a => ret a
      | inr e =>
          (if log_attempts then log WARNING else ret tt) ;;;
          (if (attempt <? max_attempts)%Z then sleep delay else log ERROR) ;;;
          retry_loop max_attempts delay caught log_attempts func
            rounds' (attempt + 1) (Some e)
      end
  end.

(** [@retry(max_attempts, delay, exceptions, log_attempts)] *)
Definition retry {A} (max_attempts : Z) (delay : Qc) (caught : exn -> bool)
    (log_attempts : bool) (func : M (st W O) A) : M (st W O) A :=
  retry_loop max_attempts delay caught log_attempts func
    (Z.to_nat max_attempts) 1 None.

(** [@catch_exceptions(exceptions, default_return, log_error, raise_error)] *)
Definition catch_exceptions {A} (caught : exn -> bool) (default_return : A)
    (log_error raise_error : bool) (func : M (st W O) A) : M (st W O) A :=
  r <- guarded caught func ;;
  match r with
  | inl a => ret a
  | inr e =>
      (if log_error then log ERROR else ret tt) ;;;
      if raise_error then raise e else ret default_return
  end.

(** [@log_execution(log_args, log_result)]: either flag only changes the
    text of a record. *)
Definition log_execution {A} (log_args log_result : bool)
    (func : M (st W O) A) : M (st W O) A :=
  log DEBUG ;;;
  try_except
    (result <- func ;; log DEBUG ;;; ret result)
    (fun e => log ERROR ;;; raise e).

End Decorators.
End Decorators.

(** ** trade/executor.py *)

Module Executor.

Record executor := {
  connection : option Connection.connection;
  default_magic : Z
}.

Definition __init__ (connection : option Connection.connection)
    (default_magic : Z) : executor :=
  {| connection := connection; default_magic := default_magic |}.

(** The time fields [send] asks [add_datetime_fields] to convert. *)
Definition send_time_fields : list string :=
  ["time"; "time_setup"; "time_expiration"; "time_done"].

Section Methods.
Context {W : Type} `{Terminal W}.
Local Abbreviation C := (M (st W executor)).

(** [except MT5OrderError: raise] then
    [except Exception as e: raise MT5OrderError(...)] *)
Definition reraise_as_order_error {A} (e : exn) : C A :=
  match e with
  | MT5OrderError code => raise (MT5OrderError code)
  | _ => raise (MT5OrderError None)
  end.

(** The two warnings logged for a return code other than
    [TRADE_RETCODE_DONE]; each message reads an attribute of the result. *)
Definition warn_retcode (result : record) : C unit :=
  retcode <- lift_outcome (getattr result "retcode") ;;
  if negb (py_eq_int retcode mt5c.TRADE_RETCODE_DONE) then
    log WARNING ;;;
    _ <- lift_outcome (getattr result "comment") ;;
    log WARNING
  else ret tt.

(** [to_dict(result)] followed by the conversion of a nested [request]
    named tuple. *)
Definition result_to_dict (result : record) : C dict :=
  match Converters.to_dict (VRecord result) with
  | VDict d =>
      match d !! "request" with
      | Some (VRecord fs) => ret (<["request" := VDict (_asdict fs)]> d)
      | _ => ret d
      end
  | _ => raise TypeError
  end.

Definition send_body (request : value) : C value :=
  match request with
  | VDict req =>
      try_except
        (result <- mt5_order_send req ;;
         match result with
         | None =>
             error <- mt5_last_error ;;
             raise (MT5OrderError (Some (fst error)))
         | Some r =>
             warn_retcode r ;;;
             result_dict <- result_to_dict r ;;
             match Converters.add_datetime_fields (Some result_dict)
                     send_time_fields "_dt" with
             | (Ret (Some d), _) => ret (VDict d)
             | (Ret None, _) => ret VNone
             | (Raise e, _) => raise e
             end
         end)
        reraise_as_order_error
  | _ => raise MT5ValidationError
  end.

Definition send (request : value) : C value :=
  Decorators.require_connection connection (fun _ => None) (send_body request).

(** [_validate_volume(request)] *)
Definition check_volume (volume : Qc) (info : symbol_info) : C unit :=
  if bool_decide (volume < volume_min info)%Qc then raise MT5ValidationError
  else if bool_decide (volume_max info < volume)%Qc then raise MT5ValidationError
  else if bool_decide (0 < volume_step info)%Qc then
    let steps := round_half_even ((volume - volume_min info) / volume_step info) in
    let expected_volume := (volume_min info + QcZ steps * volume_step info)%Qc in
    if bool_decide (Q2Qc (1 # 100000000) < Qc_abs (volume - expected_volume))%Qc
    then raise MT5ValidationError
    else ret tt
  else ret tt.

Definition _validate_volume (request : dict) : C unit :=
  match request !! "symbol", request !! "volume" with
  | Some symbol, Some volume =>
      try_except
        (match symbol with
         | VStr name =>
             symbol_info <- mt5_symbol_info name ;;
             match symbol_info with
             | None => ret tt
             | Some info =>
                 match as_number volume with
                 | Some v => check_volume v info
                 | None => raise TypeError
                 end
             end
         | _ => raise TypeError
         end)
        (fun e => match e with
                  | MT5ValidationError => raise MT5ValidationError
                  | _ => log WARNING
                  end)
  | _, _ => ret tt
  end.

Definition check_body (request : value) : C value :=
  match request with
  | VDict req =>
      _validate_volume req ;;;
      try_except
        (result <- mt5_order_check req ;;
         match result with
         | None =>
             error <- mt5_last_error ;;
             raise (MT5OrderError (Some (fst error)))
         | Some r =>
             warn_retcode r ;;;
             result_dict <- result_to_dict r ;;
             ret (VDict result_dict)
         end)
        reraise_as_order_error
  | _ => raise MT5ValidationError
  end.

Definition check (request : value) : C value :=
  Decorators.require_connection connection (fun _ => None) (check_body request).

(** The dict literal of [cancel]. *)
Definition cancel_request (ticket : value) : dict :=
  <["order" := ticket]> (<["action" := VInt mt5c.TRADE_ACTION_REMOVE]> ∅).

(** [cancel] is decorated and calls [self.send], which is decorated too. *)
Definition cancel (ticket : value) : C value :=
  Decorators.require_connection connection (fun _ => None)
    (send (VDict (cancel_request ticket))).

(** [_get_filling_mode(symbol)] *)
Definition _get_filling_mode (symbol : string) : C Z :=
  symbol_info <- mt5_symbol_info symbol ;;
  match symbol_info with
  | None => ret mt5c.ORDER_FILLING_IOC
  | Some info =>
      if negb (Z.land (filling_mode info) 1 =? 0)%Z then ret mt5c.ORDER_FILLING_IOC
      else if negb (Z.land (filling_mode info) 2 =? 0)%Z
           then ret mt5c.ORDER_FILLING_FOK
           else ret mt5c.ORDER_FILLING_RETURN
  end.

End Methods.

(** The methods that look the position up first.  [sl], [tp] and [volume]
    are compared with [None]; nothing in these methods is inside a [try]. *)
Module OnPosition.

(** The dict literal of [modify]. *)
Definition modify_request (ticket : Z) (symbol : string) (sl tp : value) : dict :=
  <["tp" := tp]>
  (<["sl" := sl]>
  (<["symbol" := VStr symbol]>
  (<["position" := VInt ticket]>
  (<["action" := VInt mt5c.TRADE_ACTION_SLTP]> ∅)))).

(** The dict literal of [close_position]. *)
Definition close_request (ticket : Z) (symbol : string) (pos_volume : value)
    (order_type : Z) (price : Qc) (deviation : value) (default_magic : Z)
    (filling_mode : Z) : dict :=
  <["type_filling" := VInt filling_mode]>
  (<["type_time" := VInt mt5c.ORDER_TIME_GTC]>
  (<["comment" := VStr "close position"]>
  (<["magic" := VInt default_magic]>
  (<["deviation" := deviation]>
  (<["price" := VFloat price]>
  (<["position" := VInt ticket]>
  (<["type" := VInt order_type]>
  (<["volume" := pos_volume]>
  (<["symbol" := VStr symbol]>
  (<["action" := VInt mt5c.TRADE_ACTION_DEAL]> ∅)))))))))).

(** [x if x is not None else y] *)
Definition if_not_None (x y : value) : value :=
  match x with VNone => y | _ => x end.

(** The direction and the price that close a position of type [pos_type]. *)
Definition closing (pos_type : Z) (t : tick) : Z * Qc :=
  if (pos_type =? mt5c.POSITION_TYPE_BUY)%Z
  then (mt5c.ORDER_TYPE_SELL, bid t)
  else (mt5c.ORDER_TYPE_BUY, ask t).

Section Methods.
Context {W : Type} `{Terminal W} `{Portfolio W}.
Local Abbreviation C := (M (st W executor)).

Definition modify_body (ticket : Z) (sl tp : value) : C value :=
  position <- mt5_positions_get ticket ;;
  match position with
  | None | Some [] => raise (MT5OrderError None)
  | Some (position :: _) =>
      send (VDict (modify_request ticket (pos_symbol position)
                     (if_not_None sl (VFloat (pos_sl position)))
                     (if_not_None tp (VFloat (pos_tp position)))))
  end.

Definition modify (ticket : Z) (sl tp : value) : C value :=
  Decorators.require_connection connection (fun _ => None)
    (modify_body ticket sl tp).

Definition close_position_body (ticket : Z) (volume deviation : value)
  : C value :=
  position <- mt5_positions_get ticket ;;
  match position with
  | None | Some [] => raise (MT5OrderError None)
  | Some (position :: _) =>
      let symbol := pos_symbol position in
      let pos_volume := if_not_None volume (VFloat (pos_volume position)) in
      tick <- mt5_symbol_info_tick symbol ;;
      match tick with
      | None => raise (MT5OrderError None)
      | Some t =>
          let order_type := fst (closing (pos_type position) t) in
          let price := snd (closing (pos_type position) t) in
          filling_mode <- _get_filling_mode symbol ;;
          o <- this ;;
          send (VDict (close_request ticket symbol pos_volume order_type price
                         deviation (default_magic o) filling_mode))
      end
  end.

Definition close_position (ticket : Z) (volume deviation : value) : C value :=
  Decorators.require_connection connection (fun _ => None)
    (close_position_body ticket volume deviation).

End Methods.
End OnPosition.

End Executor.

(** ** info/account.py *)

Module Account.


Section Methods.
Context {W : Type} `{Terminal W}.


End Methods.
End Account.

(** ** trade/calculator.py *)

Module Calculator.

Record calculator := { connection : Connection.connection }.

(** [action_map.get(action.lower())] *)
Definition action_map : list (string * Z) :=
  [("buy", mt5c.ORDER_TYPE_BUY);
   ("sell", mt5c.ORDER_TYPE_SELL);
   ("buy_limit", mt5c.ORDER_TYPE_BUY_LIMIT);
   ("sell_limit", mt5c.ORDER_TYPE_SELL_LIMIT);
   ("buy_stop", mt5c.ORDER_TYPE_BUY_STOP);
   ("sell_stop", mt5c.ORDER_TYPE_SELL_STOP)].

Definition _get_order_type (action : string) : option Z :=
  list_to_map (M := gmap string Z) action_map !! lower action.

(** The dict [calc_risk_reward] returns. *)
Record risk_reward := {
  sl_loss : Qc;
  tp_profit : Qc;
  risk_reward_ratio : Qc;
  risk_amount : Qc;
  reward_amount : Qc
}.

Section Methods.
Context {W : Type} `{Terminal W}.
Local Abbreviation C := (M (st W calculator)).

(** The price [calc_margin] uses when none is given; [None] stands for the
    early [return None]. *)
Definition market_price (symbol action : string) : C (option Qc) :=
  tick <- mt5_symbol_info_tick symbol ;;
  match tick with
  | None => log ERROR ;;; ret None
  | Some t =>
      if bool_decide (action ∈ ["buy"; "buy_limit"; "buy_stop"])
      then ret (Some (ask t))
      else ret (Some (bid t))
  end.

Definition margin_call (order_type : Z) (symbol : string) (volume price : Qc)
  : C (option Qc) :=
  margin <- mt5_order_calc_margin order_type symbol volume price ;;
  match margin with
  | None => error <- mt5_last_error ;; log ERROR ;;; ret None
  | Some m => ret (Some m)                       (* float(margin) *)
  end.

Definition calc_margin (symbol : string) (volume : Qc) (action : string)
    (price : option Qc) : C (option Qc) :=
  o <- this ;;
  up <- conn_is_connected (connection o) ;;
  if negb up then log ERROR ;;; ret None
  else
    try_except
      (match _get_order_type action with
       | None => log ERROR ;;; ret None
       | Some order_type =>
           match price with
           | Some p => margin_call order_type symbol volume p
           | None =>
               p <- market_price symbol action ;;
               match p with
               | None => ret None
               | Some p => margin_call order_type symbol volume p
               end
           end
       end)
      (fun e => log ERROR ;;; ret None).

Definition profit_order_type (action : string) : option Z :=
  if bool_decide (lower action = "buy") then Some mt5c.ORDER_TYPE_BUY
  else if bool_decide (lower action = "sell") then Some mt5c.ORDER_TYPE_SELL
  else None.

Definition calc_profit (symbol : string) (volume price_open price_close : Qc)
    (action : string) : C (option Qc) :=
  o <- this ;;
  up <- conn_is_connected (connection o) ;;
  if negb up then log ERROR ;;; ret None
  else
    try_except
      (match profit_order_type action with
       | None => log ERROR ;;; ret None
       | Some order_type =>
           profit <- mt5_order_calc_profit order_type symbol volume
                       price_open price_close ;;
           match profit with
           | None => error <- mt5_last_error ;; log ERROR ;;; ret None
           | Some p => ret (Some p)              (* float(profit) *)
           end
       end)
      (fun e => log ERROR ;;; ret None).

Definition calc_risk_reward (symbol : string)
    (volume entry_price sl_price tp_price : Qc) (action : string)
  : C (option risk_reward) :=
  sl_loss <- calc_profit symbol volume entry_price sl_price action ;;
  match sl_loss with
  | None => ret None
  | Some sl_loss =>
      tp_profit <- calc_profit symbol volume entry_price tp_price action ;;
      match tp_profit with
      | None => ret None
      | Some tp_profit =>
          let risk_amount := Qc_abs sl_loss in
          let reward_amount := Qc_abs tp_profit in
          if bool_decide (risk_amount = 0%Qc) then log ERROR ;;; ret None
          else
            ret (Some {| sl_loss := sl_loss;
                         tp_profit := tp_profit;
                         risk_reward_ratio := (reward_amount / risk_amount)%Qc;
                         risk_amount := risk_amount;
                         reward_amount := reward_amount |})
      end
  end.

(** The adjustment of the volume to the symbol's step and bounds. *)
Definition adjust_volume (volume : Qc) (info : symbol_info) : Qc :=
  let volume :=
    if bool_decide (0 < volume_step info)%Qc
    then (Qc_floordiv volume (volume_step info) * volume_step info)%Qc
    else volume in
  Qc_max (volume_min info) (Qc_min volume (volume_max info)).

Definition calc_position_size (symbol : string)
    (risk_amount entry_price sl_price : Qc) (action : string)
  : C (option Qc) :=
  loss_per_lot <- calc_profit symbol (QcZ 1) entry_price sl_price action ;;
  match loss_per_lot with
  | None => ret None
  | Some loss_per_lot =>
      let loss_per_lot := Qc_abs loss_per_lot in
      if bool_decide (loss_per_lot = 0%Qc) then log ERROR ;;; ret None
      else
        let volume := (risk_amount / loss_per_lot)%Qc in
        symbol_info <- mt5_symbol_info symbol ;;
        match symbol_info with
        | Some info => ret (Some (round2 (adjust_volume volume info)))
        | None => ret (Some (round2 volume))
        end
  end.

End Methods.
End Calculator.

(** ** trade/request_builder.py *)

Module Builder.

(** The attributes of an [OrderRequestBuilder].  The recorded parameters
    are kept as the values the caller passed; the position ticket, which
    [build] compares with 0, is an integer. *)
Record builder := {
  _symbol : string;
  _executor : Executor.executor;
  _default_magic : value;
  _action : option Z;
  _order_type : option Z;
  _volume : value;
  _price : value;
  _sl : value;
  _tp : value;
  _deviation : value;
  _magic : value;
  _comment : value;
  _position : Z
}.

(** Builders live in a store and are handled through references, so that
    what a method returns can be compared with the object it was called
    on. *)
Definition ref := nat.
Record store := {
  cells : ref -> builder;
  next_ref : ref
}.

Definition update (self : ref) (f : builder -> builder) (h : store) : store :=
  {| cells := fun r => if bool_decide (r = self) then f (cells h r) else cells h r;
     next_ref := next_ref h |}.

Definition set_action a b :=
  {| _symbol := _symbol b; _executor := _executor b;
     _default_magic := _default_magic b; _action := a;
     _order_type := _order_type b; _volume := _volume b; _price := _price b;
     _sl := _sl b; _tp := _tp b; _deviation := _deviation b;
     _magic := _magic b; _comment := _comment b; _position := _position b |}.
Definition set_order_type t b :=
  {| _symbol := _symbol b; _executor := _executor b;
     _default_magic := _default_magic b; _action := _action b;
     _order_type := t; _volume := _volume b; _price := _price b;
     _sl := _sl b; _tp := _tp b; _deviation := _deviation b;
     _magic := _magic b; _comment := _comment b; _position := _position b |}.
Definition set_volume v b :=
  {| _symbol := _symbol b; _executor := _executor b;
     _default_magic := _default_magic b; _action := _action b;
     _order_type := _order_type b; _volume := v; _price := _price b;
     _sl := _sl b; _tp := _tp b; _deviation := _deviation b;
     _magic := _magic b; _comment := _comment b; _position := _position b |}.
Definition set_price p b :=
  {| _symbol := _symbol b; _executor := _executor b;
     _default_magic := _default_magic b; _action := _action b;
     _order_type := _order_type b; _volume := _volume b; _price := p;
     _sl := _sl b; _tp := _tp b; _deviation := _deviation b;
     _magic := _magic b; _comment := _comment b; _position := _position b |}.
Definition set_sl v b :=
  {| _symbol := _symbol b; _executor := _executor b;
     _default_magic := _default_magic b; _action := _action b;
     _order_type := _order_type b; _volume := _volume b; _price := _price b;
     _sl := v; _tp := _tp b; _deviation := _deviation b;
     _magic := _magic b; _comment := _comment b; _position := _position b |}.
Definition set_tp v b :=
  {| _symbol := _symbol b; _executor := _executor b;
     _default_magic := _default_magic b; _action := _action b;
     _order_type := _order_type b; _volume := _volume b; _price := _price b;
     _sl := _sl b; _tp := v; _deviation := _deviation b;
     _magic := _magic b; _comment := _comment b; _position := _position b |}.
Definition set_deviation v b :=
  {| _symbol := _symbol b; _executor := _executor b;
     _default_magic := _default_magic b; _action := _action b;
     _order_type := _order_type b; _volume := _volume b; _price := _price b;
     _sl := _sl b; _tp := _tp b; _deviation := v;
     _magic := _magic b; _comment := _comment b; _position := _position b |}.
Definition set_magic v b :=
  {| _symbol := _symbol b; _executor := _executor b;
     _default_magic := _default_magic b; _action := _action b;
     _order_type := _order_type b; _volume := _volume b; _price := _price b;
     _sl := _sl b; _tp := _tp b; _deviation := _deviation b;
     _magic := v; _comment := _comment b; _position := _position b |}.
Definition set_comment v b :=
  {| _symbol := _symbol b; _executor := _executor b;
     _default_magic := _default_magic b; _action := _action b;
     _order_type := _order_type b; _volume := _volume b; _price := _price b;
     _sl := _sl b; _tp := _tp b; _deviation := _deviation b;
     _magic := _magic b; _comment := v; _position := _position b |}.
Definition set_position p b :=
  {| _symbol := _symbol b; _executor := _executor b;
     _default_magic := _default_magic b; _action := _action b;
     _order_type := _order_type b; _volume := _volume b; _price := _price b;
     _sl := _sl b; _tp := _tp b; _deviation := _deviation b;
     _magic := _magic b; _comment := _comment b; _position := p |}.

Section Methods.
Context {W : Type} `{Terminal W}.
Local Abbreviation C := (M (st W store)).

Definition deref (self : ref) : C builder :=
  h <- this ;; ret (cells h self).
Definition assign (self : ref) (f : builder -> builder) : C unit :=
  set_this (update self f).

(** [OrderRequestBuilder(symbol, connection, executor, default_magic)]: a
    new object in the store.  The builder never reads its [_connection]
    attribute, which is left out. *)
Definition __init__ (symbol : string) (executor : Executor.executor)
    (default_magic : value) : C ref :=
  h <- this ;;
  let self := next_ref h in
  set_this (fun h =>
    {| cells := fun r =>
         if bool_decide (r = self) then
           {| _symbol := symbol; _executor := executor;
              _default_magic := default_magic;
              _action := None; _order_type := None;
              _volume := VFloat 0; _price := VFloat 0;
              _sl := VFloat 0; _tp := VFloat 0;
              _deviation := VInt 20; _magic := default_magic;
              _comment := VStr ""; _position := 0 |}
         else cells h r;
       next_ref := S self |}) ;;;
  ret self.

Definition _get_ask_price (self : ref) : C value :=
  b <- deref self ;;
  tick <- mt5_symbol_info_tick (_symbol b) ;;
  match tick with
  | None => raise ValueError
  | Some t => ret (VFloat (ask t))
  end.

Definition _get_bid_price (self : ref) : C value :=
  b <- deref self ;;
  tick <- mt5_symbol_info_tick (_symbol b) ;;
  match tick with
  | None => raise ValueError
  | Some t => ret (VFloat (bid t))
  end.

Definition _get_filling_mode (self : ref) : C Z :=
  b <- deref self ;;
  symbol_info <- mt5_symbol_info (_symbol b) ;;
  match symbol_info with
  | None => ret mt5c.ORDER_FILLING_IOC
  | Some info =>
      if negb (Z.land (filling_mode info) 1 =? 0)%Z then ret mt5c.ORDER_FILLING_IOC
      else if negb (Z.land (filling_mode info) 2 =? 0)%Z
           then ret mt5c.ORDER_FILLING_FOK
           else ret mt5c.ORDER_FILLING_RETURN
  end.

Definition market_buy (self : ref) (volume : value) : C ref :=
  assign self (set_action (Some mt5c.TRADE_ACTION_DEAL)) ;;;
  assign self (set_order_type (Some mt5c.ORDER_TYPE_BUY)) ;;;
  assign self (set_volume volume) ;;;
  price <- _get_ask_price self ;;
  assign self (set_price price) ;;;
  ret self.

Definition market_sell (self : ref) (volume : value) (position : Z) : C ref :=
  assign self (set_action (Some mt5c.TRADE_ACTION_DEAL)) ;;;
  assign self (set_order_type (Some mt5c.ORDER_TYPE_SELL)) ;;;
  assign self (set_volume volume) ;;;
  price <- _get_bid_price self ;;
  assign self (set_price price) ;;;
  assign self (set_position position) ;;;
  ret self.

(** The four pending-order methods differ in the order type only. *)
Definition pending (order_type : Z) (self : ref) (volume price : value) : C ref :=
  assign self (set_action (Some mt5c.TRADE_ACTION_PENDING)) ;;;
  assign self (set_order_type (Some order_type)) ;;;
  assign self (set_volume volume) ;;;
  assign self (set_price price) ;;;
  ret self.

Definition limit_buy := pending mt5c.ORDER_TYPE_BUY_LIMIT.
Definition limit_sell := pending mt5c.ORDER_TYPE_SELL_LIMIT.
Definition stop_buy := pending mt5c.ORDER_TYPE_BUY_STOP.
Definition stop_sell := pending mt5c.ORDER_TYPE_SELL_STOP.

Definition with_sl (self : ref) (sl : value) : C ref :=
  assign self (set_sl sl) ;;; ret self.
Definition with_tp (self : ref) (tp : value) : C ref :=
  assign self (set_tp tp) ;;; ret self.
Definition with_sl_tp (self : ref) (sl tp : value) : C ref :=
  assign self (set_sl sl) ;;; assign self (set_tp tp) ;;; ret self.
Definition with_deviation (self : ref) (deviation : value) : C ref :=
  assign self (set_deviation deviation) ;;; ret self.
Definition with_magic (self : ref) (magic : value) : C ref :=
  assign self (set_magic magic) ;;; ret self.
Definition with_comment (self : ref) (comment : value) : C ref :=
  assign self (set_comment comment) ;;; ret self.

(** The dict literal of [build]. *)
Definition request_of (b : builder) (action order_type filling_mode : Z) : dict :=
  <["type_filling" := VInt filling_mode]>
  (<["type_time" := VInt mt5c.ORDER_TIME_GTC]>
  (<["comment" := _comment b]>
  (<["magic" := _magic b]>
  (<["deviation" := _deviation b]>
  (<["tp" := _tp b]>
  (<["sl" := _sl b]>
  (<["price" := _price b]>
  (<["type" := VInt order_type]>
  (<["volume" := _volume b]>
  (<["symbol" := VStr (_symbol b)]>
  (<["action" := VInt action]> ∅))))))))))).

Definition build (self : ref) : C dict :=
  b <- deref self ;;
  match _action b, _order_type b with
  | Some action, Some order_type =>
      filling_mode <- _get_filling_mode self ;;
      b <- deref self ;;
      let request := request_of b action order_type filling_mode in
      if (0 <? _position b)%Z
      then ret (<["position" := VInt (_position b)]> request)
      else ret request
  | _, _ => raise ValueError
  end.

(** [self._executor.<method>(request)]: the method runs on the executor the
    builder holds, in the same world. *)
Definition call_executor (self : ref)
    (method : value -> M (st W Executor.executor) value) (request : dict)
  : C value :=
  b <- deref self ;;
  r <- on_object (_executor b) (method (VDict request)) ;;
  lift_outcome (fst r).

Definition send (self : ref) : C value :=
  request <- build self ;;
  call_executor self Executor.send request.

Definition check (self : ref) : C value :=
  request <- build self ;;
  call_executor self Executor.check request.

End Methods.
End Builder.

(** ** emt5.py *)

Module EMT5.

Record emt5 := {
  _connection : Connection.connection;
  _default_magic : Z;
  keep_alive : bool
}.

Definition __init__ (default_magic : Z) (keep_alive : bool) : emt5 :=
  {| _connection := Connection.__init__;
     _default_magic := default_magic;
     keep_alive := keep_alive |}.

Definition put_connection (c : Connection.connection) (o : emt5) : emt5 :=
  {| _connection := c;
     _default_magic := _default_magic o;
     keep_alive := keep_alive o |}.

Section Methods.
Context {W : Type} `{Terminal W}.

Definition on_connection {A} (m : M (st W Connection.connection) A)
  : M (st W emt5) A :=
  zoom _connection put_connection m.

(** [initialize] passes six arguments on; [retry] and [retry_delay] keep
    their defaults, 3 and 2.0. *)
Definition initialize (path : option string) (login : option Z)
    (password server : option string) (timeout : Z) (portable : bool)
  : M (st W emt5) bool :=
  on_connection
    (Connection.initialize path login password server timeout portable
       3 (QcZ 2)).

Definition shutdown : M (st W emt5) unit :=
  on_connection Connection.shutdown.

Definition is_connected : M (st W emt5) bool :=
  on_connection Connection.is_connected.

Definition login (login : Z) (password server : option string) (timeout : Z)
  : M (st W emt5) bool :=
  on_connection (Connection.call_login login password server timeout).

Definition get_terminal_info : M (st W emt5) value :=
  on_connection Connection.get_terminal_info.

Definition get_version : M (st W emt5) value :=
  on_connection Connection.get_version.

(** [__exit__] returns [False]: an exception of the [with] block goes on. *)
Definition __exit__ : M (st W emt5) bool :=
  o <- this ;;
  (if negb (keep_alive o) then shutdown else ret tt) ;;;
  ret false.

Definition __del__ : M (st W emt5) unit :=
  up <- is_connected ;;
  if (up : bool) then shutdown else ret tt.

End Methods.
End EMT5.

(** ** manager/account_manager.py *)

Module Manager.

(** [accounts] is a Python dict, whose iteration order is the order of
    insertion: a list of (alias, client) pairs without repeated alias. *)
Record manager := {
  accounts : list (string * EMT5.emt5);
  current_account : option string
}.

Definition __init__ : manager :=
  {| accounts := []; current_account := None |}.

Definition keys (m : manager) : list string := (accounts m).*1.

(** [name in self.accounts] *)
Definition contains (name : string) (m : manager) : bool :=
  bool_decide (name ∈ keys m).

(** [self.accounts[name]] *)
Fixpoint item (name : string) (l : list (string * EMT5.emt5))
  : option EMT5.emt5 :=
  match l with
  | [] => None
  | (k, v) :: rest => if bool_decide (k = name) then Some v else item name rest
  end.

(** [self.accounts[name] = client]: in place for a known key, at the end
    for a new one. *)
Fixpoint setitem (name : string) (client : EMT5.emt5)
    (l : list (string * EMT5.emt5)) : list (string * EMT5.emt5) :=
  match l with
  | [] => [(name, client)]
  | (k, v) :: rest =>
      if bool_decide (k = name) then (k, client) :: rest
      else (k, v) :: setitem name client rest
  end.

(** [del self.accounts[name]] *)
Definition delitem (name : string) (l : list (string * EMT5.emt5))
  : list (string * EMT5.emt5) :=
  filter (fun kv => kv.1 ≠ name) l.

(** [next(iter(self.accounts), None)] *)
Definition first_key (l : list (string * EMT5.emt5)) : option string :=
  match l with
  | [] => None
  | (k, _) :: _ => Some k
  end.

Definition put_accounts (l : list (string * EMT5.emt5)) (m : manager) : manager :=
  {| accounts := l; current_account := current_account m |}.
Definition put_current (c : option string) (m : manager) : manager :=
  {| accounts := accounts m; current_account := c |}.

Section Methods.
Context {W : Type} `{Terminal W}.
Local Abbreviation C := (M (st W manager)).

(** [with self._lock: body]: the lock is released however the body ends. *)
Definition with_lock {A} (body : C A) : C A :=
  emit e_acquire ;;;
  fun s => let (r, s') := body s in
           (r, St (obj s') (world s') (trace s' ++ [e_release])%list).

Definition add_account (name : string) (login : Z) (password server : string)
    (path : option string) (auto_connect : bool) : C bool :=
  with_lock
    (m <- this ;;
     if contains name m then log WARNING ;;; ret false
     else
       let client := EMT5.__init__ 0 false in
       connecting <-
         (if auto_connect then
            r <- on_object client
                   (EMT5.initialize path (Some login) (Some password)
                      (Some server) 60000 false) ;;
            match r with
            | (Ret true, client) => ret (Some client)
            | (Ret false, _) => log ERROR ;;; ret None
            | (Raise e, _) => log ERROR ;;; ret None
            end
          else ret (Some client)) ;;
       match connecting with
       | None => ret false
       | Some client =>
           set_this (fun m => put_accounts (setitem name client (accounts m)) m) ;;;
           m <- this ;;
           (match current_account m with
            | None => set_this (put_current (Some name))
            | Some _ => ret tt
            end) ;;;
           log INFO ;;;
           ret true
       end).

Definition remove_account (name : string) : C bool :=
  with_lock
    (m <- this ;;
     match item name (accounts m) with
     | None => log ERROR ;;; ret false
     | Some client =>
         r <- on_object client EMT5.shutdown ;;
         set_this (fun m => put_accounts (setitem name (snd r) (accounts m)) m) ;;;
         lift_outcome (fst r) ;;;
         set_this (fun m => put_accounts (delitem name (accounts m)) m) ;;;
         m <- this ;;
         (if bool_decide (current_account m = Some name)
          then set_this (put_current (first_key (accounts m)))
          else ret tt) ;;;
         log INFO ;;;
         ret true
     end).

Definition switch_account (name : string) : C bool :=
  with_lock
    (m <- this ;;
     if negb (contains name m) then log ERROR ;;; ret false
     else
       set_this (put_current (Some name)) ;;;
       log INFO ;;;
       ret true).

(** The calls that change a manager. *)
Inductive operation :=
| op_add (name : string) (login : Z) (password server : string)
    (path : option string) (auto_connect : bool)
| op_remove (name : string)
| op_switch (name : string).

Definition run (o : operation) : C bool :=
  match o with
  | op_add name login password server path auto_connect =>
      add_account name login password server path auto_connect
  | op_remove name => remove_account name
  | op_switch name => switch_account name
  end.


(** [self.accounts.get(name)], with the selection for a [name] of [None];
    [None] is no key of the table. *)
Definition get_account (name : option string) : C (option EMT5.emt5) :=
  with_lock
    (m <- this ;;
     let name := match name with
                 | None => current_account m
                 | Some n => Some n
                 end in
     ret (match name with
          | Some n => item n (accounts m)
          | None => None
          end)).

Definition get_current_account : C (option EMT5.emt5) := get_account None.

Definition list_accounts : C (list string) :=
  with_lock (m <- this ;; ret (keys m)).

(** One round of the loop of [shutdown_all]; the client the table holds
    under [name] is the object [client.shutdown()] has changed. *)
Definition shutdown_one (name : string) (client : EMT5.emt5) : C unit :=
  up <- on_object client EMT5.is_connected ;;
  connected <- lift_outcome (fst up) ;;
  if (connected : bool) then
    r <- on_object client EMT5.shutdown ;;
    set_this (fun m => put_accounts (setitem name (snd r) (accounts m)) m) ;;;
    lift_outcome (fst r) ;;;
    log INFO
  else ret tt.

Fixpoint shutdown_loop (items : list (string * EMT5.emt5)) : C unit :=
  match items with
  | [] => ret tt
  | (name, client) :: rest => shutdown_one name client ;;; shutdown_loop rest
  end.

(** [shutdown_all] does not take the lock. *)
Definition shutdown_all : C unit :=
  m <- this ;; shutdown_loop (accounts m).

Definition __exit__ : C bool := shutdown_all ;;; ret false.

(** [{"error": text}] *)
Definition error_dict (text : string) : value :=
  VDict (<["error" := VStr text]> ∅).

Definition not_connected : string := "未连接".

(** One round of the loop of [execute_on_all].  [method] stands for the
    two statements of the [try] block, [getattr(client, func_name)] and the
    call of what it gives with the arguments: a computation on the client,
    which raises at once when the client has no attribute of that name. *)
Definition execute_one (method : M (st W EMT5.emt5) value)
    (name : string) (client : EMT5.emt5) (results : dict) : C dict :=
  up <- on_object client EMT5.is_connected ;;
  connected <- lift_outcome (fst up) ;;
  if negb connected then ret (<[name := error_dict not_connected]> results)
  else
    r <- on_object client method ;;
    set_this (fun mg => put_accounts (setitem name (snd r) (accounts mg)) mg) ;;;
    match fst r with
    | Ret result => ret (<[name := result]> results)
    | Raise e => ret (<[name := error_dict (Connection.str e)]> results)
    end.

Fixpoint execute_loop (method : M (st W EMT5.emt5) value)
    (items : list (string * EMT5.emt5)) (results : dict) : C dict :=
  match items with
  | [] => ret results
  | (name, client) :: rest =>
      results' <- execute_one method name client results ;;
      execute_loop method rest results'
  end.

Definition execute_on_all (method : M (st W EMT5.emt5) value) : C dict :=
  m <- this ;; execute_loop method (accounts m) ∅.

End Methods.

(** A manager that holds one account, which is the selection. *)
Definition one_account : manager :=
  {| accounts := [("main", EMT5.__init__ 0 false)];
     current_account := Some "main" |}.

(** The invariant of the selection. *)
Definition selection_ok (m : manager) : Prop :=
  (current_account m = None <-> accounts m = []) /\
  (forall name, current_account m = Some name -> name ∈ keys m).

End Manager.

(** ** A scripted terminal

    A concrete world for running the model: the replies to the successive
    [mt5.initialize] calls are listed (a call beyond the list is refused),
    every other function has one fixed reply. *)

Module Sim.

Record sim := {
  initialize_replies : list (outcome bool);
  last_error_reply : outcome (Z * string);
  shutdown_reply : outcome unit;
  terminal_info_reply : outcome (option record);
  version_reply : outcome value;
  login_reply : outcome bool;
  account_info_reply : outcome (option record);
  symbol_info_reply : outcome (option symbol_info);
  symbol_info_tick_reply : outcome (option tick);
  order_send_reply : outcome (option record);
  order_check_reply : outcome (option record);
  order_calc_margin_reply : outcome (option Qc);
  order_calc_profit_reply : outcome (option Qc);
  Popen_reply : outcome unit
}.

Definition next_initialize (w : sim) : outcome bool * sim :=
  match initialize_replies w with
  | [] => (Ret false, w)
  | r :: rest =>
      (r, {| initialize_replies := rest;
             last_error_reply := last_error_reply w;
             shutdown_reply := shutdown_reply w;
             terminal_info_reply := terminal_info_reply w;
             version_reply := version_reply w;
             login_reply := login_reply w;
             account_info_reply := account_info_reply w;
             symbol_info_reply := symbol_info_reply w;
             symbol_info_tick_reply := symbol_info_tick_reply w;
             order_send_reply := order_send_reply w;
             order_check_reply := order_check_reply w;
             order_calc_margin_reply := order_calc_margin_reply w;
             order_calc_profit_reply := order_calc_profit_reply w;
             Popen_reply := Popen_reply w |})
  end.

#[global] Instance sim_terminal : Terminal sim := {|
  t_initialize := fun _ _ => next_initialize;
  t_last_error := fun w => (last_error_reply w, w);
  t_shutdown := fun w => (shutdown_reply w, w);
  t_terminal_info := fun w => (terminal_info_reply w, w);
  t_version := fun w => (version_reply w, w);
  t_login := fun _ w => (login_reply w, w);
  t_account_info := fun w => (account_info_reply w, w);
  t_symbol_info := fun _ w => (symbol_info_reply w, w);
  t_symbol_info_tick := fun _ w => (symbol_info_tick_reply w, w);
  t_order_send := fun _ w => (order_send_reply w, w);
  t_order_check := fun _ w => (order_check_reply w, w);
  t_order_calc_margin := fun _ _ _ _ w => (order_calc_margin_reply w, w);
  t_order_calc_profit := fun _ _ _ _ _ w => (order_calc_profit_reply w, w);
  t_Popen := fun _ w => (Popen_reply w, w)
|}.

(** A terminal that is not running: nothing answers. *)
Definition idle : sim := {|
  initialize_replies := [];
  last_error_reply := Ret (-10001, "IPC send failed");
  shutdown_reply := Ret tt;
  terminal_info_reply := Ret None;
  version_reply := Ret VNone;
  login_reply := Ret false;
  account_info_reply := Ret None;
  symbol_info_reply := Ret None;
  symbol_info_tick_reply := Ret None;
  order_send_reply := Ret None;
  order_check_reply := Ret None;
  order_calc_margin_reply := Ret None;
  order_calc_profit_reply := Ret None;
  Popen_reply := Ret tt
|}.

(** The terminal answers the second [mt5.initialize]. *)
Definition second_try : sim := {|
  initialize_replies := [Ret false; Ret true];
  last_error_reply := Ret (-10005, "IPC timeout");
  shutdown_reply := Ret tt;
  terminal_info_reply := Ret None;
  version_reply := Ret VNone;
  login_reply := Ret false;
  account_info_reply := Ret None;
  symbol_info_reply := Ret None;
  symbol_info_tick_reply := Ret None;
  order_send_reply := Ret None;
  order_check_reply := Ret None;
  order_calc_margin_reply := Ret None;
  order_calc_profit_reply := Ret None;
  Popen_reply := Ret tt
|}.

(** The terminal answers one [mt5.initialize] and is gone afterwards; its
    executable can be started. *)
Definition dies_after_first : sim := {|
  initialize_replies := [Ret true];
  last_error_reply := Ret (-10001, "IPC send failed");
  shutdown_reply := Ret tt;
  terminal_info_reply := Ret None;
  version_reply := Ret VNone;
  login_reply := Ret false;
  account_info_reply := Ret None;
  symbol_info_reply := Ret None;
  symbol_info_tick_reply := Ret None;
  order_send_reply := Ret None;
  order_check_reply := Ret None;
  order_calc_margin_reply := Ret None;
  order_calc_profit_reply := Ret None;
  Popen_reply := Ret tt
|}.

(** A running terminal with one account, quoting one symbol. *)
Definition running : sim := {|
  initialize_replies := [Ret true];
  last_error_reply := Ret (1, "Success");
  shutdown_reply := Ret tt;
  terminal_info_reply := Ret None;
  version_reply := Ret VNone;
  login_reply := Ret true;
  account_info_reply :=
    Ret (Some [("login", VInt 12345); ("balance", VFloat (QcZ 1000));
               ("time", VInt 1704067200)]);
  symbol_info_reply :=
    Ret (Some {| filling_mode := 2;
                 volume_min := Q2Qc (1 # 100);
                 volume_max := QcZ 100;
                 volume_step := Q2Qc (1 # 100) |});
  symbol_info_tick_reply :=
    Ret (Some {| ask := Q2Qc (11002 # 10000); bid := Q2Qc (11000 # 10000) |});
  order_send_reply := Ret None;
  order_check_reply := Ret None;
  order_calc_margin_reply := Ret (Some (QcZ 110));
  order_calc_profit_reply := Ret (Some (QcZ (-50)));
  Popen_reply := Ret tt
|}.


(** The scripted terminal holds one position, a buy of 0.1 lot of EURUSD
    under ticket 7. *)
Definition held : open_position :=
  {| pos_symbol := "EURUSD"; pos_volume := Q2Qc (1 # 10); pos_type := 0;
     pos_sl := Q2Qc (109 # 100); pos_tp := Q2Qc (111 # 100) |}.

#[global] Instance sim_portfolio : Portfolio sim :=
  fun ticket w => (Ret (if (ticket =? 7)%Z then Some [held] else Some []), w).

(** A connection whose flag is set. *)
Definition up : Connection.connection :=
  {| Connection.connected := true;
     Connection.login := None;
     Connection.server := None |}.

End Sim.

(** ** Notions used in the statements *)

Module ConvertersSpec.
Import Converters.



(** A tick-like dict: [time] in seconds gets [time_dt], [time_msc] in
    milliseconds gets [time_msc_dt], the zero [time_done] gets nothing and
    [bid] is not listed. *)
Definition tick_dict : dict :=
  <["time" := VInt 1704067200]>
  (<["time_msc" := VInt 1704067200500]>
  (<["time_done" := VInt 0]>
  (<["bid" := VFloat (Q2Qc (11 # 10))]> ∅))).

End ConvertersSpec.

(** The pacing of [initialize]: the calls of [mt5.initialize] and the
    sleeps, in the order of the trace. *)
Module ConnectionSpec.

Definition paced (e : event) : bool :=
  match e with
  | e_call (c_initialize _ _) _ => true
  | e_call (c_Popen _) (Ret _) => true
  | e_sleep _ => true
  | _ => false
  end.


(** [schedule path kwargs retry_delay first rounds l ok]: [l] is a run of
    at most [rounds] attempts [mt5.initialize(path, **kwargs)] that stops at
    the first attempt answered [True] ([ok] tells whether there was one);
    two consecutive attempts are separated by one sleep of [retry_delay]
    seconds, or, after the very first attempt ([first]), by the launch of
    the executable at [path] and a sleep of 5 seconds.  A launch that
    raised is not part of [l]. *)
Inductive schedule (path : option string) (kwargs : list (string * value))
    (retry_delay : Qc) : bool -> nat -> list event -> bool -> Prop :=
| sch_exhausted first :
    schedule path kwargs retry_delay first 0 [] false
| sch_success first rounds :
    schedule path kwargs retry_delay first (S rounds)
      [e_call (c_initialize path kwargs) (Ret (VBool true))] true
| sch_last first r :
    r <> Ret (VBool true) ->
    schedule path kwargs retry_delay first 1
      [e_call (c_initialize path kwargs) r] false
| sch_retry first rounds r l ok :
    r <> Ret (VBool true) ->
    schedule path kwargs retry_delay false (S rounds) l ok ->
    schedule path kwargs retry_delay first (S (S rounds))
      (e_call (c_initialize path kwargs) r :: e_sleep retry_delay :: l) ok
| sch_launch rounds exe l ok :
    path = Some exe ->
    schedule path kwargs retry_delay false rounds l ok ->
    schedule path kwargs retry_delay true (S rounds)
      (e_call (c_initialize path kwargs) (Ret (VBool false))
       :: e_call (c_Popen exe) (Ret VNone) :: e_sleep (QcZ 5) :: l) ok.

End ConnectionSpec.

(** What [MT5Executor.send] needs of a result to hand it back. *)
Module ExecutorSpec.




(** The log records of a reported result. *)
Definition warnings (result : record) : list event :=
  match _asdict result !! "retcode" with
  | Some retcode =>
      if py_eq_int retcode mt5c.TRADE_RETCODE_DONE then []
      else [e_log WARNING; e_log WARNING]
  | None => []
  end.


(** A result as the terminal gives it for a rejected order, with a time
    field and the echoed request. *)
Definition rejected : record :=
  [("retcode", VInt 10006); ("deal", VInt 0); ("order", VInt 0);
   ("comment", VStr "Rejected"); ("time", VInt 1704067200);
   ("request", VRecord [("action", VInt 1); ("symbol", VStr "EURUSD")])].

End ExecutorSpec.

(** The calls of the terminal's calculation functions in a trace. *)
Module CalculatorSpec.

Definition is_calc (e : event) : bool :=
  match e with
  | e_call (c_order_calc_margin _ _ _ _) _ => true
  | e_call (c_order_calc_profit _ _ _ _ _) _ => true
  | _ => false
  end.

(** The calls of calculation functions of a run that gave no number: none,
    or one that returned [None] or raised. *)
Definition no_number (l : list event) : Prop :=
  l = [] \/
  exists c reply, l = [e_call c reply] /\ forall q, reply <> Ret (VFloat q).

End CalculatorSpec.

(** The chainable methods of the builder, as data. *)
Module BuilderSpec.
Import Builder.

Inductive method :=
| m_market_buy (volume : value)
| m_market_sell (volume : value) (position : Z)
| m_limit_buy (volume price : value)
| m_limit_sell (volume price : value)
| m_stop_buy (volume price : value)
| m_stop_sell (volume price : value)
| m_with_sl (sl : value)
| m_with_tp (tp : value)
| m_with_sl_tp (sl tp : value)
| m_with_deviation (deviation : value)
| m_with_magic (magic : value)
| m_with_comment (comment : value).

(** The methods that read a quote from the terminal. *)
Definition is_market (m : method) : bool :=
  match m with
  | m_market_buy _ | m_market_sell _ _ => true
  | _ => false
  end.

Definition is_order_type (m : method) : bool :=
  match m with
  | m_market_buy _ | m_market_sell _ _
  | m_limit_buy _ _ | m_limit_sell _ _ | m_stop_buy _ _ | m_stop_sell _ _ => true
  | _ => false
  end.

(** What a method that returns has recorded in the builder; [quote] is the
    tick a market order read. *)
Definition pending_recorded (order_type : Z) (volume price : value)
    (b : builder) : builder :=
  set_price price (set_volume volume
    (set_order_type (Some order_type)
       (set_action (Some mt5c.TRADE_ACTION_PENDING) b))).

Definition recorded (m : method) (quote : tick) (b : builder) : builder :=
  match m with
  | m_market_buy volume =>
      set_price (VFloat (ask quote)) (set_volume volume
        (set_order_type (Some mt5c.ORDER_TYPE_BUY)
           (set_action (Some mt5c.TRADE_ACTION_DEAL) b)))
  | m_market_sell volume position =>
      set_position position (set_price (VFloat (bid quote)) (set_volume volume
        (set_order_type (Some mt5c.ORDER_TYPE_SELL)
           (set_action (Some mt5c.TRADE_ACTION_DEAL) b))))
  | m_limit_buy volume price =>
      pending_recorded mt5c.ORDER_TYPE_BUY_LIMIT volume price b
  | m_limit_sell volume price =>
      pending_recorded mt5c.ORDER_TYPE_SELL_LIMIT volume price b
  | m_stop_buy volume price =>
      pending_recorded mt5c.ORDER_TYPE_BUY_STOP volume price b
  | m_stop_sell volume price =>
      pending_recorded mt5c.ORDER_TYPE_SELL_STOP volume price b
  | m_with_sl sl => set_sl sl b
  | m_with_tp tp => set_tp tp b
  | m_with_sl_tp sl tp => set_tp tp (set_sl sl b)
  | m_with_deviation deviation => set_deviation deviation b
  | m_with_magic magic => set_magic magic b
  | m_with_comment comment => set_comment comment b
  end.

(** The filling mode [build] derives from the symbol description. *)
Definition filling_of (info : option symbol_info) : Z :=
  match info with
  | None => mt5c.ORDER_FILLING_IOC
  | Some i =>
      if negb (Z.land (filling_mode i) 1 =? 0)%Z then mt5c.ORDER_FILLING_IOC
      else if negb (Z.land (filling_mode i) 2 =? 0)%Z
           then mt5c.ORDER_FILLING_FOK
           else mt5c.ORDER_FILLING_RETURN
  end.

(** The keys of the dict literal of [build]. *)
Definition request_keys : gset string :=
  list_to_set ["action"; "symbol"; "volume"; "type"; "price"; "sl"; "tp";
               "deviation"; "magic"; "comment"; "type_time"; "type_filling"].

Section Methods.
Context {W : Type} `{Terminal W}.

(** [self.<method>(...)] *)
Definition invoke (self : ref) (m : method) : M (st W store) ref :=
  match m with
  | m_market_buy volume => market_buy self volume
  | m_market_sell volume position => market_sell self volume position
  | m_limit_buy volume price => limit_buy self volume price
  | m_limit_sell volume price => limit_sell self volume price
  | m_stop_buy volume price => stop_buy self volume price
  | m_stop_sell volume price => stop_sell self volume price
  | m_with_sl sl => with_sl self sl
  | m_with_tp tp => with_tp self tp
  | m_with_sl_tp sl tp => with_sl_tp self sl tp
  | m_with_deviation deviation => with_deviation self deviation
  | m_with_magic magic => with_magic self magic
  | m_with_comment comment => with_comment self comment
  end.

(** [self.m1(...).m2(...)...]: each method is called on what the one
    before returned. *)
Fixpoint chain (self : ref) (ms : list method) : M (st W store) ref :=
  match ms with
  | [] => ret self
  | m :: rest => r <- invoke self m ;; chain r rest
  end.


End Methods.

(** A builder for EURUSD on a connected executor, as [EMT5.order] makes
    it, alone in its store. *)
Definition fresh_store : store :=
  {| cells := fun _ =>
       {| _symbol := "EURUSD";
          _executor := Executor.__init__ (Some Sim.up) 0;
          _default_magic := VInt 0;
          _action := None; _order_type := None;
          _volume := VFloat 0; _price := VFloat 0;
          _sl := VFloat 0; _tp := VFloat 0;
          _deviation := VInt 20; _magic := VInt 0;
          _comment := VStr ""; _position := 0 |};
     next_ref := 1%nat |}.

End BuilderSpec.

(** ** Notions used in the further statements *)

(** The record converters of [core/converters.py]. *)
Module RecordConvertersSpec.
Import Converters.







End RecordConvertersSpec.

(** What the wrapper of [retry] adds to the trace. *)
Module DecoratorsSpec.



End DecoratorsSpec.

(** The orders in a trace. *)
Module OrdersSpec.

Definition is_order_send (e : event) : bool :=
  match e with
  | e_call (c_order_send _) _ => true
  | _ => false
  end.

(** An executor on a connection whose flag is set. *)
Definition trading : Executor.executor := Executor.__init__ (Some Sim.up) 0.

(** A request for a volume below the minimum of the scripted symbol. *)
Definition small_request : dict :=
  <["volume" := VFloat (Q2Qc (1 # 1000))]> (<["symbol" := VStr "EURUSD"]> ∅).

End OrdersSpec.

(** The parameters of a builder the methods assign. *)
Module ParametersSpec.
Import Builder BuilderSpec.

Definition sets_sl (m : method) : bool :=
  match m with m_with_sl _ | m_with_sl_tp _ _ => true | _ => false end.
Definition sets_tp (m : method) : bool :=
  match m with m_with_tp _ | m_with_sl_tp _ _ => true | _ => false end.
Definition sets_deviation (m : method) : bool :=
  match m with m_with_deviation _ => true | _ => false end.
Definition sets_magic (m : method) : bool :=
  match m with m_with_magic _ => true | _ => false end.
Definition sets_comment (m : method) : bool :=
  match m with m_with_comment _ => true | _ => false end.
Definition sets_position (m : method) : bool :=
  match m with m_market_sell _ _ => true | _ => false end.


(** A builder after [market_sell(0.1, position=5)] on the scripted
    terminal. *)
Definition sold : st Sim.sim store :=
  snd (invoke 0%nat (m_market_sell (VFloat (Q2Qc (1 # 10))) 5)
         (St fresh_store Sim.running [])).

End ParametersSpec.

(** The clients of a manager. *)
Module ClientsSpec.

Definition is_shutdown (e : event) : bool :=
  match e with
  | e_call c_shutdown _ => true
  | _ => false
  end.

(** [client.is_connected()] *)
Definition client_connected (client : EMT5.emt5) : bool :=
  Connection.connected (EMT5._connection client).

(** A manager of two clients, the first of which is connected. *)
Definition two_accounts : Manager.manager :=
  {| Manager.accounts :=
       [("main", EMT5.put_connection Sim.up (EMT5.__init__ 0 false));
        ("hedge", EMT5.__init__ 0 false)];
     Manager.current_account := Some "main" |}.

End ClientsSpec.

(* ================================================================== *)
(** * Theorems *)


(** ** Generic facts *)



(** ** core/converters.py *)

Module ConvertersFacts.
Import Converters ConvertersSpec.








End ConvertersFacts.

(** ** core/connection.py *)

Module ConnectionFacts.
Import Connection ConnectionSpec.


Lemma schedule_exhausted path kwargs retry_delay first l ok :
  schedule path kwargs retry_delay first 0 l ok -> l = [] /\ ok = false.
Proof. inversion 1; auto. Qed.


Section Facts.
Context {W : Type} `{Terminal W}.

(** The three ways a round of the loop can end: connected; failed, with
    the flag cleared and the sleep if a round is left; or, in the first
    round, the terminal launched, five seconds waited, and nothing else
    touched. *)
Lemma attempt_body_cases path login password server timeout portable
    retry retry_delay attempt last_error (s : st W connection) :
  let args := initialize_arguments path login password server timeout portable in
  let c := c_initialize (fst args) (snd args) in
  exists new,
    match attempt_body path login password server timeout portable
            retry retry_delay attempt last_error s with
    | (r, s') =>
        trace s' = trace s ++ new /\
        List.filter is_lock new = [] /\
        ((r = Ret (Return true) /\
          List.filter paced new = [e_call c (Ret (VBool true))] /\
          obj s' = {| connected := true; login := login; server := server |})
         \/
         (exists le reply, r = Ret (Continue le) /\ reply <> Ret (VBool true) /\
            connected (obj s') = false /\
            List.filter paced new =
              if (attempt <? retry - 1)%Z
              then [e_call c reply; e_sleep retry_delay]
              else [e_call c reply])
         \/
         (exists exe,
            path = Some exe /\ attempt = 0 /\
            r = Ret (Continue last_error) /\ obj s' = obj s /\
            List.filter paced new =
              [e_call c (Ret (VBool false)); e_call (c_Popen exe) (Ret VNone);
               e_sleep (QcZ 5)]))
    end.
Proof.
  intros args c.
  unfold attempt_body, try_except, bind, call_initialize, mt5_initialize,
    launch_terminal, sleep_if_more, mt5_last_error, subprocess_Popen, outside,
    set_connected, set_login_server, set_this, sleep, log, emit, modify, ret,
    try_except, bind.
  fold args.
  destruct path as [p|];
  destruct (attempt <? retry - 1)%Z eqn:Hmore;
  destruct (t_initialize (fst args) (snd args) (world s))
    as [[[|]|e] w1] eqn:Hinit;
    cbn [negb world obj trace fst snd].
  all: repeat match goal with
       | |- context [t_last_error ?w] =>
           destruct (t_last_error w) as [[[? ?]|?] ?] eqn:?;
           cbn [negb world obj trace fst snd]
       | |- context [if ?b then _ else _] =>
           destruct b eqn:?; cbn [negb world obj trace fst snd]
       | |- context [t_Popen ?p ?w] =>
           destruct (t_Popen p w) as [[?|?] ?] eqn:?;
           cbn [negb world obj trace fst snd]
       end.
  all: eexists; cbn [negb world obj trace fst snd];
       (split; [rewrite <- ?app_assoc; reflexivity|]);
       (split; [reflexivity|]).
  all: try (left; split; [reflexivity|]; split; reflexivity).
  all: try (right; left; do 2 eexists; split; [reflexivity|];
            split; [|split; [reflexivity|reflexivity]]; discriminate).
  all: right; right; eexists; split; [reflexivity|]; split; [lia|];
       split; [reflexivity|]; split; reflexivity.
Qed.

(** When a round launches the terminal: the attempt failed, it is the
    first round, a non-empty path was given, [mt5.last_error()] reports
    -10001, and the process could be started. *)
Lemma launch_terminal_spec path attempt result (s : st W connection) :
  fst (launch_terminal path attempt result s) = Ret true <->
  result = false /\ attempt = 0 /\
  exists exe msg w1 w2,
    path = Some exe /\ exe <> "" /\
    t_last_error (world s) = (Ret (-10001, msg), w1) /\
    t_Popen exe w1 = (Ret tt, w2).
Proof.
  unfold launch_terminal, try_except, bind, mt5_last_error, subprocess_Popen,
    outside, sleep, log, emit, modify, ret.
  destruct result; cbn [negb].
  { split; [discriminate | intros [? _]; discriminate]. }
  destruct (t_last_error (world s)) as [[[code msg]|e] w1] eqn:Herr;
    cbn [fst snd world obj trace].
  2:{ split; [discriminate|].
      intros (_ & _ & exe & msg & w1' & w2 & _ & _ & [=] & _). }
  destruct path as [exe|]; cbn [fst].
  2:{ split; [discriminate|].
      intros (_ & _ & exe & msg' & w1' & w2 & [=] & _). }
  destruct (code =? -10001)%Z eqn:Hcode; cbn [andb].
  2:{ split; [discriminate|].
      intros (_ & _ & exe' & msg' & w1' & w2 & _ & _ & [= -> _ _] & _).
      discriminate. }
  destruct (bool_decide (exe = "")) eqn:Hexe; cbn [negb andb].
  { split; [discriminate|].
    intros (_ & _ & exe' & msg' & w1' & w2 & [= <-] & Hne & _).
    apply bool_decide_eq_true in Hexe. contradiction. }
  destruct (attempt =? 0)%Z eqn:Hatt; cbn [fst].
  2:{ split; [discriminate | intros (_ & -> & _); discriminate]. }
  cbn [world obj trace].
  destruct (t_Popen exe w1) as [[[]|e] w2] eqn:Hpopen; cbn [fst].
  - split; [|reflexivity]. intros _.
    apply Z.eqb_eq in Hcode, Hatt. subst code.
    apply bool_decide_eq_false in Hexe.
    repeat split; [exact Hatt|]. now exists exe, msg, w1, w2.
  - split; [discriminate|].
    intros (_ & _ & exe' & msg' & w1' & w2' & [= <-] & _ & [= _ _ <-] & Hp).
    rewrite Hp in Hpopen. discriminate.
Qed.

Lemma after_loop_raises last_error (s : st W connection) :
  after_loop last_error s = (Raise (MT5ConnectionError None), s).
Proof.
  destruct last_error as [[e|text]|]; simpl; [reflexivity| |reflexivity].
  now destruct (negb (bool_decide (text = ""))).
Qed.

Lemma attempts_spec path login password server timeout portable
    retry retry_delay :
  let args := initialize_arguments path login password server timeout portable in
  let c := c_initialize (fst args) (snd args) in
  forall rounds attempt last_error (s : st W connection),
    Z.of_nat rounds + attempt = retry -> 0 <= attempt ->
    exists new ok,
      match attempts path login password server timeout portable
              retry retry_delay rounds attempt last_error s with
      | (r, s') =>
          trace s' = trace s ++ new /\
          List.filter is_lock new = [] /\
          schedule (fst args) (snd args) retry_delay (attempt =? 0)%Z rounds
            (List.filter paced new) ok /\
          (if (ok : bool)
           then r = Ret true /\
                obj s' = {| connected := true; login := login; server := server |}
           else r = Raise (MT5ConnectionError None))
      end.
Proof.
  intros args c.
  induction rounds as [|rounds IH]; intros attempt last_error s Hsum Hpos.
  - exists [], false. simpl. rewrite after_loop_raises.
    rewrite app_nil_r. repeat split. constructor.
  - simpl. unfold bind.
    destruct (attempt_body_cases path login password server timeout portable
                retry retry_delay attempt last_error s) as [new1 Hbody].
    fold args in Hbody. fold c in Hbody.
    destruct (attempt_body path login password server timeout portable
                retry retry_delay attempt last_error s) as [r1 s1].
    destruct Hbody as [Htr [Hlk [(-> & Hf & Hobj)
                                 | [(le & reply & -> & Hr & _ & Hf)
                                   | (exe & Hexe & -> & -> & _ & Hf)]]]].
    + exists new1, true. simpl. rewrite Hf.
      split; [exact Htr|]. split; [exact Hlk|]. split; [constructor | auto].
    + destruct (IH (attempt + 1) le s1) as (new2 & ok & Hrest); [lia | lia |].
      destruct (attempts path login password server timeout portable
                  retry retry_delay rounds (attempt + 1) le s1) as [r s'].
      destruct Hrest as (Htr2 & Hlk2 & Hsch & Hres).
      exists (new1 ++ new2), ok.
      split; [rewrite Htr2, Htr; now rewrite app_assoc|].
      split; [now rewrite List.filter_app, Hlk, Hlk2|].
      split; [|exact Hres].
      rewrite List.filter_app, Hf.
      replace (attempt + 1 =? 0)%Z with false in Hsch by (symmetry; lia).
      destruct (attempt <? retry - 1)%Z eqn:Hmore.
      * destruct rounds as [|rounds]; [lia|].
        simpl. now apply sch_retry.
      * destruct rounds as [|rounds]; [|lia].
        apply schedule_exhausted in Hsch as [-> ->].
        simpl. now apply sch_last.
    + destruct (IH 1 last_error s1) as (new2 & ok & Hrest); [lia | lia |].
      change (0 + 1) with 1.
      destruct (attempts path login password server timeout portable
                  retry retry_delay rounds 1 last_error s1) as [r s'].
      destruct Hrest as (Htr2 & Hlk2 & Hsch & Hres).
      exists (new1 ++ new2), ok.
      split; [rewrite Htr2, Htr; now rewrite app_assoc|].
      split; [now rewrite List.filter_app, Hlk, Hlk2|].
      split; [|exact Hres].
      rewrite List.filter_app, Hf. simpl. apply sch_launch; [|exact Hsch].
      subst path. unfold args, initialize_arguments. now destruct login.
Qed.


(** The flag and the methods that read it. *)
Lemma is_connected_flag (s : st W connection) :
  is_connected s = (Ret (connected (obj s)), s).
Proof. reflexivity. Qed.

Lemma shutdown_clears_flag (s : st W connection) r s' :
  shutdown s = (r, s') -> r = Ret tt -> connected (obj s') = false.
Proof.
  unfold shutdown, bind, this, mt5_shutdown, outside, set_connected, set_this,
    log, emit, modify, ret.
  destruct (connected (obj s)) eqn:Hc.
  - destruct (t_shutdown (world s)) as [[[]|e] w1]; cbn;
      intros [= <- <-]; [reflexivity | discriminate].
  - intros [= <- <-] _. exact Hc.
Qed.

Lemma get_terminal_info_requires_flag (s : st W connection) :
  connected (obj s) = false ->
  get_terminal_info s = (Raise (MT5ConnectionError None), s).
Proof. intros Hc. unfold get_terminal_info, bind, this. now rewrite Hc. Qed.

Lemma get_version_requires_flag (s : st W connection) :
  connected (obj s) = false ->
  get_version s = (Raise (MT5ConnectionError None), s).
Proof. intros Hc. unfold get_version, bind, this. now rewrite Hc. Qed.

(** The function [login] of the class raises on a cleared flag... *)
Lemma login_method_requires_flag l password server timeout
    (s : st W connection) :
  connected (obj s) = false ->
  login_method l password server timeout s
    = (Raise (MT5ConnectionError None), s).
Proof. intros Hc. unfold login_method, bind, this. now rewrite Hc. Qed.

(** ...but [conn.login(...)], the way [EMT5.login] reaches it, never gets to
    that function: the attribute [login] that [__init__] stores in the
    instance is found first, and calling it is a [TypeError]. *)
Lemma call_login_not_callable l password server timeout
    (s : st W connection) :
  call_login l password server timeout s = (Raise TypeError, s).
Proof. reflexivity. Qed.

End Facts.


(** What the scripted run above looks like: two attempts, one sleep of
    [retry_delay] between them, [True] returned. *)
Example initialize_second_try :
  match initialize (W := Sim.sim) None None None None 60000 false 3 (QcZ 2)
          (St __init__ Sim.second_try []) with
  | (r, s') =>
      r = Ret true /\
      List.filter paced (trace s') =
        [e_call (c_initialize None []) (Ret (VBool false));
         e_sleep (QcZ 2);
         e_call (c_initialize None []) (Ret (VBool true))]
  end.
Proof. vm_compute. split; reflexivity. Qed.

(** C4, the failing run: a connected object is asked to [initialize] again
    with a path and [retry=1] when the terminal is gone.  The only attempt
    fails with error -10001, the terminal is launched, the loop is left by
    [continue], and [MT5ConnectionError] is raised with the flag still
    [True]. *)
Theorem initialize_launch_keeps_flag :
  match initialize (W := Sim.sim) None None None None 60000 false 3 (QcZ 2)
          (St __init__ Sim.dies_after_first []) with
  | (r1, s1) =>
      match initialize (Some "terminal64.exe") None None None 60000 false
              1 (QcZ 2) s1 with
      | (r2, s2) =>
          r1 = Ret true /\
          r2 = Raise (MT5ConnectionError None) /\
          List.filter paced (List.skipn (length (trace s1)) (trace s2)) =
            [e_call (c_initialize (Some "terminal64.exe") []) (Ret (VBool false));
             e_call (c_Popen "terminal64.exe") (Ret VNone);
             e_sleep (QcZ 5)] /\
          fst (is_connected s2) = Ret true
      end
  end.
Proof. vm_compute. repeat split; reflexivity. Qed.

(** The sibling path: the same failure without a path clears the flag. *)
Example initialize_failure_clears_flag :
  match initialize (W := Sim.sim) None None None None 60000 false 3 (QcZ 2)
          (St __init__ Sim.dies_after_first []) with
  | (r1, s1) =>
      match initialize None None None None 60000 false 1 (QcZ 2) s1 with
      | (r2, s2) =>
          r2 = Raise (MT5ConnectionError None) /\
          fst (is_connected s2) = Ret false
      end
  end.
Proof. vm_compute. split; reflexivity. Qed.

End ConnectionFacts.

(** ** trade/executor.py *)

Module ExecutorFacts.
Import Converters ConvertersSpec ConvertersFacts Executor ExecutorSpec.






Section Facts.
Context {W : Type} `{Terminal W}.

(** The conversion of a result leaves every key but [request] as in the
    named tuple. *)
Lemma result_to_dict_spec (res : record) (s : st W executor) :
  exists d0 : dict,
    result_to_dict res s = (Ret d0, s) /\
    (forall k, k <> "request" -> d0 !! k = _asdict res !! k) /\
    d0 !! "request" = match _asdict res !! "request" with
                      | Some (VRecord fs) => Some (VDict (_asdict fs))
                      | other => other
                      end.
Proof.
  unfold result_to_dict. simpl.
  destruct (_asdict res !! "request") as [[]|] eqn:Hreq;
    try (eexists; split; [reflexivity|]; split; [reflexivity | exact Hreq]).
  eexists. split; [reflexivity|]. split.
  - intros k Hk. now rewrite lookup_insert_ne.
  - apply lookup_insert_eq.
Qed.

Lemma warn_retcode_spec (res : record) (s : st W executor) :
  match _asdict res !! "retcode" with
  | Some retcode =>
      if py_eq_int retcode mt5c.TRADE_RETCODE_DONE || bool_decide (is_Some (_asdict res !! "comment"))
      then warn_retcode res s = (Ret tt, St (obj s) (world s) (trace s ++ warnings res))
      else warn_retcode res s
             = (Raise AttributeError,
                St (obj s) (world s) (trace s ++ [e_log WARNING]))
  | None => warn_retcode res s = (Raise AttributeError, s)
  end.
Proof.
  unfold warn_retcode, warnings, bind, lift_outcome, getattr, log, emit, modify, ret.
  destruct (_asdict res !! "retcode") as [rc|]; [|reflexivity].
  destruct (py_eq_int rc mt5c.TRADE_RETCODE_DONE); simpl.
  - rewrite app_nil_r. now destruct s.
  - destruct (_asdict res !! "comment") as [c|]; simpl.
    + rewrite <- app_assoc. reflexivity.
    + reflexivity.
Qed.



End Facts.

(** A rejected order on the scripted terminal: two warnings, no exception,
    and the time of the result gets its companion. *)
Example send_rejected :
  let w := {| Sim.initialize_replies := [];
              Sim.last_error_reply := Ret (1, "Success");
              Sim.shutdown_reply := Ret tt;
              Sim.terminal_info_reply := Ret None;
              Sim.version_reply := Ret VNone;
              Sim.login_reply := Ret false;
              Sim.account_info_reply := Ret None;
              Sim.symbol_info_reply := Ret None;
              Sim.symbol_info_tick_reply := Ret None;
              Sim.order_send_reply := Ret (Some rejected);
              Sim.order_check_reply := Ret None;
              Sim.order_calc_margin_reply := Ret None;
              Sim.order_calc_profit_reply := Ret None;
              Sim.Popen_reply := Ret tt |} in
  let up := {| Connection.connected := true;
               Connection.login := None; Connection.server := None |} in
  match send (VDict ∅) (St (__init__ (Some up) 0) w []) with
  | (Ret (VDict d), s') =>
      d !! "retcode" = Some (VInt 10006) /\
      d !! "time_dt" = Some (VDatetime (QcZ 1704067200)) /\
      d !! "request" = Some (VDict (_asdict [("action", VInt 1);
                                             ("symbol", VStr "EURUSD")])) /\
      trace s' = [e_call (c_order_send ∅) (Ret (VRecord rejected));
                  e_log WARNING; e_log WARNING]
  | _ => False
  end.
Proof. vm_compute. repeat split; reflexivity. Qed.

End ExecutorFacts.

(** ** info/account.py *)

Module AccountFacts.
Import Account.

Section Facts.
Context {W : Type} `{Terminal W}.


End Facts.


End AccountFacts.

(** ** trade/calculator.py *)

Module CalculatorFacts.
Import Calculator CalculatorSpec.

Section Facts.
Context {W : Type} `{Terminal W}.

Ltac finish_none :=
  split; [reflexivity|]; eexists;
  (split; [rewrite <- ?app_assoc;
           first [reflexivity | symmetry; apply app_nil_r]|]);
  right;
  first [ right; split; [reflexivity|]; split; reflexivity
        | left; split; [reflexivity|]; split; [reflexivity|];
          first [ now left
                | right; do 2 eexists; split; [reflexivity|]; cbn; congruence ] ].

Lemma calc_profit_cases symbol volume price_open price_close action
    (s : st W calculator) :
  match calc_profit symbol volume price_open price_close action s with
  | (r, s') =>
      obj s' = obj s /\
      exists new, trace s' = trace s ++ new /\
      ((exists p order_type,
          r = Ret (Some p) /\
          profit_order_type action = Some order_type /\
          List.filter is_calc new =
            [e_call (c_order_calc_profit order_type symbol volume
                       price_open price_close) (Ret (VFloat p))])
       \/
       (r = Ret None /\ Connection.connected (connection (obj s)) = true /\
        no_number (List.filter is_calc new))
       \/
       (r = Ret None /\ Connection.connected (connection (obj s)) = false /\
        new = [e_log ERROR]))
  end.
Proof.
  destruct s as [o w t].
  unfold calc_profit, try_except, bind, this, conn_is_connected, on_object,
    Connection.is_connected, lift_outcome, mt5_order_calc_profit,
    mt5_last_error, outside, log, emit, modify, ret, no_number.
  cbn.
  destruct (Connection.connected (connection o)) eqn:Hup; cbn.
  2:{ finish_none. }
  destruct (profit_order_type action) as [ty|]; cbn.
  2:{ finish_none. }
  destruct (t_order_calc_profit ty symbol volume price_open price_close w)
    as [[[p|]|e] w1]; cbn.
  - split; [reflexivity|]. eexists. split; [reflexivity|].
    left. exists p, ty. auto.
  - destruct (t_last_error w1) as [[[code msg]|e] w2]; cbn; finish_none.
  - finish_none.
Qed.






End Facts.


(** With a symbol description the volume is also floored to the step and
    clamped: a risk of 105 gives 2.1 lots. *)
Example calc_position_size_adjusts :
  exists v,
    fst (calc_position_size "EURUSD" (QcZ 105) (Q2Qc (11000 # 10000))
           (Q2Qc (10950 # 10000)) "buy"
           (St {| connection := Sim.up |} Sim.running []))
    = Ret (Some v) /\ v = Q2Qc (21 # 10).
Proof.
  vm_compute. eexists. split; [reflexivity|]. apply Qc_is_canon. reflexivity.
Qed.

(** [calc_margin] looks the action up in lower case but picks the side of
    the quote with the action as written. *)
Example calc_margin_running :
  match calc_margin "EURUSD" (QcZ 1) "buy" None
          (St {| connection := Sim.up |} Sim.running []) with
  | (r, s') =>
      r = Ret (Some (QcZ 110)) /\
      List.filter is_calc (trace s') =
        [e_call (c_order_calc_margin mt5c.ORDER_TYPE_BUY "EURUSD" (QcZ 1)
                   (Q2Qc (11002 # 10000))) (Ret (VFloat (QcZ 110)))]
  end.
Proof. vm_compute. split; reflexivity. Qed.

End CalculatorFacts.

(** ** trade/request_builder.py *)

Module BuilderFacts.
Import Builder BuilderSpec.

Lemma cells_update_same self f h :
  cells (update self f h) self = f (cells h self).
Proof. unfold update. cbn. now rewrite bool_decide_eq_true_2. Qed.

Lemma cells_update_other self f h r :
  r <> self -> cells (update self f h) r = cells h r.
Proof. intros Hr. unfold update. cbn. now rewrite bool_decide_eq_false_2. Qed.

Section Facts.
Context {W : Type} `{Terminal W}.

Lemma invoke_spec self m (s : st W store) :
  let b := cells (obj s) self in
  match invoke self m s with
  | (r, s') =>
      (forall r', r' <> self -> cells (obj s') r' = cells (obj s) r') /\
      next_ref (obj s') = next_ref (obj s) /\
      if is_market m then
        match t_symbol_info_tick (_symbol b) (world s) with
        | (Ret (Some quote), w1) =>
            r = Ret self /\ cells (obj s') self = recorded m quote b /\
            world s' = w1
        | (Ret None, w1) => r = Raise ValueError /\ world s' = w1
        | (Raise e, w1) => r = Raise e /\ world s' = w1
        end /\
        is_Some (_action (cells (obj s') self)) /\
        is_Some (_order_type (cells (obj s') self))
      else
        r = Ret self /\ world s' = world s /\ trace s' = trace s /\
        forall quote, cells (obj s') self = recorded m quote b
  end.
Proof.
  destruct s as [h w t]. intros b. subst b.
  destruct m; cbn [invoke is_market];
    unfold market_buy, market_sell, limit_buy, limit_sell, stop_buy, stop_sell,
      pending, with_sl, with_tp, with_sl_tp, with_deviation, with_magic,
      with_comment, _get_ask_price, _get_bid_price, deref, assign, set_this,
      mt5_symbol_info_tick, outside, bind, this, modify, ret, raise;
    cbn [obj world trace].
  all: rewrite ?cells_update_same; cbn [_symbol set_volume set_order_type set_action set_price].
  all: try match goal with
       | |- context [t_symbol_info_tick ?a ?w] =>
           destruct (t_symbol_info_tick a w) as [[[quote|]|e] w1];
           cbn [obj world trace]
       end.
  all: rewrite ?cells_update_same.
  all: repeat split; try reflexivity;
       try (intros r' Hr'; now rewrite ?cells_update_other by exact Hr');
       try (cbn; eauto).
Qed.


Lemma request_of_dom b action order_type filling_mode :
  dom (request_of b action order_type filling_mode) = request_keys.
Proof.
  unfold request_of, request_keys. rewrite !dom_insert_L, dom_empty_L.
  set_solver.
Qed.

Lemma build_spec self (s : st W store) :
  let b := cells (obj s) self in
  match build self s with
  | (r, s') =>
      obj s' = obj s /\
      match _action b, _order_type b with
      | Some action, Some order_type =>
          match t_symbol_info (_symbol b) (world s) with
          | (Ret info, w1) =>
              world s' = w1 /\
              trace s' = trace s ++ [e_call (c_symbol_info (_symbol b))
                                       (Ret (to_value info))] /\
              r = Ret (if (0 <? _position b)%Z
                       then <["position" := VInt (_position b)]>
                              (request_of b action order_type (filling_of info))
                       else request_of b action order_type (filling_of info))
          | (Raise e, w1) => r = Raise e /\ world s' = w1
          end
      | _, _ => r = Raise ValueError /\ world s' = world s /\ trace s' = trace s
      end
  end.
Proof.
  destruct s as [h w t]. intros b. subst b.
  unfold build, _get_filling_mode, deref, mt5_symbol_info, outside, bind, this,
    ret, raise.
  cbn [obj world trace].
  destruct (_action (cells h self)) as [action|];
    [|cbn; destruct (_order_type (cells h self)); now auto].
  destruct (_order_type (cells h self)) as [order_type|]; [|cbn; now auto].
  cbn [obj world trace].
  destruct (t_symbol_info (_symbol (cells h self)) w) as [[[info|]|e] w1];
    cbn [obj world trace]; [| |now repeat split].
  - unfold filling_of.
    destruct (negb (Z.land (filling_mode info) 1 =? 0)%Z); cbn [obj world trace];
      [|destruct (negb (Z.land (filling_mode info) 2 =? 0)%Z); cbn [obj world trace]].
    all: destruct (0 <? _position (cells h self))%Z;
         cbn [obj world trace];
         (split; [reflexivity|]); (split; [reflexivity|]);
         (split; [reflexivity|]); reflexivity.
  - destruct (0 <? _position (cells h self))%Z; cbn [obj world trace];
      (split; [reflexivity|]); (split; [reflexivity|]);
      (split; [reflexivity|]); reflexivity.
Qed.



(** The entries of the dict [build] returns. *)
Lemma built_request b action order_type filling_mode :
  let request :=
    if (0 <? _position b)%Z
    then <["position" := VInt (_position b)]>
           (request_of b action order_type filling_mode)
    else request_of b action order_type filling_mode in
  dom request =
    request_keys ∪ (if (0 <? _position b)%Z then {["position"]} else ∅) /\
  request !! "action" = Some (VInt action) /\
  request !! "symbol" = Some (VStr (_symbol b)) /\
  request !! "volume" = Some (_volume b) /\
  request !! "type" = Some (VInt order_type) /\
  request !! "price" = Some (_price b) /\
  request !! "sl" = Some (_sl b) /\
  request !! "tp" = Some (_tp b) /\
  request !! "deviation" = Some (_deviation b) /\
  request !! "magic" = Some (_magic b) /\
  request !! "comment" = Some (_comment b) /\
  request !! "type_time" = Some (VInt mt5c.ORDER_TIME_GTC) /\
  request !! "type_filling" = Some (VInt filling_mode) /\
  request !! "position" =
    if (0 <? _position b)%Z then Some (VInt (_position b)) else None.
Proof.
  destruct (0 <? _position b)%Z; cbn zeta.
  - split; [rewrite dom_insert_L, request_of_dom; set_solver|].
    repeat split; reflexivity.
  - split; [rewrite request_of_dom; set_solver|].
    repeat split; reflexivity.
Qed.



End Facts.



(** The validation of the executor reaches the caller of [check]: a volume
    under the symbol's minimum is refused with [MT5ValidationError]. *)
Example check_refuses_small_volume :
  match limit_buy (W := Sim.sim) 0%nat (VFloat (Q2Qc (1 # 1000)))
          (VFloat (Q2Qc (109 # 100))) (St fresh_store Sim.running []) with
  | (_, s') => fst (check 0%nat s') = Raise MT5ValidationError
  end.
Proof. vm_compute. reflexivity. Qed.

(** The chain of the docstring on a builder made by [__init__] next to
    another one: a market buy with stop loss and take profit, then [build].
    The chain ends on the new builder and the other builder is as it
    was. *)
Example chain_then_build :
  match __init__ (W := Sim.sim) "GOLD" (Executor.__init__ (Some Sim.up) 7)
          (VInt 7) (St fresh_store Sim.running []) with
  | (Ret self, s0) =>
      match chain self
              [m_market_buy (VFloat (Q2Qc (1 # 10)));
               m_with_sl (VFloat (Q2Qc (10950 # 10000)));
               m_with_tp (VFloat (Q2Qc (11050 # 10000)))] s0 with
      | (r, s') =>
          self = 1%nat /\ r = Ret self /\
          _action (cells (obj s') 0%nat) = None /\
          match build self s' with
          | (Ret request, _) =>
              request !! "action" = Some (VInt mt5c.TRADE_ACTION_DEAL) /\
              request !! "symbol" = Some (VStr "GOLD") /\
              request !! "type" = Some (VInt mt5c.ORDER_TYPE_BUY) /\
              request !! "volume" = Some (VFloat (Q2Qc (1 # 10))) /\
              request !! "price" = Some (VFloat (Q2Qc (11002 # 10000))) /\
              request !! "sl" = Some (VFloat (Q2Qc (10950 # 10000))) /\
              request !! "tp" = Some (VFloat (Q2Qc (11050 # 10000))) /\
              request !! "magic" = Some (VInt 7) /\
              request !! "type_filling" = Some (VInt mt5c.ORDER_FILLING_FOK) /\
              request !! "position" = None
          | (Raise _, _) => False
          end
      end
  | (Raise _, _) => False
  end.
Proof. vm_compute. repeat split; reflexivity. Qed.

End BuilderFacts.

(** ** manager/account_manager.py *)

Module ManagerFacts.
Import Manager.

(** *** The dict of accounts *)

Lemma item_None name l : item name l = None <-> name ∉ l.*1.
Proof.
  induction l as [|[k v] l IH]; simpl.
  - split; [intros _; apply not_elem_of_nil | reflexivity].
  - rewrite not_elem_of_cons. case_bool_decide as Hk.
    + split; [discriminate | intros [Hne _]; congruence].
    + rewrite IH. split; [intros Hl; split; [congruence | exact Hl] | tauto].
Qed.

Lemma item_Some_key name l c : item name l = Some c -> name ∈ l.*1.
Proof.
  intros Hc. destruct (decide (name ∈ l.*1)) as [Hin|Hout]; [exact Hin|].
  apply item_None in Hout. congruence.
Qed.

Lemma setitem_absent name c l :
  name ∉ l.*1 -> setitem name c l = l ++ [(name, c)].
Proof.
  induction l as [|[k v] l IH]; simpl; [reflexivity|].
  rewrite not_elem_of_cons. intros [Hne Hl].
  rewrite bool_decide_eq_false_2 by congruence. now rewrite IH.
Qed.

Lemma keys_setitem_present name c l :
  name ∈ l.*1 -> (setitem name c l).*1 = l.*1.
Proof.
  induction l as [|[k v] l IH]; simpl.
  - intros Hin. now apply elem_of_nil in Hin.
  - intros Hin. case_bool_decide as Hk; [reflexivity|]. simpl. f_equal.
    apply IH. apply elem_of_cons in Hin as [Heq|Hin]; [congruence | exact Hin].
Qed.

Lemma item_setitem_ne name c l k :
  k <> name -> item k (setitem name c l) = item k l.
Proof.
  intros Hk. induction l as [|[k' v] l IH]; simpl.
  - now rewrite bool_decide_eq_false_2 by congruence.
  - case_bool_decide as Hk'; simpl.
    + subst k'. now rewrite !bool_decide_eq_false_2 by congruence.
    + now rewrite IH.
Qed.

Lemma setitem_same name c l : item name l = Some c -> setitem name c l = l.
Proof.
  induction l as [|[k v] l IH]; simpl; [discriminate|].
  case_bool_decide as Hk; [now intros [= ->] | intros Hc; now rewrite IH].
Qed.

Lemma keys_delitem name l :
  (delitem name l).*1 = filter (fun k => k <> name) l.*1.
Proof.
  unfold delitem. induction l as [|[k v] l IH]; [reflexivity|].
  rewrite filter_cons, fmap_cons, filter_cons. cbn [fst].
  destruct (decide (k <> name)); [rewrite fmap_cons|]; now rewrite IH.
Qed.

Lemma item_delitem_ne name l k :
  k <> name -> item k (delitem name l) = item k l.
Proof.
  intros Hk. unfold delitem. induction l as [|[k' v] l IH]; [reflexivity|].
  rewrite filter_cons. cbn [fst].
  destruct (decide (k' <> name)) as [Hne|Heq]; cbn [item].
  - now rewrite IH.
  - rewrite IH. rewrite bool_decide_eq_false_2; [reflexivity|].
    intros ->. apply Heq. congruence.
Qed.

Lemma item_delitem_eq name l : item name (delitem name l) = None.
Proof.
  apply item_None. rewrite keys_delitem. intros Hin.
  apply list_elem_of_filter in Hin as [Hne _]. congruence.
Qed.

Lemma first_key_spec l :
  match first_key l with
  | Some k => k ∈ l.*1
  | None => l = []
  end.
Proof. destruct l as [|[k v] l]; [reflexivity | now left]. Qed.

Lemma contains_spec name m : contains name m = true <-> name ∈ keys m.
Proof. unfold contains. apply bool_decide_eq_true. Qed.

Section Facts.
Context {W : Type} `{Terminal W}.

(** *** The clients *)

Lemma emt5_initialize_trace path login password server timeout portable
    (s : st W EMT5.emt5) :
  exists new,
    trace (snd (EMT5.initialize path login password server timeout portable s))
    = trace s ++ new /\
    List.filter is_lock new = [].
Proof.
  unfold EMT5.initialize, EMT5.on_connection, zoom, Connection.initialize.
  destruct (ConnectionFacts.attempts_spec path login password server timeout
              portable 3 (QcZ 2) (Z.to_nat 3) 0 None
              (St (EMT5._connection (obj s)) (world s) (trace s)))
    as (new & ok & Hspec); [reflexivity | lia |].
  destruct (Connection.attempts _ _ _ _ _ _ _ _ _ _ _ _) as [r s'].
  destruct Hspec as (Htr & Hlk & _). exists new. now split.
Qed.

Lemma emt5_shutdown_cases (s : st W EMT5.emt5) :
  match EMT5.shutdown s with
  | (r, s') =>
      (exists new, trace s' = trace s ++ new /\ List.filter is_lock new = []) /\
      (forall e, r = Raise e -> obj s' = obj s)
  end.
Proof.
  destruct s as [[c magic keep] w t].
  unfold EMT5.shutdown, EMT5.on_connection, zoom, Connection.shutdown, bind,
    this, mt5_shutdown, outside, Connection.set_connected, set_this, log, emit,
    modify, ret.
  cbn [obj world trace EMT5._connection].
  destruct (Connection.connected c) eqn:Hc; cbn [obj world trace].
  - destruct (t_shutdown w) as [[[]|e] w1]; cbn [obj world trace].
    + split; [|discriminate]. eexists. rewrite <- app_assoc.
      split; reflexivity.
    + split; [eexists; split; reflexivity|]. intros _ _. reflexivity.
  - split; [exists []; now rewrite app_nil_r|]. discriminate.
Qed.

(** *** The operations *)

Lemma add_account_cases name login password server path auto_connect
    (s : st W manager) :
  match add_account name login password server path auto_connect s with
  | (r, s') =>
      (exists mid,
         trace s' = trace s ++ (e_acquire :: mid ++ [e_release]) /\
         List.filter is_lock mid = []) /\
      ((r = Ret false /\ obj s' = obj s) \/
       (r = Ret true /\ (name ∉ keys (obj s)) /\
        exists client,
          accounts (obj s') = accounts (obj s) ++ [(name, client)] /\
          current_account (obj s') =
            match current_account (obj s) with
            | None => Some name
            | Some c => Some c
            end))
  end.
Proof.
  destruct s as [[accs cur] w t].
  unfold add_account, with_lock, bind, this, on_object, set_this, log, emit,
    modify, ret.
  cbn [obj world trace].
  destruct (contains name {| accounts := accs; current_account := cur |}) eqn:Hin;
    cbn [obj world trace].
  { split; [exists [e_log WARNING];
             split; [now rewrite <- !app_assoc
                   | now rewrite ?List.filter_app, ?Hlk]|]. now left. }
  assert (Hout : name ∉ accs.*1).
  { intros Hk.
    apply (contains_spec name {| accounts := accs; current_account := cur |})
      in Hk. congruence. }
  destruct auto_connect; cbn [obj world trace].
  - pose proof (emt5_initialize_trace path (Some login) (Some password)
                  (Some server) 60000 false
                  (St (EMT5.__init__ 0 false) w (t ++ [e_acquire])))
      as (new & Hnew & Hlk).
    destruct (EMT5.initialize path (Some login) (Some password) (Some server)
                60000 false (St (EMT5.__init__ 0 false) w (t ++ [e_acquire])))
      as [r s1].
    cbn [snd trace] in Hnew.
    destruct r as [[|]|e];
      cbn [obj world trace accounts current_account put_accounts put_current];
      rewrite Hnew.
    + destruct cur;
        cbn [obj world trace accounts current_account put_accounts put_current];
        (split; [exists (new ++ [e_log INFO]);
             split; [now rewrite <- !app_assoc
                   | now rewrite ?List.filter_app, ?Hlk]|]);
        right; (split; [reflexivity|]); (split; [exact Hout|]);
        exists (obj s1); now rewrite setitem_absent by exact Hout.
    + split; [exists (new ++ [e_log ERROR]);
             split; [now rewrite <- !app_assoc
                   | now rewrite ?List.filter_app, ?Hlk]|].
      now left.
    + split; [exists (new ++ [e_log ERROR]);
             split; [now rewrite <- !app_assoc
                   | now rewrite ?List.filter_app, ?Hlk]|].
      now left.
  - cbn [obj world trace accounts current_account put_accounts put_current].
    destruct cur;
      cbn [obj world trace accounts current_account put_accounts put_current];
      (split; [exists [e_log INFO];
             split; [now rewrite <- !app_assoc
                   | now rewrite ?List.filter_app, ?Hlk]|]);
      right; (split; [reflexivity|]); (split; [exact Hout|]);
      exists (EMT5.__init__ 0 false); now rewrite setitem_absent by exact Hout.
Qed.

Lemma remove_account_cases name (s : st W manager) :
  match remove_account name s with
  | (r, s') =>
      (exists mid,
         trace s' = trace s ++ (e_acquire :: mid ++ [e_release]) /\
         List.filter is_lock mid = []) /\
      ((r = Ret false /\ (name ∉ keys (obj s)) /\ obj s' = obj s) \/
       (exists e, r = Raise e /\ obj s' = obj s) \/
       (r = Ret true /\ name ∈ keys (obj s) /\
        (exists client,
           accounts (obj s') =
             delitem name (setitem name client (accounts (obj s)))) /\
        current_account (obj s') =
          if bool_decide (current_account (obj s) = Some name)
          then first_key (accounts (obj s'))
          else current_account (obj s)))
  end.
Proof.
  destruct s as [[accs cur] w t].
  unfold remove_account, with_lock, bind, this, on_object, set_this,
    lift_outcome, log, emit, modify, ret.
  cbn [obj world trace accounts current_account].
  destruct (item name accs) as [client|] eqn:Hitem; cbn [obj world trace].
  2:{ split; [exists [e_log ERROR];
             split; [now rewrite <- !app_assoc
                   | now rewrite ?List.filter_app, ?Hlk]|].
      left. split; [reflexivity|]. split; [now apply item_None | reflexivity]. }
  pose proof (emt5_shutdown_cases (St client w (t ++ [e_acquire])))
    as Hshut.
  destruct (EMT5.shutdown (St client w (t ++ [e_acquire]))) as [r s1].
  cbn [obj world trace] in Hshut. destruct Hshut as [(new & Hnew & Hlk) Hraise].
  cbn [fst snd obj world trace accounts current_account put_accounts put_current].
  rewrite Hnew.
  destruct r as [[]|e];
    cbn [fst snd obj world trace accounts current_account put_accounts
         put_current].
  - case_bool_decide as Hcur;
      cbn [fst snd obj world trace accounts current_account put_accounts
           put_current];
      (split; [exists (new ++ [e_log INFO]);
             split; [now rewrite <- !app_assoc
                   | now rewrite ?List.filter_app, ?Hlk]|]);
      right; right; (split; [reflexivity|]);
      (split; [now apply item_Some_key with client|]);
      (split; [now exists (obj s1)|]); reflexivity.
  - split; [exists new;
             split; [now rewrite <- !app_assoc
                   | now rewrite ?List.filter_app, ?Hlk]|].
    right. left. exists e. split; [reflexivity|].
    rewrite (Hraise e eq_refl). now rewrite setitem_same.
Qed.

Lemma switch_account_cases name (s : st W manager) :
  match switch_account name s with
  | (r, s') =>
      (exists mid,
         trace s' = trace s ++ (e_acquire :: mid ++ [e_release]) /\
         List.filter is_lock mid = []) /\
      world s' = world s /\
      ((r = Ret false /\ (name ∉ keys (obj s)) /\ obj s' = obj s) \/
       (r = Ret true /\ name ∈ keys (obj s) /\
        accounts (obj s') = accounts (obj s) /\
        current_account (obj s') = Some name))
  end.
Proof.
  destruct s as [[accs cur] w t].
  unfold switch_account, with_lock, bind, this, set_this, log, emit, modify, ret.
  cbn [obj world trace].
  destruct (contains name {| accounts := accs; current_account := cur |}) eqn:Hin;
    cbn [negb obj world trace].
  - split; [exists [e_log INFO];
             split; [now rewrite <- !app_assoc
                   | now rewrite ?List.filter_app, ?Hlk]|].
    split; [reflexivity|]. right.
    split; [reflexivity|]. split; [now apply contains_spec|]. split; reflexivity.
  - split; [exists [e_log ERROR];
             split; [now rewrite <- !app_assoc
                   | now rewrite ?List.filter_app, ?Hlk]|].
    split; [reflexivity|]. left.
    split; [reflexivity|]. split; [|reflexivity].
    intros Hk.
    apply (contains_spec name {| accounts := accs; current_account := cur |})
      in Hk. congruence.
Qed.

(** C8: [add_account] and [remove_account] take the lock once, first of
    all, and release it once, last of all, so that the table is read and
    changed under the lock only; and an operation that fails leaves the
    manager as it was: [add_account] with an alias of the table returns
    [False] and changes neither the table nor the selection, as does every
    [add_account] that does not return [True]; [remove_account] with an
    alias that is not in the table returns [False] and changes nothing; a
    [remove_account] that returns [True] has deleted the entry of that
    alias and no other, and, when the alias was the selection, has moved
    the selection to the first remaining alias, or to [None] when none
    remains. *)
Theorem manager_table_updates name login password server path auto_connect
    (s : st W manager) :
  (name ∈ keys (obj s) ->
   add_account name login password server path auto_connect s
   = (Ret false,
      St (obj s) (world s)
         (trace s ++ [e_acquire; e_log WARNING; e_release]))) /\
  ((name ∉ keys (obj s)) ->
   remove_account name s
   = (Ret false,
      St (obj s) (world s) (trace s ++ [e_acquire; e_log ERROR; e_release]))) /\
  match add_account name login password server path auto_connect s with
  | (r, s') =>
      (exists mid,
         trace s' = trace s ++ (e_acquire :: mid ++ [e_release]) /\
         List.filter is_lock mid = []) /\
      (r = Ret true \/ (r = Ret false /\ obj s' = obj s))
  end /\
  match remove_account name s with
  | (r, s') =>
      (exists mid,
         trace s' = trace s ++ (e_acquire :: mid ++ [e_release]) /\
         List.filter is_lock mid = []) /\
      match r with
      | Ret true =>
          name ∈ keys (obj s) /\
          keys (obj s') = filter (fun k => k <> name) (keys (obj s)) /\
          (forall k, k <> name ->
             item k (accounts (obj s')) = item k (accounts (obj s))) /\
          item name (accounts (obj s')) = None /\
          current_account (obj s') =
            (if bool_decide (current_account (obj s) = Some name)
             then first_key (accounts (obj s'))
             else current_account (obj s)) /\
          match first_key (accounts (obj s')) with
          | Some k => k ∈ keys (obj s')
          | None => accounts (obj s') = []
          end
      | _ => obj s' = obj s
      end
  end.
Proof.
  split; [|split; [|split]].
  - destruct s as [o w t]. cbn [obj world trace].
    intros Hin. apply contains_spec in Hin.
    unfold add_account, with_lock, bind, this, log, emit, modify, ret.
    cbn [obj world trace]. rewrite Hin. cbn [obj world trace].
    now rewrite <- !app_assoc.
  - destruct s as [o w t]. cbn [obj world trace].
    intros Hout. apply item_None in Hout.
    unfold remove_account, with_lock, bind, this, log, emit, modify, ret.
    cbn [obj world trace]. rewrite Hout. cbn [obj world trace].
    now rewrite <- !app_assoc.
  - pose proof (add_account_cases name login password server path
                  auto_connect s) as Hadd.
    destruct (add_account name login password server path auto_connect s)
      as [r s'].
    destruct Hadd as [Hlock [Hfail | (Hr & _)]]; split; auto.
  - pose proof (remove_account_cases name s) as Hrem.
    destruct (remove_account name s) as [r s'].
    destruct Hrem as [Hlock [(-> & _ & Hobj) | [(e & -> & Hobj)
                              | (-> & Hin & [client Haccs] & Hcur)]]];
      (split; [exact Hlock|]); [exact Hobj | exact Hobj |].
    split; [exact Hin|].
    unfold keys in *. rewrite Haccs.
    split; [now rewrite keys_delitem, keys_setitem_present|].
    split; [intros k Hk; now rewrite item_delitem_ne, item_setitem_ne|].
    split; [apply item_delitem_eq|].
    split; [now rewrite <- Haccs|].
    apply first_key_spec.
Qed.



End Facts.

Lemma manager_table_updates_witness :
  add_account (W := Sim.sim) "main" 12345 "secret" "Demo" None true
    (St one_account Sim.running [])
  = (Ret false,
     St one_account Sim.running [e_acquire; e_log WARNING; e_release]).
Proof.
  destruct (manager_table_updates (W := Sim.sim) "main" 12345 "secret" "Demo"
              None true (St one_account Sim.running [])) as [Hadd _].
  apply Hadd. vm_compute. now left.
Defined.


(** Two accounts added, the selected one removed: the selection moves to
    the one that is left. *)
Example remove_selected_account :
  let s1 := snd (run (W := Sim.sim)
                   (op_add "main" 12345 "secret" "Demo" None false)
                   (St __init__ Sim.running [])) in
  let s2 := snd (run (op_add "hedge" 67890 "secret" "Demo" None false) s1) in
  let s3 := snd (run (op_remove "main") s2) in
  current_account (obj s2) = Some "main" /\
  keys (obj s3) = ["hedge"] /\
  current_account (obj s3) = Some "hedge".
Proof. vm_compute. repeat split; reflexivity. Qed.

End ManagerFacts.

(* ================================================================== *)
(** * Further properties

    Properties of the functions the statements above do not reach, and of
    their composition with those they do. *)

(** ** Facts on exact floats *)

Module FloatFacts.



Lemma QcZ_mono a b : a <= b -> (QcZ a <= QcZ b)%Qc.
Proof.
  intros Hab. unfold Qcle, QcZ.
  change (Qred (inject_Z a) <= Qred (inject_Z b))%Q.
  rewrite !Qred_correct. unfold Qle. simpl. lia.
Qed.


Lemma Qc_abs_nonneg q : (0 <= Qc_abs q)%Qc.
Proof.
  unfold Qc_abs. case_bool_decide as Hq.
  - apply Qclt_le_weak in Hq. apply Qcopp_le_compat in Hq.
    now replace (- 0)%Qc with 0%Qc in Hq by ring.
  - now apply Qcnot_lt_le.
Qed.

Lemma Qc_abs_pos q : Qc_abs q <> 0%Qc -> (0 < Qc_abs q)%Qc.
Proof.
  intros Hne. destruct (Qcle_lt_or_eq _ _ (Qc_abs_nonneg q)) as [Hlt|Heq];
    [exact Hlt | congruence].
Qed.

Lemma Qcdiv_nonneg a b : (0 <= a)%Qc -> (0 < b)%Qc -> (0 <= a / b)%Qc.
Proof.
  intros Ha Hb. apply Qcnot_lt_le. intros Hneg.
  apply (Qcmult_lt_compat_r _ _ b Hb) in Hneg.
  rewrite Qcmult_0_l in Hneg.
  replace (a / b * b)%Qc with a in Hneg.
  - now apply Qclt_not_le in Hneg.
  - rewrite Qcmult_comm. symmetry. apply Qcmult_div_r.
    intros ->. now apply Qclt_not_eq in Hb.
Qed.

Lemma Qc_max_l a b : (a <= Qc_max a b)%Qc.
Proof.
  unfold Qc_max. case_bool_decide as Hab;
    [now apply Qclt_le_weak | apply Qcle_refl].
Qed.

Lemma Qc_max_lub a b c : (a <= c)%Qc -> (b <= c)%Qc -> (Qc_max a b <= c)%Qc.
Proof. intros Ha Hb. unfold Qc_max. now case_bool_decide. Qed.

Lemma Qc_min_r a b : (Qc_min a b <= b)%Qc.
Proof.
  unfold Qc_min. case_bool_decide as Hab;
    [apply Qcle_refl | now apply Qcnot_lt_le].
Qed.

(** [round] is monotone. *)
Lemma Qc_floor_mono a b : (a <= b)%Qc -> Qc_floor a <= Qc_floor b.
Proof. intros Hab. unfold Qc_floor. now apply Qfloor_resp_le. Qed.

Lemma round_half_even_bounds q :
  Qc_floor q <= round_half_even q <= Qc_floor q + 1.
Proof.
  unfold round_half_even. repeat (case_bool_decide; cbv iota zeta);
    try (destruct (Z.even _); cbv iota); lia.
Qed.

Lemma round_half_even_mono a b :
  (a <= b)%Qc -> round_half_even a <= round_half_even b.
Proof.
  intros Hab. pose proof (Qc_floor_mono a b Hab) as Hf.
  pose proof (round_half_even_bounds a) as Ha.
  pose proof (round_half_even_bounds b) as Hb.
  destruct (Z.eq_dec (Qc_floor a) (Qc_floor b)) as [Heq|Hne]; [|lia].
  unfold round_half_even in *. rewrite <- Heq in *.
  set (f := Qc_floor a) in *.
  assert (Hr : (a - QcZ f <= b - QcZ f)%Qc).
  { apply Qcplus_le_compat; [exact Hab | apply Qcle_refl]. }
  set (ra := (a - QcZ f)%Qc) in *. set (rb := (b - QcZ f)%Qc) in *.
  clear Ha Hb Hf Heq. clearbody ra rb. clearbody f.
  destruct (bool_decide (ra < Q2Qc (1 # 2))%Qc) eqn:Ha1; cbv iota.
  - repeat (case_bool_decide; cbv iota); try (destruct (Z.even f); cbv iota);
      clear; lia.
  - apply bool_decide_eq_false in Ha1. apply Qcnot_lt_le in Ha1.
    rewrite (bool_decide_eq_false_2 (rb < Q2Qc (1 # 2))%Qc).
    2:{ apply Qcle_not_lt. now apply Qcle_trans with ra. }
    destruct (bool_decide (Q2Qc (1 # 2) < ra)%Qc) eqn:Ha2; cbv iota.
    + apply bool_decide_eq_true in Ha2.
      rewrite (bool_decide_eq_true_2 (Q2Qc (1 # 2) < rb)%Qc); [clear; lia|].
      now apply Qclt_le_trans with ra.
    + clear Ha2. case_bool_decide; cbv iota; destruct (Z.even f); cbv iota;
        clear; lia.
Qed.

Lemma round2_mono a b : (a <= b)%Qc -> (round2 a <= round2 b)%Qc.
Proof.
  intros Hab. unfold round2.
  assert (H100 : (0 <= QcZ 100)%Qc) by (now apply (QcZ_mono 0 100)).
  assert (Hinv : (0 <= / QcZ 100)%Qc).
  { unfold Qcle. simpl. unfold Qle. simpl. lia. }
  unfold Qcdiv. apply Qcmult_le_compat_r; [|exact Hinv].
  apply QcZ_mono, round_half_even_mono.
  now apply Qcmult_le_compat_r.
Qed.

End FloatFacts.

(** ** core/converters.py, the record converters *)

Module ConvertersProps.
Import Converters ConvertersSpec ConvertersFacts RecordConvertersSpec.

Lemma stamp_positive_frame msc field (d d' : dict) r k :
  stamp_positive msc field d = (r, d') ->
  k <> field +:+ "_dt" -> d' !! k = d !! k.
Proof.
  unfold stamp_positive, bind, get. intros Hrun Hk.
  destruct (d !! field) as [v|]; [|injection Hrun as _ <-; reflexivity].
  unfold lift_outcome, py_gt in Hrun.
  destruct (as_number v) as [q|]; [|injection Hrun as _ <-; reflexivity].
  destruct (bool_decide (QcZ 0 < q)%Qc).
  - unfold modify in Hrun. injection Hrun as _ <-.
    now rewrite lookup_insert_ne.
  - injection Hrun as _ <-. reflexivity.
Qed.















(** The run of the witness: the field before the offending one has got its
    companion, the one after it has not been looked at. *)
Example add_datetime_fields_stops_halfway :
  match add_datetime_fields (Some (<["time" := VStr "noon"]> tick_dict))
          ["time_msc"; "time"; "time_done"] "_dt" with
  | (Raise TypeError, Some d') =>
      is_Some (d' !! "time_msc_dt") /\ d' !! "time_dt" = None
  | _ => False
  end.
Proof. vm_compute. split; [eauto | reflexivity]. Qed.







(** Beyond that range the two part: a time above 10000000000 is taken for
    milliseconds by [add_datetime_fields] only, and a time of [None] is
    skipped by [add_datetime_fields] and a [TypeError] here. *)
Example convert_positions_differs :
  (exists d, convert_positions_to_dict (Some [[("time", VInt 1704067200500)]])
             = Ret [d] /\
             d !! "time_dt" = Some (VDatetime (QcZ 1704067200500))) /\
  (exists d, add_datetime_fields (Some (_asdict [("time", VInt 1704067200500)]))
               ["time"; "time_update"] "_dt" = (Ret (Some d), Some d) /\
             d !! "time_dt" = Some (VDatetime (QcZ 1704067200500 / QcZ 1000)%Qc)) /\
  convert_positions_to_dict (Some [[("time", VNone)]]) = Raise TypeError /\
  fst (add_datetime_fields (Some (_asdict [("time", VNone)]))
         ["time"; "time_update"] "_dt")
  = Ret (Some (_asdict [("time", VNone)])).
Proof.
  split; [|split; [|split]].
  - eexists. split; [vm_compute; reflexivity|]. vm_compute. reflexivity.
  - eexists. split; [vm_compute; reflexivity|]. vm_compute. reflexivity.
  - vm_compute. reflexivity.
  - vm_compute. reflexivity.
Qed.

End ConvertersProps.

(** ** core/connection.py, the other methods *)

Module ConnectionProps.
Import Connection ConnectionSpec.

Section Facts.
Context {W : Type} `{Terminal W}.

(** X4: with [retry <= 0] the loop of [initialize] has no round:
    [MT5ConnectionError] is raised at once, without a call to the terminal,
    a sleep or a log record, and the object is left as it was. *)
Theorem initialize_without_rounds path login password server timeout portable
    retry retry_delay (s : st W connection) :
  retry <= 0 ->
  initialize path login password server timeout portable retry retry_delay s
  = (Raise (MT5ConnectionError None), s).
Proof.
  intros Hretry. unfold initialize.
  replace (Z.to_nat retry) with 0%nat by lia. reflexivity.
Qed.



(** X6: [shutdown] calls [mt5.shutdown] exactly when the flag is set.
    When it returns, the flag is cleared, the stored login and server are
    kept, and a second [shutdown] does nothing at all; when [mt5.shutdown]
    raises, the exception goes on and the object is unchanged, the flag
    still set. *)
Theorem shutdown_idempotent (s : st W connection) :
  match shutdown s with
  | (Ret _, s1) =>
      obj s1 = {| connected := false; login := login (obj s);
                  server := server (obj s) |} /\
      shutdown s1 = (Ret tt, s1) /\
      (if connected (obj s)
       then exists w1, t_shutdown (world s) = (Ret tt, w1) /\ world s1 = w1 /\
              trace s1 = trace s ++ [e_call c_shutdown (Ret VNone); e_log INFO]
       else s1 = s)
  | (Raise e, s1) =>
      connected (obj s) = true /\ obj s1 = obj s /\
      exists w1, t_shutdown (world s) = (Raise e, w1) /\ world s1 = w1 /\
        trace s1 = trace s ++ [e_call c_shutdown (Raise e)]
  end.
Proof.
  destruct s as [[flag l sv] w t].
  unfold shutdown, bind, this, mt5_shutdown, outside, set_connected, set_this,
    log, emit, modify, ret.
  cbn [obj world trace connected login server].
  destruct flag; cbn [obj world trace connected login server].
  - destruct (t_shutdown w) as [[[]|e] w1] eqn:Hw;
      cbn [obj world trace connected login server].
    + split; [reflexivity|]. split; [reflexivity|].
      exists w1. rewrite <- app_assoc. repeat split.
    + split; [reflexivity|]. split; [reflexivity|].
      exists w1. repeat split.
  - repeat split.
Qed.


End Facts.

Lemma initialize_without_rounds_witness :
  0 <= 0 /\
  initialize (W := Sim.sim) None None None None 60000 false 0 (QcZ 2)
    (St __init__ Sim.running [])
  = (Raise (MT5ConnectionError None), St __init__ Sim.running []).
Proof.
  split; [lia|].
  apply (initialize_without_rounds (W := Sim.sim) None None None None 60000
           false 0 (QcZ 2) (St __init__ Sim.running [])).
  lia.
Defined.

End ConnectionProps.

(** ** emt5.py *)

Module ClientProps.
Import EMT5.
Section Facts.
Context {W : Type} `{Terminal W}.

(** X8: [EMT5.login] raises [TypeError] in every state, whatever the
    arguments, without a call to the terminal and without changing the
    client: [self._connection.login] is the attribute [__init__] stored,
    [None] or an account number, not the function of the class. *)
Theorem login_raises_type_error l password server timeout (s : st W emt5) :
  login l password server timeout s = (Raise TypeError, s).
Proof. destruct s as [[c magic keep] w t]. reflexivity. Qed.

(** X9: [__del__] does what [shutdown] does, the test of the flag it
    makes first being the one [MT5Connection.shutdown] makes itself; and
    [__exit__] returns [False], after nothing at all for a client created
    with [keep_alive=True] and after [shutdown] otherwise (whose exception,
    if any, goes on). *)
Theorem exit_and_del (s : st W emt5) :
  __del__ s = shutdown s /\
  __exit__ s =
    (if keep_alive (obj s) then (Ret false, s)
     else match shutdown s with
          | (Ret _, s') => (Ret false, s')
          | (Raise e, s') => (Raise e, s')
          end).
Proof.
  destruct s as [[[flag l sv] magic keep] w t]. split.
  - unfold __del__, is_connected, shutdown, on_connection, zoom,
      Connection.is_connected, Connection.shutdown, bind, this, ret.
    cbn [obj world trace _connection Connection.connected].
    destruct flag; reflexivity.
  - unfold __exit__, bind, this, ret. cbn [obj keep_alive].
    destruct keep; cbn [negb]; [reflexivity|].
    destruct (shutdown _) as [[[]|e] s']; reflexivity.
Qed.

End Facts.
End ClientProps.

(** ** core/decorators.py *)

Module DecoratorsProps.
Import Decorators DecoratorsSpec.

Section Facts.
Context {W : Type} `{Terminal W} {O : Type}.

Lemma conn_is_connected_flag (c : Connection.connection) (s : st W O) :
  conn_is_connected c s = (Ret (Connection.connected c), s).
Proof. destruct s. reflexivity. Qed.

(** The guard lets a connected object through... *)
Lemma guard_connected
    (connection _connection : O -> option Connection.connection)
    c (func : M (st W O) value) (s : st W O) :
  connection (obj s) = Some c -> Connection.connected c = true ->
  require_connection connection _connection func s = func s.
Proof.
  intros Hc Hflag. unfold require_connection, bind, this.
  rewrite Hc, conn_is_connected_flag, Hflag. reflexivity.
Qed.

(** ...and stacked on itself it is the guard. *)
Lemma guard_stacked
    (connection _connection : O -> option Connection.connection)
    (func : M (st W O) value) (s : st W O) :
  require_connection connection _connection
    (require_connection connection _connection func) s
  = require_connection connection _connection func s.
Proof.
  unfold require_connection, bind, this.
  destruct (match connection (obj s) with
            | Some c => Some c
            | None => _connection (obj s)
            end) as [c|] eqn:Hc; [|reflexivity].
  rewrite conn_is_connected_flag.
  destruct (Connection.connected c) eqn:Hflag; cbn [negb]; [|reflexivity].
  rewrite Hc, conn_is_connected_flag, Hflag. reflexivity.
Qed.

Section Retry.
Context {A : Type}.
Variables (max_attempts : Z) (delay : Qc) (caught : exn -> bool)
  (log_attempts : bool) (func : M (st W O) A).

(** X10: with [max_attempts <= 0] the wrapper of [retry] never calls the
    function: it raises [TypeError], the [raise] of the [None] that
    [last_exception] still holds, and leaves the state as it was. *)
Theorem retry_without_rounds (s : st W O) :
  max_attempts <= 0 ->
  retry max_attempts delay caught log_attempts func s = (Raise TypeError, s).
Proof.
  intros Hn. unfold retry. replace (Z.to_nat max_attempts) with 0%nat by lia.
  reflexivity.
Qed.

(** X11: with [max_attempts >= 1], a first call that returns, or that
    raises an exception that is not listed, is all the wrapper of [retry]
    does: it returns that value, or raises that exception, without a sleep
    or a log record. *)
Theorem retry_first_call (s : st W O) :
  1 <= max_attempts ->
  match func s with
  | (Ret a, s') =>
      retry max_attempts delay caught log_attempts func s = (Ret a, s')
  | (Raise e, s') =>
      caught e = false ->
      retry max_attempts delay caught log_attempts func s = (Raise e, s')
  end.
Proof.
  intros Hn. unfold retry.
  destruct (Z.to_nat max_attempts) as [|rounds] eqn:Hr; [lia|].
  cbn [retry_loop]. unfold bind, guarded.
  destruct (func s) as [[a|e] s']; [reflexivity|].
  intros ->. reflexivity.
Qed.



(** X13: the wrapper of [catch_exceptions] changes the outcome of the
    function in one case only: a listed exception, with [raise_error]
    false, becomes the return of [default_return]; a returned value, an
    exception that is not listed, and with [raise_error] every exception,
    pass as they are.  The object and the world are as the function left
    them, and one error record is added, when [log_error], for a listed
    exception. *)
Theorem catch_exceptions_outcome (default_return : A)
    (log_error raise_error : bool) (s : st W O) :
  match func s with
  | (r, s1) =>
      catch_exceptions caught default_return log_error raise_error func s
      = match r with
        | Ret a => (Ret a, s1)
        | Raise e =>
            if caught e then
              (if raise_error then Raise e else Ret default_return,
               St (obj s1) (world s1)
                  (trace s1 ++ if log_error then [e_log ERROR] else []))
            else (Raise e, s1)
        end
  end.
Proof.
  unfold catch_exceptions, bind, guarded.
  destruct (func s) as [[a|e] [o w t]]; [reflexivity|].
  destruct (caught e); [|reflexivity].
  unfold log, emit, modify, ret, raise, bind.
  destruct log_error, raise_error; cbn [obj world trace];
    now rewrite ?app_nil_r.
Qed.

End Retry.
End Facts.

Lemma retry_without_rounds_witness :
  retry (W := Sim.sim) (O := unit) (A := Z) 0 (QcZ 1) (fun _ => true) true
    (raise ValueError) (St tt Sim.idle [])
  = (Raise TypeError, St tt Sim.idle []).
Proof.
  apply (retry_without_rounds (W := Sim.sim) (O := unit) (A := Z) 0 (QcZ 1)
           (fun _ => true) true (raise ValueError) (St tt Sim.idle [])).
  lia.
Defined.

Lemma retry_first_call_witness :
  retry (W := Sim.sim) (O := unit) 3 (QcZ 1) (fun _ => true) true
    (ret 5) (St tt Sim.idle [])
  = (Ret 5, St tt Sim.idle []).
Proof.
  apply (retry_first_call (W := Sim.sim) (O := unit) 3 (QcZ 1)
           (fun _ => true) true (ret 5) (St tt Sim.idle [])).
  lia.
Defined.


End DecoratorsProps.

(** ** trade/executor.py, the other methods *)

Module ExecutorProps.
Import Executor ExecutorSpec OrdersSpec FloatFacts.

Section Facts.
Context {W : Type} `{Terminal W}.

(** X14: [cancel], a guarded method that calls the guarded [send], does
    exactly what [send] does on the request of the two keys [action], with
    [TRADE_ACTION_REMOVE], and [order], with the ticket: in particular a
    disconnected executor logs one error, not two, and returns [None]. *)
Theorem cancel_is_send (ticket : value) (s : st W executor) :
  cancel ticket s = send (VDict (cancel_request ticket)) s /\
  dom (cancel_request ticket) = {["action"; "order"]} /\
  cancel_request ticket !! "action" = Some (VInt 8) /\
  cancel_request ticket !! "order" = Some ticket.
Proof.
  split; [apply DecoratorsProps.guard_stacked|].
  split; [|split; reflexivity].
  unfold cancel_request. rewrite !dom_insert_L, dom_empty_L. set_solver.
Qed.

(** The calls of [order_send] in a run of [send]. *)
Lemma send_body_orders (req : dict) (s : st W executor) :
  match send_body (VDict req) s with
  | (r, s') =>
      obj s' = obj s /\
      exists reply rest,
        trace s' = trace s ++ e_call (c_order_send req) reply :: rest /\
        List.filter is_order_send rest = []
  end.
Proof.
  destruct s as [o w t].
  unfold send_body, try_except, bind, mt5_order_send, outside.
  cbn [obj world trace].
  destruct (t_order_send req w) as [[[res|]|e] w1] eqn:Hsend.
  - pose proof (ExecutorFacts.warn_retcode_spec res
                  (St o w1 (t ++ [e_call (c_order_send req) (Ret (VRecord res))])))
      as Hw.
    cbn [reply_of to_value reply_option reply_record].
    change (to_value res) with (VRecord res).
    unfold warnings in Hw.
    destruct (_asdict res !! "retcode") as [rc|] eqn:Hrc.
    2:{ rewrite Hw. unfold reraise_as_order_error, raise. cbn [obj trace].
        split; [reflexivity|]. exists (Ret (VRecord res)), [].
        split; [rewrite <- ?app_assoc; reflexivity | reflexivity]. }
    destruct (py_eq_int rc mt5c.TRADE_RETCODE_DONE
              || bool_decide (is_Some (_asdict res !! "comment"))) eqn:Hab.
    2:{ rewrite Hw. unfold reraise_as_order_error, raise. cbn [obj trace].
        split; [reflexivity|]. exists (Ret (VRecord res)), [e_log WARNING].
        split; [rewrite <- ?app_assoc; reflexivity | reflexivity]. }
    rewrite Hw. cbn [obj world trace].
    match goal with
    | |- context [result_to_dict res ?s1] =>
        destruct (ExecutorFacts.result_to_dict_spec res s1) as (d0 & Hd0 & _)
    end.
    rewrite Hd0.
    destruct (Converters.add_datetime_fields (Some d0) send_time_fields "_dt")
      as [[[d|]|e] d'];
      unfold reraise_as_order_error, raise, ret; try destruct e;
      cbn [obj trace]; (split; [reflexivity|]);
      exists (Ret (VRecord res)),
        (if py_eq_int rc mt5c.TRADE_RETCODE_DONE then []
         else [e_log WARNING; e_log WARNING]);
      (split; [rewrite <- ?app_assoc; reflexivity|]);
      now destruct (py_eq_int rc mt5c.TRADE_RETCODE_DONE).
  - unfold mt5_last_error, outside. cbn [obj world trace].
    destruct (t_last_error w1) as [[[code msg]|e] w2];
      unfold reraise_as_order_error, raise; try destruct e;
      cbn [obj trace]; (split; [reflexivity|]);
      eexists (Ret VNone), [_]; (split; [rewrite <- ?app_assoc; reflexivity|]);
      reflexivity.
  - unfold reraise_as_order_error, raise; destruct e; cbn [obj trace];
      (split; [reflexivity|]); eexists (Raise _), [];
      (split; reflexivity).
Qed.


Lemma send_orders c (req : dict) (s : st W executor) :
  connection (obj s) = Some c -> Connection.connected c = true ->
  match send (VDict req) s with
  | (r, s') =>
      obj s' = obj s /\
      exists reply rest,
        trace s' = trace s ++ e_call (c_order_send req) reply :: rest /\
        List.filter is_order_send rest = []
  end.
Proof.
  intros Hc Hflag. unfold send. rewrite (DecoratorsProps.guard_connected _ _ c) by assumption.
  apply send_body_orders.
Qed.

(** X15: on a connected executor, [check] of a request whose volume is
    below the minimum or above the maximum volume of the symbol's
    description raises [MT5ValidationError] after the call of
    [symbol_info] alone: [order_check] is not called. *)
Theorem check_refuses_out_of_range (req : dict) name volume v info w1 c
    (s : st W executor) :
  connection (obj s) = Some c -> Connection.connected c = true ->
  req !! "symbol" = Some (VStr name) ->
  req !! "volume" = Some volume -> as_number volume = Some v ->
  t_symbol_info name (world s) = (Ret (Some info), w1) ->
  (v < volume_min info \/ volume_max info < v)%Qc ->
  check (VDict req) s
  = (Raise MT5ValidationError,
     St (obj s) w1
        (trace s ++ [e_call (c_symbol_info name) (Ret (to_value (Some info)))])).
Proof.
  intros Hc Hflag Hsym Hvol Hnum Hinfo Hrange.
  unfold check. rewrite (DecoratorsProps.guard_connected _ _ c) by assumption.
  unfold check_body, _validate_volume, try_except, bind, mt5_symbol_info,
    outside.
  rewrite Hsym, Hvol, Hinfo, Hnum. cbn [obj world trace reply_of].
  unfold check_volume.
  destruct Hrange as [Hlow | Hhigh].
  - rewrite bool_decide_eq_true_2 by exact Hlow. reflexivity.
  - destruct (bool_decide (v < volume_min info)%Qc); [reflexivity|].
    rewrite bool_decide_eq_true_2 by exact Hhigh. reflexivity.
Qed.

End Facts.

Section OnPosition.
Context {W : Type} `{Terminal W} `{Portfolio W}.
Import OnPosition.

(** X18: on a connected executor, [close_position] sends one order
    exactly when the position is found and the terminal gives a quote and
    answers [symbol_info]: a deal on the symbol of the position, on the
    ticket, for the given volume or else the volume of the position, in
    the opposite direction (a sell at the bid for a buy position, a buy at
    the ask for any other), with the given deviation, the executor's magic
    and the filling mode of the symbol.  A position that is not found, or
    no quote, gives [MT5OrderError] and no order; an exception of a query
    passes as it is, with no order. *)
Theorem close_position_order ticket volume deviation c (s : st W executor) :
  connection (obj s) = Some c -> Connection.connected c = true ->
  match close_position ticket volume deviation s with
  | (r, s') =>
      obj s' = obj s /\
      exists new, trace s' = trace s ++ new /\
      match t_positions_get ticket (world s) with
      | (Ret (Some (p :: _)), w1) =>
          match t_symbol_info_tick (pos_symbol p) w1 with
          | (Ret (Some t), w2) =>
              match t_symbol_info (pos_symbol p) w2 with
              | (Ret info, _) =>
                  exists reply,
                    List.filter is_order_send new =
                      [e_call
                         (c_order_send
                            (close_request ticket (pos_symbol p)
                               (if_not_None volume (VFloat (pos_volume p)))
                               (fst (closing (pos_type p) t))
                               (snd (closing (pos_type p) t))
                               deviation (default_magic (obj s))
                               (BuilderSpec.filling_of info)))
                         reply]
              | (Raise e, _) =>
                  r = Raise e /\ List.filter is_order_send new = []
              end
          | (Ret None, _) =>
              r = Raise (MT5OrderError None) /\
              List.filter is_order_send new = []
          | (Raise e, _) => r = Raise e /\ List.filter is_order_send new = []
          end
      | (Ret _, _) => r = Raise (MT5OrderError None) /\ new = []
      | (Raise e, _) => r = Raise e /\ new = []
      end
  end.
Proof.
  intros Hc Hflag. unfold close_position.
  rewrite (DecoratorsProps.guard_connected _ _ c) by assumption.
  destruct s as [o w t]. cbn [obj world trace] in *.
  unfold close_position_body, bind, mt5_positions_get, mt5_symbol_info_tick,
    _get_filling_mode, mt5_symbol_info, outside, this, ret, raise, bind.
  cbn [obj world trace].
  destruct (t_positions_get ticket w) as [[[[|p rest]|]|e] w1];
    cbn [obj world trace];
    try (split; [reflexivity|]; exists []; rewrite app_nil_r; now auto).
  destruct (t_symbol_info_tick (pos_symbol p) w1) as [[[q|]|e] w2];
    cbn [obj world trace];
    try (split; [reflexivity|]; eexists; split; [reflexivity|]; now auto).
  destruct (t_symbol_info (pos_symbol p) w2) as [[info|e] w3];
    cbn [obj world trace];
    try (split; [reflexivity|]; eexists;
         split; [rewrite <- app_assoc; reflexivity|]; now auto).
  assert (Hsend : forall fm tr,
            match send (VDict (close_request ticket (pos_symbol p)
                                 (if_not_None volume (VFloat (pos_volume p)))
                                 (fst (closing (pos_type p) q))
                                 (snd (closing (pos_type p) q))
                                 deviation (default_magic o) fm))
                    (St o w3 tr) with
            | (r, s') =>
                obj s' = o /\
                exists reply rest,
                  trace s' = tr ++ e_call (c_order_send
                     (close_request ticket (pos_symbol p)
                                 (if_not_None volume (VFloat (pos_volume p)))
                                 (fst (closing (pos_type p) q))
                                 (snd (closing (pos_type p) q))
                                 deviation (default_magic o) fm)) reply :: rest /\
                  List.filter is_order_send rest = []
            end).
  { intros fm tr. apply (send_orders c); assumption. }
  unfold BuilderSpec.filling_of.
  destruct info as [info|]; cbn [obj world trace];
    [destruct (negb (Z.land (filling_mode info) 1 =? 0)%Z);
       [|destruct (negb (Z.land (filling_mode info) 2 =? 0)%Z)]|];
    cbn [obj world trace];
    match goal with
    | |- context [send (VDict (close_request _ _ _ _ _ _ _ ?fm)) (St o w3 ?tr)] =>
        specialize (Hsend fm tr);
        destruct (send (VDict (close_request ticket (pos_symbol p)
                                 (if_not_None volume (VFloat (pos_volume p)))
                                 (fst (closing (pos_type p) q))
                                 (snd (closing (pos_type p) q))
                                 deviation (default_magic o) fm)) (St o w3 tr))
          as [r s']
    end;
    destruct Hsend as (Hobj & reply & more & Htr & Hno);
    (split; [exact Hobj|]); eexists;
    (split; [rewrite Htr, <- !app_assoc; reflexivity|]);
    exists reply; cbn [app List.filter is_order_send]; now rewrite Hno.
Qed.


(** X17: on a connected executor, [modify] sends one order exactly when
    the position is found, first of all: [TRADE_ACTION_SLTP] on the ticket
    and the symbol of the position, with the given stop loss and take
    profit, each replaced by the value the position has when [None] is
    given (and only then: 0.0 is passed on).  A position that is not found
    gives [MT5OrderError], an exception of the query passes as it is, and
    no call is recorded in either case. *)
Theorem modify_order ticket sl tp c (s : st W executor) :
  connection (obj s) = Some c -> Connection.connected c = true ->
  match modify ticket sl tp s with
  | (r, s') =>
      obj s' = obj s /\
      exists new, trace s' = trace s ++ new /\
      match t_positions_get ticket (world s) with
      | (Ret (Some (p :: _)), _) =>
          exists reply rest,
            new = e_call
                    (c_order_send
                       (modify_request ticket (pos_symbol p)
                          (if_not_None sl (VFloat (pos_sl p)))
                          (if_not_None tp (VFloat (pos_tp p)))))
                    reply :: rest /\
            List.filter is_order_send rest = []
      | (Ret _, _) => r = Raise (MT5OrderError None) /\ new = []
      | (Raise e, _) => r = Raise e /\ new = []
      end
  end.
Proof.
  intros Hc Hflag. unfold modify.
  rewrite (DecoratorsProps.guard_connected _ _ c) by assumption.
  destruct s as [o w t]. cbn [obj world trace] in *.
  unfold modify_body, bind, mt5_positions_get, raise.
  cbn [obj world trace].
  destruct (t_positions_get ticket w) as [[[[|p rest]|]|e] w1];
    cbn [obj world trace];
    try (split; [reflexivity|]; exists []; rewrite app_nil_r; now auto).
  pose proof (send_orders c
                (modify_request ticket (pos_symbol p)
                   (if_not_None sl (VFloat (pos_sl p)))
                   (if_not_None tp (VFloat (pos_tp p))))
                (St o w1 t) Hc Hflag) as Hsend.
  destruct (send _ _) as [r s'].
  destruct Hsend as (Hobj & reply & more & Htr & Hno).
  split; [exact Hobj|]. eexists. split; [exact Htr|]. now exists reply, more.
Qed.

End OnPosition.

(** *** The volume grid *)

Section Grid.
Context {W : Type} `{Terminal W}.


End Grid.

Lemma check_refuses_out_of_range_witness :
  check (W := Sim.sim) (VDict small_request) (St trading Sim.running [])
  = (Raise MT5ValidationError,
     St trading Sim.running
        [e_call (c_symbol_info "EURUSD")
           (reply_of (Sim.symbol_info_reply Sim.running))]).
Proof.
  apply (check_refuses_out_of_range (W := Sim.sim) small_request "EURUSD"
           (VFloat (Q2Qc (1 # 1000))) (Q2Qc (1 # 1000))
           {| filling_mode := 2; volume_min := Q2Qc (1 # 100);
              volume_max := QcZ 100; volume_step := Q2Qc (1 # 100) |}
           Sim.running Sim.up (St trading Sim.running [])).
  - reflexivity.
  - reflexivity.
  - reflexivity.
  - reflexivity.
  - reflexivity.
  - reflexivity.
  - left. reflexivity.
Defined.


Lemma modify_order_witness :
  match OnPosition.modify (W := Sim.sim) 7 (VFloat (Q2Qc (108 # 100))) VNone
          (St trading Sim.running []) with
  | (r, s') =>
      obj s' = trading /\
      exists new, trace s' = [] ++ new /\
        exists reply rest,
          new = e_call
                  (c_order_send
                     (OnPosition.modify_request 7 "EURUSD"
                        (VFloat (Q2Qc (108 # 100)))
                        (VFloat (Q2Qc (111 # 100)))))
                  reply :: rest /\
          List.filter is_order_send rest = []
  end.
Proof.
  exact (modify_order (W := Sim.sim) 7 (VFloat (Q2Qc (108 # 100))) VNone
           Sim.up (St trading Sim.running []) eq_refl eq_refl).
Defined.

Lemma close_position_order_witness :
  match OnPosition.close_position (W := Sim.sim) 7 VNone (VInt 20)
          (St trading Sim.running []) with
  | (r, s') =>
      obj s' = trading /\
      exists new, trace s' = [] ++ new /\
        exists reply,
          List.filter is_order_send new =
            [e_call
               (c_order_send
                  (OnPosition.close_request 7 "EURUSD"
                     (VFloat (Q2Qc (1 # 10))) mt5c.ORDER_TYPE_SELL
                     (Q2Qc (11000 # 10000)) (VInt 20) 0
                     mt5c.ORDER_FILLING_FOK))
               reply]
  end.
Proof.
  exact (close_position_order (W := Sim.sim) 7 VNone (VInt 20)
           Sim.up (St trading Sim.running []) eq_refl eq_refl).
Defined.

End ExecutorProps.

(** ** trade/calculator.py, the other properties *)

Module CalculatorProps.
Import Calculator CalculatorSpec FloatFacts.

(** The clamp of [calc_position_size]. *)
Lemma adjust_volume_bounds volume info :
  (volume_min info <= volume_max info)%Qc ->
  (volume_min info <= adjust_volume volume info)%Qc /\
  (adjust_volume volume info <= volume_max info)%Qc.
Proof.
  intros Hle. unfold adjust_volume. split.
  - apply Qc_max_l.
  - apply Qc_max_lub; [exact Hle | apply Qc_min_r].
Qed.


Section Facts.
Context {W : Type} `{Terminal W}.

(** X19: [calc_risk_reward] never raises.  When it returns a result, it
    has made exactly two calls of [order_calc_profit], for the stop loss
    and then for the take profit, with the same order type, volume and
    entry price; the result holds the two numbers returned, their absolute
    values as risk and reward, a risk greater than 0, and a ratio that is
    not negative and gives back the reward when multiplied by the risk. *)
Theorem calc_risk_reward_result symbol volume entry_price sl_price tp_price
    action (s : st W calculator) :
  match calc_risk_reward symbol volume entry_price sl_price tp_price action s with
  | (Ret (Some rr), s') =>
      obj s' = obj s /\
      risk_amount rr = Qc_abs (sl_loss rr) /\
      reward_amount rr = Qc_abs (tp_profit rr) /\
      (0 < risk_amount rr)%Qc /\ (0 <= reward_amount rr)%Qc /\
      (0 <= risk_reward_ratio rr)%Qc /\
      (risk_reward_ratio rr * risk_amount rr)%Qc = reward_amount rr /\
      exists new order_type,
        trace s' = trace s ++ new /\
        List.filter is_calc new =
          [e_call (c_order_calc_profit order_type symbol volume entry_price
                     sl_price) (Ret (VFloat (sl_loss rr)));
           e_call (c_order_calc_profit order_type symbol volume entry_price
                     tp_price) (Ret (VFloat (tp_profit rr)))]
  | (Ret None, s') => obj s' = obj s
  | (Raise e, s') => False
  end.
Proof.
  unfold calc_risk_reward, bind.
  pose proof (CalculatorFacts.calc_profit_cases symbol volume entry_price
                sl_price action s) as H1.
  destruct (calc_profit symbol volume entry_price sl_price action s)
    as [r1 s1].
  destruct H1 as (Hobj1 & new1 & Htr1 & [(p1 & ty1 & -> & Hty1 & Hf1)
                                        | [(-> & _) | (-> & _)]]);
    [|exact Hobj1 | exact Hobj1].
  pose proof (CalculatorFacts.calc_profit_cases symbol volume entry_price
                tp_price action s1) as H2.
  destruct (calc_profit symbol volume entry_price tp_price action s1)
    as [r2 s2].
  destruct H2 as (Hobj2 & new2 & Htr2 & [(p2 & ty2 & -> & Hty2 & Hf2)
                                        | [(-> & _) | (-> & _)]]);
    [|congruence | congruence].
  destruct (bool_decide (Qc_abs p1 = 0%Qc)) eqn:Hz.
  { unfold log, emit, modify, ret. cbn [obj]. congruence. }
  apply bool_decide_eq_false in Hz. unfold ret.
  cbn [sl_loss tp_profit risk_reward_ratio risk_amount reward_amount].
  pose proof (Qc_abs_pos p1 Hz) as Hpos.
  split; [congruence|]. split; [reflexivity|]. split; [reflexivity|].
  split; [exact Hpos|]. split; [apply Qc_abs_nonneg|].
  split; [apply Qcdiv_nonneg; [apply Qc_abs_nonneg | exact Hpos]|].
  split.
  - rewrite Qcmult_comm. now apply Qcmult_div_r.
  - exists (new1 ++ new2), ty1.
    split; [rewrite Htr2, Htr1; now rewrite app_assoc|].
    rewrite List.filter_app, Hf1, Hf2.
    assert (ty2 = ty1) as -> by congruence. reflexivity.
Qed.

(** X20: without a price, a connected [calc_margin] prices the order at
    the ask when the action, as it is written, is ['buy'], ['buy_limit'] or
    ['buy_stop'], and at the bid otherwise, while the order type is looked
    up in lower case: ['BUY'] is a buy priced at the bid. *)
Theorem calc_margin_quote_side symbol volume action order_type t w1
    (s : st W calculator) :
  Connection.connected (connection (obj s)) = true ->
  _get_order_type action = Some order_type ->
  t_symbol_info_tick symbol (world s) = (Ret (Some t), w1) ->
  exists new reply,
    trace (snd (calc_margin symbol volume action None s)) = trace s ++ new /\
    List.filter is_calc new =
      [e_call (c_order_calc_margin order_type symbol volume
                 (if bool_decide (action ∈ ["buy"; "buy_limit"; "buy_stop"])
                  then ask t else bid t))
         reply].
Proof.
  intros Hup Hty Htick. destruct s as [o w tr]. cbn [obj world trace] in *.
  unfold calc_margin, market_price, margin_call, try_except, bind, this,
    conn_is_connected, on_object, Connection.is_connected, lift_outcome,
    mt5_order_calc_margin, mt5_symbol_info_tick, mt5_last_error, outside,
    log, emit, modify, ret, bind, this, ret.
  cbn [obj world trace fst snd]. rewrite Hup. cbn [negb obj world trace].
  rewrite Hty. cbn [obj world trace]. rewrite Htick. cbn [obj world trace].
  destruct (bool_decide (action ∈ ["buy"; "buy_limit"; "buy_stop"]));
    cbn [obj world trace];
    match goal with
    | |- context [t_order_calc_margin ?a ?b ?c ?d ?w] =>
        destruct (t_order_calc_margin a b c d w) as [[[m|]|e] w2]
    end; cbn [obj world trace snd];
    try match goal with
    | |- context [t_last_error ?w] =>
        destruct (t_last_error w) as [[[code msg]|e'] w3];
        cbn [obj world trace snd]
    end;
    eexists; eexists;
    (split; [rewrite <- ?app_assoc; reflexivity|]); reflexivity.
Qed.

(** X21: a position size [calc_position_size] returns after the terminal
    described the symbol, with a minimum volume that does not exceed the
    maximum, lies between the two, each rounded to two decimals. *)
Theorem position_size_clamped symbol risk_amount entry_price sl_price action
    (s : st W calculator) :
  match calc_position_size symbol risk_amount entry_price sl_price action s with
  | (Ret (Some v), s') =>
      exists new,
        trace s' = trace s ++ new /\
        forall info,
          e_call (c_symbol_info symbol) (Ret (to_value (Some info))) ∈ new ->
          (volume_min info <= volume_max info)%Qc ->
          (round2 (volume_min info) <= v)%Qc /\
          (v <= round2 (volume_max info))%Qc
  | _ => True
  end.
Proof.
  destruct s as [o w t].
  unfold calc_position_size, calc_profit, try_except, bind, this,
    conn_is_connected, on_object, Connection.is_connected, lift_outcome,
    mt5_order_calc_profit, mt5_symbol_info, mt5_last_error, outside,
    log, emit, modify, ret, bind, this.
  cbn [obj world trace fst snd negb].
  destruct (Connection.connected (connection o)) eqn:Hup;
    cbn [obj world trace fst snd negb]; [|exact I].
  destruct (profit_order_type action) as [ty|];
    cbn [obj world trace fst snd negb]; [|exact I].
  destruct (t_order_calc_profit ty symbol (QcZ 1) entry_price sl_price w)
    as [[[loss|]|e] w1]; cbn [obj world trace fst snd negb].
  - destruct (bool_decide (Qc_abs loss = 0%Qc)) eqn:Hz;
      cbn [obj world trace fst snd negb]; [exact I|].
    destruct (t_symbol_info symbol w1) as [[[info|]|e] w2];
      cbn [obj world trace fst snd negb]; [| |exact I].
    + eexists. split; [rewrite <- app_assoc; reflexivity|].
      intros info' Hin Hle.
      apply elem_of_cons in Hin as [[=]|Hin].
      apply list_elem_of_singleton in Hin.
      assert (info' = info) as ->.
      { destruct info', info. cbn in Hin. injection Hin as -> -> -> ->.
        reflexivity. }
      destruct (adjust_volume_bounds (risk_amount / Qc_abs loss) info Hle)
        as [Hlo Hhi].
      split; now apply round2_mono.
    + eexists. split; [rewrite <- app_assoc; reflexivity|].
      intros info' Hin _.
      apply elem_of_cons in Hin as [[=]|Hin].
      apply list_elem_of_singleton in Hin.
      destruct info'. discriminate.
  - destruct (t_last_error w1) as [[[code msg]|e] w2];
      cbn [obj world trace fst snd negb]; exact I.
  - exact I.
Qed.

End Facts.

Lemma calc_margin_quote_side_witness :
  exists new reply,
    trace (snd (calc_margin (W := Sim.sim) "EURUSD" (QcZ 1) "BUY" None
                  (St {| connection := Sim.up |} Sim.running [])))
    = [] ++ new /\
    List.filter is_calc new =
      [e_call (c_order_calc_margin mt5c.ORDER_TYPE_BUY "EURUSD" (QcZ 1)
                 (Q2Qc (11000 # 10000)))
         reply].
Proof.
  exact (calc_margin_quote_side (W := Sim.sim) "EURUSD" (QcZ 1) "BUY"
           mt5c.ORDER_TYPE_BUY
           {| ask := Q2Qc (11002 # 10000); bid := Q2Qc (11000 # 10000) |}
           Sim.running (St {| connection := Sim.up |} Sim.running [])
           eq_refl eq_refl eq_refl).
Defined.

End CalculatorProps.

(** ** trade/request_builder.py, the parameters *)

Module BuilderProps.
Import Builder BuilderSpec ParametersSpec BuilderFacts.

Section Facts.
Context {W : Type} `{Terminal W}.

(** One method, however it ends. *)
Lemma invoke_frame self m (s : st W store) :
  let b := cells (obj s) self in
  let b' := cells (obj (snd (invoke self m s))) self in
  _symbol b' = _symbol b /\ _executor b' = _executor b /\
  _default_magic b' = _default_magic b /\
  (sets_sl m = false -> _sl b' = _sl b) /\
  (sets_tp m = false -> _tp b' = _tp b) /\
  (sets_deviation m = false -> _deviation b' = _deviation b) /\
  (sets_magic m = false -> _magic b' = _magic b) /\
  (sets_comment m = false -> _comment b' = _comment b) /\
  (sets_position m = false -> _position b' = _position b) /\
  (is_order_type m = false ->
   _action b' = _action b /\ _order_type b' = _order_type b).
Proof.
  destruct s as [h w t]. cbn zeta.
  destruct m; cbn [invoke];
    unfold market_buy, market_sell, limit_buy, limit_sell, stop_buy, stop_sell,
      pending, with_sl, with_tp, with_sl_tp, with_deviation, with_magic,
      with_comment, _get_ask_price, _get_bid_price, deref, assign, set_this,
      mt5_symbol_info_tick, outside, bind, this, modify, ret, raise;
    cbn [obj world trace].
  all: rewrite ?cells_update_same;
       cbn [_symbol set_volume set_order_type set_action set_price].
  all: try match goal with
       | |- context [t_symbol_info_tick ?a ?w] =>
           destruct (t_symbol_info_tick a w) as [[[quote|]|e] w1];
           cbn [obj world trace snd]
       end.
  all: cbn [obj world trace snd]; rewrite ?cells_update_same.
  all: repeat split; try reflexivity; try discriminate.
Qed.

Lemma chain_frame self ms : forall s : st W store,
  let b := cells (obj s) self in
  let b' := cells (obj (snd (chain self ms s))) self in
  _symbol b' = _symbol b /\ _executor b' = _executor b /\
  _default_magic b' = _default_magic b /\
  (forallb (fun m => negb (sets_sl m)) ms = true -> _sl b' = _sl b) /\
  (forallb (fun m => negb (sets_tp m)) ms = true -> _tp b' = _tp b) /\
  (forallb (fun m => negb (sets_deviation m)) ms = true ->
   _deviation b' = _deviation b) /\
  (forallb (fun m => negb (sets_magic m)) ms = true -> _magic b' = _magic b) /\
  (forallb (fun m => negb (sets_comment m)) ms = true ->
   _comment b' = _comment b) /\
  (forallb (fun m => negb (sets_position m)) ms = true ->
   _position b' = _position b) /\
  (forallb (fun m => negb (is_order_type m)) ms = true ->
   _action b' = _action b /\ _order_type b' = _order_type b).
Proof.
  induction ms as [|m rest IH]; intros s; cbn zeta.
  - cbn. repeat split; reflexivity.
  - cbn [chain forallb]. unfold bind.
    pose proof (invoke_frame self m s) as Hm. cbn zeta in Hm.
    pose proof (invoke_spec self m s) as Hs.
    destruct (invoke self m s) as [[r|e] s1]; cbn [snd] in *.
    + assert (r = self) as ->.
      { destruct Hs as (_ & _ & Hs). destruct (is_market m).
        - destruct Hs as [Hs _].
          destruct (t_symbol_info_tick _ _) as [[[quote|]|e] w1];
            destruct Hs as [Hr _]; congruence.
        - destruct Hs as [Hr _]. congruence. }
      specialize (IH s1). cbn zeta in IH.
      destruct Hm as (H1 & H2 & H3 & H4 & H5 & H6 & H7 & H8 & H9 & H10).
      destruct IH as (I1 & I2 & I3 & I4 & I5 & I6 & I7 & I8 & I9 & I10).
      split; [congruence|]. split; [congruence|]. split; [congruence|].
      repeat apply conj.
      all: intros Hall; apply andb_true_iff in Hall as [Hm Hrest];
           apply negb_true_iff in Hm.
      * rewrite <- H4 by exact Hm. auto.
      * rewrite <- H5 by exact Hm. auto.
      * rewrite <- H6 by exact Hm. auto.
      * rewrite <- H7 by exact Hm. auto.
      * rewrite <- H8 by exact Hm. auto.
      * rewrite <- H9 by exact Hm. auto.
      * destruct (H10 Hm) as [<- <-]. auto.
    + destruct Hm as (H1 & H2 & H3 & H4 & H5 & H6 & H7 & H8 & H9 & H10).
      split; [assumption|]. split; [assumption|]. split; [assumption|].
      repeat apply conj.
      all: intros Hall; apply andb_true_iff in Hall as [Hm _];
           apply negb_true_iff in Hm; auto.
Qed.


(** X24: the position ticket is assigned by [market_sell] and by nothing
    else: after any chain of other methods, however it ends, the builder
    holds the ticket it held before, and [build] puts it in the request
    when it is positive, whatever order the request now describes. *)
Theorem position_outlives_order self ms (s : st W store) :
  forallb (fun m => negb (sets_position m)) ms = true ->
  match chain self ms s with
  | (_, s1) =>
      _position (cells (obj s1) self) = _position (cells (obj s) self) /\
      match build self s1 with
      | (Ret request, _) =>
          request !! "position" =
            if (0 <? _position (cells (obj s) self))%Z
            then Some (VInt (_position (cells (obj s) self)))
            else None
      | (Raise _, _) => True
      end
  end.
Proof.
  intros Hms. pose proof (chain_frame self ms s) as Hf. cbn zeta in Hf.
  destruct (chain self ms s) as [r s1]. cbn [snd] in Hf.
  destruct Hf as (_ & _ & _ & _ & _ & _ & _ & _ & Hpos & _).
  specialize (Hpos Hms). split; [exact Hpos|].
  pose proof (build_spec self s1) as Hb. cbn zeta in Hb.
  destruct (build self s1) as [[request|e] s2]; [|exact I].
  destruct Hb as [_ Hb].
  destruct (_action (cells (obj s1) self)) as [action|];
    [|destruct Hb as [[=] _]].
  destruct (_order_type (cells (obj s1) self)) as [order_type|];
    [|destruct Hb as [[=] _]].
  destruct (t_symbol_info _ _) as [[info|e] w1]; [|destruct Hb as [[=] _]].
  destruct Hb as (_ & _ & [= ->]). rewrite <- Hpos.
  apply built_request.
Qed.

(** X22: [OrderRequestBuilder(...)] makes a new object, without a call to
    the terminal and without touching the builders that exist; and as long
    as only [with_*] methods are called on it, which all return it and call
    nothing, [build] raises [ValueError] before any call. *)
Theorem fresh_builder symbol executor default_magic ms (s : st W store) :
  let self := next_ref (obj s) in
  match __init__ symbol executor default_magic s with
  | (r, s0) =>
      r = Ret self /\ next_ref (obj s0) = S self /\
      (forall r', r' <> self -> cells (obj s0) r' = cells (obj s) r') /\
      world s0 = world s /\ trace s0 = trace s /\
      (forallb (fun m => negb (is_order_type m)) ms = true ->
       match chain self ms s0 with
       | (r1, s1) =>
           r1 = Ret self /\ world s1 = world s /\ trace s1 = trace s /\
           build self s1 = (Raise ValueError, s1)
       end)
  end.
Proof.
  destruct s as [h w t]. cbn zeta.
  unfold __init__, bind, this, set_this, modify, ret. cbn [obj world trace next_ref].
  split; [reflexivity|]. split; [reflexivity|]. split.
  { intros r' Hr'. cbn. now rewrite bool_decide_eq_false_2. }
  split; [reflexivity|]. split; [reflexivity|].
  intros Hms.
  match goal with
  | |- match chain _ _ ?st0 with _ => _ end => set (s0 := st0)
  end.
  assert (Hgen : forall ms (s1 : st W store),
            forallb (fun m => negb (is_order_type m)) ms = true ->
            match chain (next_ref h) ms s1 with
            | (r1, s2) =>
                r1 = Ret (next_ref h) /\ world s2 = world s1 /\
                trace s2 = trace s1
            end).
  { clear. induction ms as [|m rest IH]; intros s1 Hall.
    - cbn. auto.
    - cbn [chain forallb] in *. apply andb_true_iff in Hall as [Hm Hrest].
      apply negb_true_iff in Hm. unfold bind.
      pose proof (invoke_spec (next_ref h) m s1) as Hs. cbn zeta in Hs.
      destruct (invoke (next_ref h) m s1) as [r s2].
      destruct Hs as (_ & _ & Hs).
      assert (Hmk : is_market m = false) by (destruct m; try discriminate; reflexivity).
      rewrite Hmk in Hs. destruct Hs as (-> & Hw & Ht & _).
      specialize (IH s2 Hrest). destruct (chain (next_ref h) rest s2) as [r1 s3].
      destruct IH as (-> & Hw3 & Ht3). repeat split; congruence. }
  specialize (Hgen ms s0 Hms).
  pose proof (chain_frame (next_ref h) ms s0) as Hf. cbn zeta in Hf.
  destruct (chain (next_ref h) ms s0) as [r1 s1]. cbn [snd] in Hf.
  destruct Hgen as (-> & Hw & Ht).
  split; [reflexivity|]. split; [exact Hw|]. split; [exact Ht|].
  destruct Hf as (_ & _ & _ & _ & _ & _ & _ & _ & _ & Hty).
  destruct (Hty Hms) as [Hact _].
  pose proof (build_spec (next_ref h) s1) as Hb. cbn zeta in Hb.
  destruct (build (next_ref h) s1) as [r2 s2]. destruct Hb as [Hobj Hb].
  rewrite Hact in Hb. subst s0. cbn [obj cells] in Hb.
  rewrite bool_decide_eq_true_2 in Hb by reflexivity. cbn [_action] in Hb.
  destruct Hb as (-> & Hw2 & Ht2). f_equal.
  destruct s1, s2. cbn in *. congruence.
Qed.

(** X23: the request [build] returns for a new builder, after any chain
    of methods, carries the symbol the builder was made for, and the
    default of every optional parameter no method of the chain assigns: a
    stop loss and a take profit of 0.0, a deviation of 20, the default
    magic, an empty comment, and no position ticket. *)
Theorem unset_parameters_default symbol executor default_magic ms
    (s : st W store) :
  match __init__ symbol executor default_magic s with
  | (Ret self, s0) =>
      match chain self ms s0 with
      | (_, s1) =>
          match build self s1 with
          | (Ret request, _) =>
              request !! "symbol" = Some (VStr symbol) /\
              (forallb (fun m => negb (sets_sl m)) ms = true ->
               request !! "sl" = Some (VFloat 0)) /\
              (forallb (fun m => negb (sets_tp m)) ms = true ->
               request !! "tp" = Some (VFloat 0)) /\
              (forallb (fun m => negb (sets_deviation m)) ms = true ->
               request !! "deviation" = Some (VInt 20)) /\
              (forallb (fun m => negb (sets_magic m)) ms = true ->
               request !! "magic" = Some default_magic) /\
              (forallb (fun m => negb (sets_comment m)) ms = true ->
               request !! "comment" = Some (VStr "")) /\
              (forallb (fun m => negb (sets_position m)) ms = true ->
               request !! "position" = None)
          | (Raise _, _) => True
          end
      end
  | (Raise _, _) => False
  end.
Proof.
  destruct s as [h w t].
  unfold __init__, bind, this, set_this, modify, ret.
  cbn [obj world trace next_ref].
  match goal with
  | |- match chain _ _ ?st0 with _ => _ end => set (s0 := st0)
  end.
  pose proof (chain_frame (next_ref h) ms s0) as Hf. cbn zeta in Hf.
  destruct (chain (next_ref h) ms s0) as [r1 s1]. cbn [snd] in Hf.
  subst s0. cbn [obj cells] in Hf.
  rewrite bool_decide_eq_true_2 in Hf by reflexivity.
  cbn [_symbol _sl _tp _deviation _magic _comment _position] in Hf.
  destruct Hf as (Hsym & _ & _ & Hsl & Htp & Hdev & Hmag & Hcom & Hpos & _).
  pose proof (build_spec (next_ref h) s1) as Hb. cbn zeta in Hb.
  destruct (build (next_ref h) s1) as [[request|e] s2]; [|exact I].
  destruct Hb as [_ Hb].
  destruct (_action (cells (obj s1) (next_ref h))) as [action|];
    [|destruct Hb as [[=] _]].
  destruct (_order_type (cells (obj s1) (next_ref h))) as [order_type|];
    [|destruct Hb as [[=] _]].
  destruct (t_symbol_info _ _) as [[info|e] w1]; [|destruct Hb as [[=] _]].
  destruct Hb as (_ & _ & [= ->]).
  pose proof (built_request (cells (obj s1) (next_ref h)) action order_type
                (filling_of info)) as Hreq. cbn zeta in Hreq.
  destruct Hreq as (_ & _ & Rsym & _ & _ & _ & Rsl & Rtp & Rdev & Rmag & Rcom
                    & _ & _ & Rpos).
  rewrite Rsym, Rsl, Rtp, Rdev, Rmag, Rcom, Rpos, Hsym.
  split; [reflexivity|].
  repeat apply conj; intros Hall.
  - now rewrite Hsl.
  - now rewrite Htp.
  - now rewrite Hdev.
  - now rewrite Hmag.
  - now rewrite Hcom.
  - now rewrite Hpos.
Qed.


End Facts.

Lemma position_outlives_order_witness :
  match chain (W := Sim.sim) 0%nat
          [m_limit_buy (VFloat (Q2Qc (2 # 10))) (VFloat (Q2Qc (105 # 100)))]
          sold with
  | (_, s1) =>
      _position (cells (obj s1) 0%nat) = 5 /\
      match build 0%nat s1 with
      | (Ret request, _) => request !! "position" = Some (VInt 5)
      | (Raise _, _) => True
      end
  end.
Proof.
  exact (position_outlives_order (W := Sim.sim) 0%nat
           [m_limit_buy (VFloat (Q2Qc (2 # 10))) (VFloat (Q2Qc (105 # 100)))]
           sold eq_refl).
Defined.

(** The run of the witness: a pending order that carries the ticket of the
    market order before it. *)
Example pending_order_with_ticket :
  match chain (W := Sim.sim) 0%nat
          [m_limit_buy (VFloat (Q2Qc (2 # 10))) (VFloat (Q2Qc (105 # 100)))]
          sold with
  | (_, s1) =>
      match build 0%nat s1 with
      | (Ret request, _) =>
          request !! "action" = Some (VInt mt5c.TRADE_ACTION_PENDING) /\
          request !! "type" = Some (VInt mt5c.ORDER_TYPE_BUY_LIMIT) /\
          request !! "position" = Some (VInt 5)
      | (Raise _, _) => False
      end
  end.
Proof. vm_compute. repeat split; reflexivity. Qed.


End BuilderProps.

(** ** manager/account_manager.py, the other methods *)

Module ManagerProps.
Import Manager ManagerFacts ClientsSpec.

Lemma item_setitem_eq name c l :
  name ∈ l.*1 -> item name (setitem name c l) = Some c.
Proof.
  induction l as [|[k v] l IH]; simpl.
  - intros Hin. now apply elem_of_nil in Hin.
  - intros Hin. case_bool_decide as Hk; simpl.
    + now rewrite bool_decide_eq_true_2.
    + rewrite bool_decide_eq_false_2 by exact Hk. apply IH.
      apply elem_of_cons in Hin as [Heq|Hin]; [congruence | exact Hin].
Qed.

Lemma item_elem name c l : item name l = Some c -> (name, c) ∈ l.
Proof.
  induction l as [|[k v] l IH]; simpl; [discriminate|].
  case_bool_decide as Hk.
  - intros [= ->]. subst k. now left.
  - intros Hc. right. now apply IH.
Qed.

Lemma elem_item name c l : NoDup l.*1 -> (name, c) ∈ l -> item name l = Some c.
Proof.
  induction l as [|[k v] l IH]; simpl.
  - intros _ Hin. now apply elem_of_nil in Hin.
  - intros Hnd Hin. pose proof (NoDup_cons_1_1 _ _ Hnd) as Hk.
    apply NoDup_cons_1_2 in Hnd.
    apply elem_of_cons in Hin as [[= -> ->]|Hin].
    + now rewrite bool_decide_eq_true_2.
    + rewrite bool_decide_eq_false_2; [now apply IH|].
      intros ->. apply Hk. apply list_elem_of_fmap. now exists (name, c).
Qed.

Section Facts.
Context {W : Type} `{Terminal W}.

(** *** Lookups *)

Lemma get_account_run name (s : st W manager) :
  get_account name s =
    (Ret (match match name with
                | None => current_account (obj s)
                | Some n => Some n
                end with
          | Some n => item n (accounts (obj s))
          | None => None
          end),
     St (obj s) (world s) (trace s ++ [e_acquire; e_release])).
Proof.
  destruct s as [m w t].
  unfold get_account, with_lock, bind, this, emit, modify, ret.
  cbn [obj world trace]. now rewrite <- app_assoc.
Qed.

Lemma list_accounts_run (s : st W manager) :
  list_accounts s =
    (Ret (keys (obj s)),
     St (obj s) (world s) (trace s ++ [e_acquire; e_release])).
Proof.
  destruct s as [m w t].
  unfold list_accounts, with_lock, bind, this, emit, modify, ret.
  cbn [obj world trace]. now rewrite <- app_assoc.
Qed.

Lemma emt5_initialize_connected path login password server timeout portable
    (s : st W EMT5.emt5) :
  match EMT5.initialize path login password server timeout portable s with
  | (Ret true, s') => client_connected (obj s') = true
  | _ => True
  end.
Proof.
  unfold EMT5.initialize, EMT5.on_connection, zoom, Connection.initialize.
  destruct (ConnectionFacts.attempts_spec path login password server timeout
              portable 3 (QcZ 2) (Z.to_nat 3) 0 None
              (St (EMT5._connection (obj s)) (world s) (trace s)))
    as (new & ok & Hspec); [reflexivity | lia |].
  destruct (Connection.attempts _ _ _ _ _ _ _ _ _ _ _ _) as [r s'].
  destruct Hspec as (_ & _ & _ & Hres).
  destruct ok.
  - destruct Hres as [-> Hobj]. unfold client_connected.
    cbn [obj EMT5.put_connection EMT5._connection]. now rewrite Hobj.
  - now rewrite Hres.
Qed.

Lemma add_account_success name login password server path auto_connect
    (s : st W manager) :
  match add_account name login password server path auto_connect s with
  | (Ret true, s1) =>
      (name ∉ keys (obj s)) /\
      exists client,
        accounts (obj s1) = accounts (obj s) ++ [(name, client)] /\
        (auto_connect = true -> client_connected client = true)
  | _ => True
  end.
Proof.
  destruct s as [[accs cur] w t].
  unfold add_account, with_lock, bind, this, on_object, set_this, log, emit,
    modify, ret.
  cbn [obj world trace].
  destruct (contains name {| accounts := accs; current_account := cur |}) eqn:Hin;
    cbn [obj world trace]; [exact I|].
  assert (Hout : name ∉ accs.*1).
  { intros Hk.
    apply (contains_spec name {| accounts := accs; current_account := cur |})
      in Hk. congruence. }
  destruct auto_connect; cbn [obj world trace].
  - pose proof (emt5_initialize_connected path (Some login) (Some password)
                  (Some server) 60000 false
                  (St (EMT5.__init__ 0 false) w (t ++ [e_acquire]))) as Hup.
    destruct (EMT5.initialize path (Some login) (Some password) (Some server)
                60000 false (St (EMT5.__init__ 0 false) w (t ++ [e_acquire])))
      as [r s1].
    destruct r as [[|]|e];
      cbn [obj world trace accounts current_account put_accounts put_current];
      try exact I.
    destruct cur;
      cbn [obj world trace accounts current_account put_accounts put_current];
      (split; [exact Hout|]); exists (obj s1);
      (split; [now rewrite setitem_absent | intros _; exact Hup]).
  - destruct cur;
      cbn [obj world trace accounts current_account put_accounts put_current];
      (split; [exact Hout|]); exists (EMT5.__init__ 0 false);
      (split; [now rewrite setitem_absent | discriminate]).
Qed.

Lemma item_app_new name c l : name ∉ l.*1 -> item name (l ++ [(name, c)]) = Some c.
Proof.
  induction l as [|[k v] l IH]; simpl; intros Hout.
  - now rewrite bool_decide_eq_true_2.
  - apply not_elem_of_cons in Hout as [Hne Hout].
    rewrite bool_decide_eq_false_2; [now apply IH | congruence].
Qed.

(** X26: the lookups follow the updates.  After an [add_account] that
    returned [True], [get_account] of the alias gives the client that was
    added, which is connected when [auto_connect] was given, and
    [list_accounts] gives the aliases as before with the new one at the
    end; after a [remove_account] that returned [True], [get_account] of
    the alias gives [None] and [list_accounts] the other aliases in their
    order; and in both cases [get_account] of any other alias gives what
    it gave before. *)
Theorem lookups_follow_updates name login password server path auto_connect
    (s : st W manager) :
  match add_account name login password server path auto_connect s with
  | (Ret true, s1) =>
      (exists client, fst (get_account (Some name) s1) = Ret (Some client) /\
         (auto_connect = true -> client_connected client = true)) /\
      fst (list_accounts s1) = Ret (keys (obj s) ++ [name]) /\
      forall other, other <> name ->
        fst (get_account (Some other) s1) = fst (get_account (Some other) s)
  | _ => True
  end /\
  match remove_account name s with
  | (Ret true, s1) =>
      fst (get_account (Some name) s1) = Ret None /\
      fst (list_accounts s1) = Ret (filter (fun k => k <> name) (keys (obj s))) /\
      forall other, other <> name ->
        fst (get_account (Some other) s1) = fst (get_account (Some other) s)
  | _ => True
  end.
Proof.
  split.
  - pose proof (add_account_success name login password server path
                  auto_connect s) as Hadd.
    destruct (add_account name login password server path auto_connect s)
      as [[[|]|e] s1]; try exact I.
    destruct Hadd as (Hout & client & Haccs & Hup).
    rewrite get_account_run, list_accounts_run. cbn [fst].
    unfold keys in *. rewrite Haccs.
    split; [exists client; split; [now rewrite item_app_new | exact Hup]|].
    split; [now rewrite fmap_app|].
    intros other Hne. rewrite !get_account_run. cbn [fst]. rewrite Haccs.
    rewrite <- setitem_absent by exact Hout. now rewrite item_setitem_ne.
  - pose proof (remove_account_cases name s) as Hrem.
    destruct (remove_account name s) as [[[|]|e] s1]; try exact I.
    destruct Hrem as [_ [([=] & _) | [(e & [=] & _)
                         | (_ & Hin & [client Haccs] & _)]]].
    rewrite !get_account_run, list_accounts_run. cbn [fst].
    unfold keys in *. rewrite Haccs.
    split; [now rewrite item_delitem_eq|].
    split; [now rewrite keys_delitem, keys_setitem_present|].
    intros other Hne. rewrite !get_account_run. cbn [fst]. rewrite Haccs.
    now rewrite item_delitem_ne, item_setitem_ne.
Qed.

(** X27: in a manager whose selection is in step with its table,
    [get_current_account] changes nothing, takes the lock once, and
    returns [None] exactly when the table is empty; after a
    [switch_account] that returned [True] it returns the client of that
    alias, and after one that did not it returns what it returned
    before. *)
Theorem current_account_available name (s : st W manager) :
  selection_ok (obj s) ->
  match get_current_account s with
  | (r, s') =>
      obj s' = obj s /\ world s' = world s /\
      trace s' = trace s ++ [e_acquire; e_release] /\
      (r = Ret None <-> accounts (obj s) = []) /\
      match switch_account name s with
      | (Ret true, s1) =>
          exists client, fst (get_current_account s1) = Ret (Some client) /\
            item name (accounts (obj s)) = Some client
      | (_, s1) => fst (get_current_account s1) = r
      end
  end.
Proof.
  intros [Hnone Hkey]. unfold get_current_account.
  rewrite get_account_run. cbn [obj world trace].
  split; [reflexivity|]. split; [reflexivity|]. split; [reflexivity|].
  split.
  - destruct (current_account (obj s)) as [c|] eqn:Hc.
    + split.
      * intros [= Hitem]. apply item_None in Hitem.
        exfalso. apply Hitem. now apply Hkey.
      * intros Hnil. apply Hnone in Hnil. discriminate.
    + split; [intros _; now apply Hnone | reflexivity].
  - pose proof (switch_account_cases name s) as Hsw.
    destruct (switch_account name s) as [r1 s1].
    destruct Hsw as (_ & _ & [(-> & _ & Hobj) | (-> & Hin & Haccs & Hcur)]).
    + rewrite get_account_run. cbn [fst]. now rewrite Hobj.
    + rewrite get_account_run. cbn [fst]. rewrite Hcur, Haccs.
      destruct (item name (accounts (obj s))) as [client|] eqn:Hitem.
      * now exists client.
      * apply item_None in Hitem. contradiction.
Qed.


(** *** All clients at once *)

Lemma emt5_shutdown_flag (s : st W EMT5.emt5) :
  client_connected (obj s) = true ->
  match EMT5.shutdown s with
  | (r, s') =>
      exists reply,
        trace s' = trace s ++ e_call c_shutdown reply
                     :: match r with Ret _ => [e_log INFO] | Raise _ => [] end /\
        match r with
        | Ret _ => client_connected (obj s') = false
        | Raise _ => obj s' = obj s
        end
  end.
Proof.
  destruct s as [[c magic keep] w t]. unfold client_connected.
  cbn [obj EMT5._connection]. intros Hc.
  unfold EMT5.shutdown, EMT5.on_connection, zoom, Connection.shutdown, bind,
    this, mt5_shutdown, outside, Connection.set_connected, set_this, log, emit,
    modify, ret.
  cbn [obj world trace EMT5._connection]. rewrite Hc. cbn [obj world trace].
  destruct (t_shutdown w) as [[[]|e] w1]; cbn [obj world trace].
  - eexists. split; [rewrite <- app_assoc; reflexivity | reflexivity].
  - eexists. split; [reflexivity|]. unfold EMT5.put_connection.
    cbn [EMT5._connection EMT5._default_magic EMT5.keep_alive]. reflexivity.
Qed.

Lemma shutdown_one_spec name client (s : st W manager) :
  item name (accounts (obj s)) = Some client ->
  match shutdown_one name client s with
  | (r, s') =>
      keys (obj s') = keys (obj s) /\
      current_account (obj s') = current_account (obj s) /\
      (forall k, k <> name ->
         item k (accounts (obj s')) = item k (accounts (obj s))) /\
      exists new,
        trace s' = trace s ++ new /\ List.filter is_lock new = [] /\
        match r with
        | Ret _ =>
            (exists c', item name (accounts (obj s')) = Some c' /\
                        client_connected c' = false) /\
            length (List.filter is_shutdown new) =
              if client_connected client then 1%nat else 0%nat
        | Raise _ => accounts (obj s') = accounts (obj s)
        end
  end.
Proof.
  intros Hitem. destruct s as [[accs cur] w t]. cbn [obj accounts] in Hitem.
  pose proof (item_Some_key _ _ _ Hitem) as Hkey.
  unfold shutdown_one, bind, on_object, lift_outcome.
  unfold EMT5.is_connected, EMT5.on_connection, zoom, Connection.is_connected,
    bind, this, ret.
  cbn [obj world trace fst snd].
  fold (client_connected client).
  destruct (client_connected client) eqn:Hup.
  2:{ cbn [obj world trace accounts current_account].
      split; [reflexivity|]. split; [reflexivity|]. split; [reflexivity|].
      exists []. rewrite app_nil_r. split; [reflexivity|].
      split; [reflexivity|]. split; [now exists client | reflexivity]. }
  cbn [obj world trace fst snd].
  pose proof (emt5_shutdown_flag (St client w t) Hup) as Hs.
  destruct (EMT5.shutdown (St client w t)) as [r s1].
  destruct Hs as (reply & Htr & Hr). cbn [obj world trace] in Htr.
  unfold set_this, modify, log, emit, ret.
  cbn [obj world trace fst snd accounts current_account put_accounts].
  destruct r as [[]|e]; cbn [obj world trace accounts current_account keys].
  - unfold keys. cbn [obj accounts put_accounts current_account].
    split; [now apply keys_setitem_present|]. split; [reflexivity|].
    split; [intros k Hk; now apply item_setitem_ne|].
    eexists. split; [cbn [trace]; rewrite Htr, <- app_assoc; reflexivity|].
    split; [reflexivity|]. cbn [obj accounts put_accounts].
    split; [exists (obj s1); split; [now apply item_setitem_eq | exact Hr]|].
    reflexivity.
  - cbn [obj] in Hr. unfold keys.
    cbn [obj accounts put_accounts current_account trace].
    rewrite Hr, (setitem_same _ _ _ Hitem).
    split; [reflexivity|]. split; [reflexivity|]. split; [reflexivity|].
    eexists. split; [exact Htr|]. split; reflexivity.
Qed.

Lemma shutdown_loop_spec items : forall s : st W manager,
  NoDup items.*1 ->
  (forall name client, (name, client) ∈ items ->
     item name (accounts (obj s)) = Some client) ->
  match shutdown_loop items s with
  | (r, s') =>
      keys (obj s') = keys (obj s) /\
      current_account (obj s') = current_account (obj s) /\
      (forall k, k ∉ items.*1 ->
         item k (accounts (obj s')) = item k (accounts (obj s))) /\
      exists new,
        trace s' = trace s ++ new /\ List.filter is_lock new = [] /\
        match r with
        | Ret _ =>
            (forall name, name ∈ items.*1 ->
               exists c', item name (accounts (obj s')) = Some c' /\
                          client_connected c' = false) /\
            length (List.filter is_shutdown new) =
              length (List.filter (fun kv => client_connected kv.2) items)
        | Raise _ => True
        end
  end.
Proof.
  induction items as [|[name client] rest IH]; intros s Hnd Hitems.
  - cbn. split; [reflexivity|]. split; [reflexivity|]. split; [reflexivity|].
    exists []. rewrite app_nil_r. repeat split.
    intros name Hin. now apply elem_of_nil in Hin.
  - cbn [shutdown_loop]. unfold bind.
    pose proof (NoDup_cons_1_1 _ _ Hnd) as Hout.
    apply NoDup_cons_1_2 in Hnd.
    pose proof (shutdown_one_spec name client s (Hitems name client ltac:(now left)))
      as Hone.
    destruct (shutdown_one name client s) as [[[]|e] s1].
    + destruct Hone as (Hk1 & Hc1 & Hf1 & new1 & Ht1 & Hl1 & (c1 & Hi1 & Hd1)
                        & Hn1).
      assert (Hitems1 : forall n c, (n, c) ∈ rest ->
                item n (accounts (obj s1)) = Some c).
      { intros n c Hin. rewrite Hf1.
        - apply Hitems. now right.
        - intros ->. apply Hout. apply list_elem_of_fmap. now exists (name, c). }
      specialize (IH s1 Hnd Hitems1).
      destruct (shutdown_loop rest s1) as [r s2].
      destruct IH as (Hk2 & Hc2 & Hf2 & new2 & Ht2 & Hl2 & Hr2).
      split; [congruence|]. split; [congruence|].
      split.
      { intros k Hk. apply not_elem_of_cons in Hk as [Hne Hk].
        rewrite Hf2 by exact Hk. now apply Hf1. }
      exists (new1 ++ new2).
      split; [rewrite Ht2, Ht1; now rewrite app_assoc|].
      split; [now rewrite List.filter_app, Hl1, Hl2|].
      destruct r as [[]|e]; [|exact I].
      destruct Hr2 as [Hall Hlen]. split.
      * intros n Hn. apply elem_of_cons in Hn as [->|Hn]; [|now apply Hall].
        exists c1. rewrite Hf2 by exact Hout. now split.
      * rewrite List.filter_app, length_app, Hn1, Hlen. cbn [List.filter snd].
        now destruct (client_connected client).
    + destruct Hone as (Hk1 & Hc1 & Hf1 & new1 & Ht1 & Hl1 & _).
      split; [exact Hk1|]. split; [exact Hc1|].
      split; [intros k Hk; apply not_elem_of_cons in Hk as [Hne _]; now apply Hf1|].
      exists new1. now repeat split.
Qed.

(** X28: [shutdown_all] never takes the lock and changes neither the
    aliases nor the selection; when it returns, every client of the table
    is disconnected, and [mt5.shutdown] was called once for each client
    that was connected, and for no other. *)
Theorem shutdown_all_disconnects (s : st W manager) :
  NoDup (keys (obj s)) ->
  match shutdown_all s with
  | (r, s') =>
      keys (obj s') = keys (obj s) /\
      current_account (obj s') = current_account (obj s) /\
      exists new,
        trace s' = trace s ++ new /\ List.filter is_lock new = [] /\
        match r with
        | Ret _ =>
            (forall name client,
               item name (accounts (obj s')) = Some client ->
               client_connected client = false) /\
            length (List.filter is_shutdown new) =
              length (List.filter (fun kv => client_connected kv.2)
                        (accounts (obj s)))
        | Raise _ => True
        end
  end.
Proof.
  intros Hnd. unfold shutdown_all, bind, this.
  pose proof (shutdown_loop_spec (accounts (obj s)) s Hnd
                (fun n c Hin => elem_item n c _ Hnd Hin)) as Hloop.
  destruct (shutdown_loop (accounts (obj s)) s) as [r s'].
  destruct Hloop as (Hk & Hc & _ & new & Ht & Hl & Hr).
  split; [exact Hk|]. split; [exact Hc|].
  exists new. split; [exact Ht|]. split; [exact Hl|].
  destruct r as [[]|e]; [|exact I].
  destruct Hr as [Hall Hlen]. split; [|exact Hlen].
  intros name client Hitem.
  destruct (Hall name) as (c' & Hc' & Hoff).
  { change (name ∈ keys (obj s)). rewrite <- Hk.
    now apply item_Some_key with client. }
  congruence.
Qed.


Lemma execute_one_spec method name client results (s : st W manager) :
  item name (accounts (obj s)) = Some client ->
  match execute_one method name client results s with
  | (r, s') =>
      keys (obj s') = keys (obj s) /\
      current_account (obj s') = current_account (obj s) /\
      (forall k, k <> name ->
         item k (accounts (obj s')) = item k (accounts (obj s))) /\
      exists v, r = Ret (<[name := v]> results) /\
        (client_connected client = false ->
         v = error_dict not_connected /\ s' = s)
  end.
Proof.
  intros Hitem. destruct s as [[accs cur] w t]. cbn [obj accounts] in Hitem.
  pose proof (item_Some_key _ _ _ Hitem) as Hkey.
  unfold execute_one, bind, on_object, lift_outcome.
  unfold EMT5.is_connected, EMT5.on_connection, zoom, Connection.is_connected,
    bind, this, ret.
  cbn [obj world trace fst snd].
  fold (client_connected client).
  destruct (client_connected client) eqn:Hup; cbn [negb obj world trace fst snd].
  2:{ split; [reflexivity|]. split; [reflexivity|]. split; [reflexivity|].
      eexists. split; [reflexivity|]. intros _. split; reflexivity. }
  destruct (method (St client w t)) as [r s1].
  unfold set_this, modify.
  cbn [obj world trace fst snd accounts current_account put_accounts].
  destruct r as [v|e];
    cbn [obj world trace fst snd accounts current_account put_accounts];
    unfold keys; cbn [obj accounts put_accounts current_account];
    (split; [now apply keys_setitem_present|]); (split; [reflexivity|]);
    (split; [intros k Hk; now apply item_setitem_ne|]);
    eexists; (split; [reflexivity | discriminate]).
Qed.

Lemma execute_loop_spec method items : forall results (s : st W manager),
  NoDup items.*1 ->
  (forall name client, (name, client) ∈ items ->
     item name (accounts (obj s)) = Some client) ->
  match execute_loop method items results s with
  | (r, s') =>
      keys (obj s') = keys (obj s) /\
      current_account (obj s') = current_account (obj s) /\
      (forall k, k ∉ items.*1 ->
         item k (accounts (obj s')) = item k (accounts (obj s))) /\
      exists res' : dict,
        r = Ret res' /\
        dom res' = dom results ∪ list_to_set items.*1 /\
        (forall k, k ∉ items.*1 -> res' !! k = results !! k) /\
        (forall name client, (name, client) ∈ items ->
           client_connected client = false ->
           res' !! name = Some (error_dict not_connected) /\
           item name (accounts (obj s')) = Some client)
  end.
Proof.
  induction items as [|[name client] rest IH]; intros results s Hnd Hitems.
  - cbn. split; [reflexivity|]. split; [reflexivity|]. split; [reflexivity|].
    exists results. split; [reflexivity|].
    split; [cbn; now rewrite (right_id_L ∅ (∪))|].
    split; [reflexivity|]. intros n c Hin. now apply elem_of_nil in Hin.
  - cbn [execute_loop]. unfold bind.
    pose proof (NoDup_cons_1_1 _ _ Hnd) as Hout.
    apply NoDup_cons_1_2 in Hnd.
    pose proof (execute_one_spec method name client results s
                  (Hitems name client ltac:(now left))) as Hone.
    destruct (execute_one method name client results s) as [r1 s1].
    destruct Hone as (Hk1 & Hc1 & Hf1 & v & -> & Hoff).
    assert (Hitems1 : forall n c, (n, c) ∈ rest ->
              item n (accounts (obj s1)) = Some c).
    { intros n c Hin. rewrite Hf1.
      - apply Hitems. now right.
      - intros ->. apply Hout. apply list_elem_of_fmap. now exists (name, c). }
    specialize (IH (<[name := v]> results) s1 Hnd Hitems1).
    destruct (execute_loop method rest (<[name := v]> results) s1) as [r s2].
    destruct IH as (Hk2 & Hc2 & Hf2 & res' & -> & Hdom & Hres & Hall).
    split; [congruence|]. split; [congruence|].
    split.
    { intros k Hk. apply not_elem_of_cons in Hk as [Hne Hk].
      rewrite Hf2 by exact Hk. now apply Hf1. }
    exists res'. split; [reflexivity|].
    split; [rewrite Hdom, dom_insert_L; cbn [fmap list_fmap fst];
           rewrite list_to_set_cons, (comm_L (∪) {[name]} (dom results));
           now rewrite (assoc_L (∪))|].
    split.
    { intros k Hk. apply not_elem_of_cons in Hk as [Hne Hk].
      rewrite Hres by exact Hk. now apply lookup_insert_ne. }
    intros n c Hin Hc. apply elem_of_cons in Hin as [[= -> ->]|Hin].
    + destruct (Hoff Hc) as [-> ->].
      rewrite Hres by exact Hout. rewrite lookup_insert_eq.
      split; [reflexivity|]. rewrite Hf2 by exact Hout.
      apply Hitems. now left.
    + now apply Hall.
Qed.

(** X29: [execute_on_all] never raises: it returns a dict with exactly
    the aliases of the table as keys, and changes neither the aliases nor
    the selection; the entry of a client that is not connected is the
    error dict, and that client is left as it was, the method not having
    been run on it. *)
Theorem execute_on_all_results method (s : st W manager) :
  NoDup (keys (obj s)) ->
  match execute_on_all method s with
  | (r, s') =>
      keys (obj s') = keys (obj s) /\
      current_account (obj s') = current_account (obj s) /\
      exists results : dict,
        r = Ret results /\
        dom results = list_to_set (keys (obj s)) /\
        forall name client,
          item name (accounts (obj s)) = Some client ->
          client_connected client = false ->
          results !! name = Some (error_dict not_connected) /\
          item name (accounts (obj s')) = Some client
  end.
Proof.
  intros Hnd. unfold execute_on_all, bind, this.
  pose proof (execute_loop_spec method (accounts (obj s)) ∅ s Hnd
                (fun n c Hin => elem_item n c _ Hnd Hin)) as Hloop.
  destruct (execute_loop method (accounts (obj s)) ∅ s) as [r s'].
  destruct Hloop as (Hk & Hc & _ & res' & -> & Hdom & _ & Hall).
  split; [exact Hk|]. split; [exact Hc|].
  exists res'. split; [reflexivity|].
  split; [rewrite Hdom, dom_empty_L; unfold keys; now rewrite (left_id_L ∅ (∪))|].
  intros name client Hitem Hoff. apply Hall; [|exact Hoff].
  now apply item_elem.
Qed.

End Facts.

Lemma current_account_available_witness :
  match get_current_account (W := Sim.sim) (St one_account Sim.running []) with
  | (r, s') =>
      obj s' = one_account /\ world s' = Sim.running /\
      trace s' = [e_acquire; e_release] /\
      (r = Ret None <-> accounts one_account = []) /\
      exists client,
        fst (get_current_account
               (snd (switch_account "main" (St one_account Sim.running []))))
        = Ret (Some client) /\
        item "main" (accounts one_account) = Some client
  end.
Proof.
  assert (Hsel : selection_ok one_account).
  { split; [split; discriminate | intros name [= <-]; now left]. }
  exact (current_account_available (W := Sim.sim) "main"
           (St one_account Sim.running []) Hsel).
Defined.

Lemma shutdown_all_disconnects_witness :
  match shutdown_all (W := Sim.sim) (St two_accounts Sim.running []) with
  | (r, s') =>
      keys (obj s') = ["main"; "hedge"] /\
      current_account (obj s') = Some "main" /\
      exists new,
        trace s' = [] ++ new /\ List.filter is_lock new = [] /\
        match r with
        | Ret _ =>
            (forall name client,
               item name (accounts (obj s')) = Some client ->
               client_connected client = false) /\
            length (List.filter is_shutdown new) = 1%nat
        | Raise _ => True
        end
  end.
Proof.
  assert (Hnd : NoDup (keys two_accounts)).
  { apply (bool_decide_unpack _). vm_compute. reflexivity. }
  exact (shutdown_all_disconnects (W := Sim.sim)
           (St two_accounts Sim.running []) Hnd).
Defined.

Lemma execute_on_all_results_witness :
  match execute_on_all (W := Sim.sim) EMT5.get_version
          (St two_accounts Sim.running []) with
  | (r, s') =>
      keys (obj s') = ["main"; "hedge"] /\
      current_account (obj s') = Some "main" /\
      exists results : dict,
        r = Ret results /\
        dom results = list_to_set ["main"; "hedge"] /\
        forall name client,
          item name (accounts two_accounts) = Some client ->
          client_connected client = false ->
          results !! name = Some (error_dict not_connected) /\
          item name (accounts (obj s')) = Some client
  end.
Proof.
  assert (Hnd : NoDup (keys two_accounts)).
  { apply (bool_decide_unpack _). vm_compute. reflexivity. }
  exact (execute_on_all_results (W := Sim.sim) EMT5.get_version
           (St two_accounts Sim.running []) Hnd).
Defined.

End ManagerProps.
